(** * Manifest synthesis for MPI containers: a shallow embedding

    The development follows the Go packages of the repository:
    [deffile] (definition-file section builders, the hybrid assembler and
    the template post-processor), [container] (the inspection parser) and
    [ldd] (the shared-library dependency inspector).

    Go strings are byte strings and are modelled by [string]; an [os.File]
    opened for writing is the sequence of payloads handed to [WriteString];
    a Go [error] is a small tree that remembers how [fmt.Errorf] nested it. *)

From stdpp Require Import gmap strings list.
From Stdlib Require Import Strings.Byte Strings.Ascii ZArith Lia.

Local Open Scope char_scope.

(** ** Go string literals

    The source writes [\n], [\t], [\\] and the double quote inside its
    literals.  From here on a string literal is read the way the Go
    compiler reads it, so that the text of the model can be compared with
    the text of the source; the double quote is spelled [\x22]. *)
Module GoLit.
Fixpoint unescape (s : string) : string :=
  match s with
  | String "\" (String "n" r) => String "010" (unescape r)
  | String "\" (String "t" r) => String "009" (unescape r)
  | String "\" (String "\" r) => String "\" (unescape r)
  | String "\" (String "x" (String "2" (String "2" r))) =>
      String "034" (unescape r)
  | String c r => String c (unescape r)
  | EmptyString => EmptyString
  end.

Fixpoint escape (s : string) : string :=
  match s with
  | String c r =>
      if Ascii.eqb c "010" then String "\" (String "n" (escape r))
      else if Ascii.eqb c "009" then String "\" (String "t" (escape r))
      else if Ascii.eqb c "\" then String "\" (String "\" (escape r))
      else if Ascii.eqb c "034"
           then String "\" (String "x" (String "2" (String "2" (escape r))))
      else String c (escape r)
  | EmptyString => EmptyString
  end.

Definition parse (bs : list byte) : string :=
  unescape (String.string_of_list_byte bs).
Definition print (s : string) : list byte :=
  String.list_byte_of_string (escape s).
End GoLit.

String Notation string GoLit.parse GoLit.print : string_scope.
String Notation string GoLit.parse GoLit.print : stdpp_scope.

(** ** The standard library's [strings] package *)
Module strings.

(** [s[n:]], clipped at the end of [s] *)
Fixpoint drop (n : nat) (s : string) : string :=
  match n, s with
  | S k, String _ r => drop k r
  | _, _ => s
  end.

(** [s[:n]], clipped at the end of [s] *)
Fixpoint take (n : nat) (s : string) : string :=
  match n, s with
  | S k, String c r => String c (take k r)
  | _, _ => EmptyString
  end.

Fixpoint HasPrefix (s prefix : string) {struct prefix} : bool :=
  match prefix with
  | EmptyString => true
  | String a p =>
      match s with
      | EmptyString => false
      | String b r => Ascii.eqb a b && HasPrefix r p
      end
  end.

Definition HasSuffix (s suffix : string) : bool :=
  Nat.leb (String.length suffix) (String.length s)
  && String.eqb (drop (String.length s - String.length suffix) s) suffix.

Fixpoint Contains (s substr : string) : bool :=
  HasPrefix s substr
  || match s with
     | EmptyString => false
     | String _ r => Contains r substr
     end.

(** The number of replacements still allowed: [None] when Go's [n] is
    negative (no limit). *)
Definition limit_of (n : Z) : option nat :=
  if (n <? 0)%Z then None else Some (Z.to_nat n).

Definition spent (limit : option nat) : bool :=
  match limit with Some O => true | _ => false end.

Definition tick (limit : option nat) : option nat :=
  match limit with Some (S k) => Some k | other => other end.

(** Left-to-right scan for non-overlapping occurrences of a non-empty
    [old]; [skip] counts the bytes of a matched occurrence that are
    still to be passed over. *)
Fixpoint replace_go (old new : string) (limit : option nat) (skip : nat)
    (s : string) : string :=
  match s with
  | EmptyString => EmptyString
  | String c r =>
      match skip with
      | S k => replace_go old new limit k r
      | O =>
          if spent limit then s
          else if HasPrefix s old
               then new +:+ replace_go old new (tick limit)
                              (String.length old - 1) r
               else String c (replace_go old new limit 0 r)
      end
  end.

(** With an empty [old], Go inserts [new] at every rune boundary.  Runes
    are single bytes here; no call site of the repository passes an
    empty [old]. *)
Fixpoint replace_empty (new : string) (limit : option nat) (s : string)
    : string :=
  if spent limit then s
  else new +:+ match s with
               | EmptyString => EmptyString
               | String c r => String c (replace_empty new (tick limit) r)
               end.

Definition Replace (s old new : string) (n : Z) : string :=
  if String.eqb old new || (n =? 0)%Z then s
  else match old with
       | EmptyString => replace_empty new (limit_of n) s
       | _ => replace_go old new (limit_of n) 0 s
       end.

(** First field and remaining fields of [s] cut at a non-empty [sep] *)
Fixpoint split_go (sep : string) (skip : nat) (s : string)
    : string * list string :=
  match s with
  | EmptyString => (EmptyString, [])
  | String c r =>
      match skip with
      | S k => split_go sep k r
      | O =>
          if HasPrefix s sep
          then (EmptyString,
                let '(h, t) := split_go sep (String.length sep - 1) r in
                h :: t)
          else let '(h, t) := split_go sep 0 r in (String c h, t)
      end
  end.

Fixpoint explode (s : string) : list string :=
  match s with
  | EmptyString => []
  | String c r => String c EmptyString :: explode r
  end.

Definition Split (s sep : string) : list string :=
  match sep with
  | EmptyString => explode s
  | _ => let '(h, t) := split_go sep 0 s in h :: t
  end.

Definition Join (elems : list string) (sep : string) : string :=
  String.concat sep elems.

End strings.

(** ** The standard library's [path] package

    [filepath.Base] agrees with [path.Base] on the hosts the tool runs on
    (the separator is the slash). *)
Module path.

Fixpoint trim_slashes (s : string) : string :=
  match s with
  | EmptyString => EmptyString
  | String c r =>
      match trim_slashes r with
      | EmptyString => if Ascii.eqb c "/" then EmptyString
                       else String c EmptyString
      | r' => String c r'
      end
  end.

(** The text after the last slash, if there is a slash *)
Fixpoint after_last_slash (s : string) : option string :=
  match s with
  | EmptyString => None
  | String c r =>
      match after_last_slash r with
      | Some t => Some t
      | None => if Ascii.eqb c "/" then Some r else None
      end
  end.

Definition Base (p : string) : string :=
  if String.eqb p "" then "."
  else
    let p1 := trim_slashes p in
    let p2 := default p1 (after_last_slash p1) in
    if String.eqb p2 "" then "/" else p2.

End path.

Local Close Scope char_scope.

(** ** Errors and outcomes

    [fmt.Errorf] flattens its arguments into one message; the tree keeps
    the nesting, and [message] gives the text Go would print. *)
Inductive error : Type :=
| OSError (msg : string)
| Errorf (msg : string)
| Wrapf (prefix : string) (cause : error).

Fixpoint message (e : error) : string :=
  match e with
  | OSError msg => msg
  | Errorf msg => msg
  | Wrapf prefix cause => prefix +:+ message cause
  end.

(** A call returns normally, returns a non-nil [error], or panics (a nil
    pointer is dereferenced). *)
Inductive outcome (A : Type) : Type :=
| Ok (a : A)
| Err (e : error)
| Panic.
Arguments Ok {A} a.
Arguments Err {A} e.
Arguments Panic {A}.

(** ** Descriptors (the fields the modelled functions read)

    The [app] and [sysCfg] pointers the builders receive are never nil at
    their call sites and are modelled by the records they point to; the
    two pointers inside [DefFileData] may be nil. *)
Module sys.
Record Config : Type := {
  Nopriv : bool;
  Debug : bool;
  SingularityBin : string;
  SudoBin : string;
  Persistent : string;
  Registry : string
}.
End sys.

Module sy.
(** The [sy] package is not part of the sources at hand: the integrity
    check of the installation and the test whether a sub-command needs
    [sudo] are parameters. *)
Class Pkg : Type := {
  CheckIntegrity : sys.Config -> option error;
  IsSudoCmd : string -> sys.Config -> bool
}.
End sy.

Module exec.
(** A command as [exec.CommandContext] and the assignment to [cmd.Dir]
    set it up *)
Record Cmd : Type := {
  Path : string;
  Args : list string;
  Dir : string
}.

(** What [cmd.Run] leaves behind: both buffers and the error, which is
    non-nil for a non-zero exit status and for a timeout. *)
Record Result : Type := {
  Stdout : string;
  Stderr : string;
  Err : option string
}.

(** The host: what running a command gives, and which paths exist
    ([util.PathExists]) *)
Record Host : Type := {
  Run : Cmd -> Result;
  PathExists : string -> bool
}.
End exec.

Module distro.
Record ID : Type := {
  Name : string;
  Version : string;
  Codename : string
}.

(** The registry base-image resolver lives in a file of the package
    that is not part of the sources at hand; it is a parameter. *)
Class Resolver : Type := {
  GetBaseImageLibraryURL : ID -> sys.Config -> string
}.

(** Two resolvers for worked examples: a registry that hosts no base
    image, and one that hosts every base image at the same address. *)
Definition no_registry : Resolver :=
  {| GetBaseImageLibraryURL := fun _ _ => "" |}.

Definition registry_at (url : string) : Resolver :=
  {| GetBaseImageLibraryURL := fun _ _ => url |}.
End distro.

Module implem.
Record Info : Type := {
  ID : string;
  Version : string;
  URL : string
}.
End implem.

Module buildenv.
Record Info : Type := {
  InstallDir : string;
  SrcDir : string;
  BuildDir : string
}.
End buildenv.

Module app.
Record Info : Type := {
  Name : string;
  BinName : string;
  BinPath : string;
  Source : string;
  InstallCmd : string
}.

Definition set_BinPath (p : string) (a : Info) : Info :=
  {| Name := Name a; BinName := BinName a; BinPath := p;
     Source := Source a; InstallCmd := InstallCmd a |}.
End app.

(** ** Collaborators outside the repository *)
Module util.
(** The archive and URL helpers of the [go_util] package: string
    constants and total string functions, as their call sites use
    them. *)
Class Pkg : Type := {
  FormatBZ2 : string;
  FormatGZ : string;
  FormatTAR : string;
  UnknownFormat : string;
  FileURL : string;
  HttpURL : string;
  GitURL : string;
  DetectTarballFormat : string -> string;
  GetTarArgs : string -> string;
  DetectURLType : string -> string
}.

(** Modelled from the spec: the helpers of [go_util], which is not part
    of the sources at hand.  Archive-suffix sniffing: [.tar.bz2] is the
    bzip2 format, [.tar.gz] and [.tgz] the gzip format, [.tar] the plain
    format, anything else is unknown; the bzip2, gzip and plain flags
    are those the template processor spells out.  A source location is
    classified by its scheme: http(s), git, or else a file reference. *)
Definition spec : Pkg :=
  {| FormatBZ2 := "bz2";
     FormatGZ := "gz";
     FormatTAR := "tar";
     UnknownFormat := "unknown";
     FileURL := "file";
     HttpURL := "http";
     GitURL := "git";
     DetectTarballFormat := fun s =>
       if strings.HasSuffix s ".tar.bz2" then "bz2"
       else if strings.HasSuffix s ".tar.gz" || strings.HasSuffix s ".tgz"
            then "gz"
       else if strings.HasSuffix s ".tar" then "tar"
       else "unknown";
     GetTarArgs := fun format =>
       if String.eqb format "bz2" then "-xjf"
       else if String.eqb format "gz" then "-xzf"
       else if String.eqb format "tar" then "-xf"
       else "";
     DetectURLType := fun url =>
       if strings.HasPrefix url "http://" || strings.HasPrefix url "https://"
       then "http"
       else if strings.HasPrefix url "git://" || strings.HasSuffix url ".git"
            then "git"
       else "file" |}.
End util.

Module filepath.
(** [filepath.Join] cleans its result lexically; the builders only
    interpolate what it returns, so it is a parameter. *)
Class Pkg : Type := {
  Join : string -> string -> string
}.

(** [filepath.Join] on two operands that are already clean, for worked
    examples *)
Definition on_clean_operands : Pkg :=
  {| Join := fun dir elem =>
       if String.eqb dir "" then elem
       else if String.eqb elem "" then dir
       else dir +:+ "/" +:+ elem |}.
End filepath.

(** ** Files opened for writing *)
Module os.
(** [written]: the payloads of the successful [WriteString] calls, in
    order.  [fault]: [Some (n, msg)] when the operating system accepts
    [n] more writes and then reports [msg]; [None] when it never fails. *)
Record File : Type := {
  written : list string;
  fault : option (nat * string)
}.

Definition content (f : File) : string := String.concat "" (written f).

(** What [os.Create] meets on the host *)
Record Host : Type := {
  create_error : option string;
  disk_fault : option (nat * string)
}.

Definition Create (h : Host) (name : string) : File + error :=
  match create_error h with
  | Some msg => inr (OSError msg)
  | None => inl {| written := []; fault := disk_fault h |}
  end.

(** The files [ioutil.ReadFile] and [ioutil.WriteFile] see: contents by
    path, the paths that cannot be opened for writing, and the paths
    on which the write, or the close that follows it, fails, with the
    number of bytes that reach the file before it does. *)
Record Disk : Type := {
  files : gmap string string;
  readonly : gset string;
  short : gmap string nat
}.

Definition ReadFile (d : Disk) (name : string) : string + error :=
  match files d !! name with
  | Some data => inl data
  | None => inr (OSError ("open " +:+ name
                          +:+ ": no such file or directory"))
  end.

(** Opens with [O_WRONLY|O_CREATE|O_TRUNC], writes, closes.  A refused
    open leaves the file as it was; once the file is open its old
    content is gone, so a write that fails leaves the bytes that were
    taken.  The permission bits only matter when the file is
    created. *)
Definition WriteFile (d : Disk) (name data : string)
    : Disk * option error :=
  if decide (name ∈ readonly d)
  then (d, Some (OSError ("open " +:+ name +:+ ": permission denied")))
  else
    match short d !! name with
    | Some n =>
        ({| files := <[name := strings.take n data]> (files d);
            readonly := readonly d; short := short d |},
         Some (OSError ("write " +:+ name
                        +:+ ": no space left on device")))
    | None =>
        ({| files := <[name := data]> (files d);
            readonly := readonly d; short := short d |}, None)
    end.
End os.

(** ** Section builders as state transformers

    Every builder receives the same open file [f] and, where it has one,
    the same [app] pointer: both live in the [Store], so that a write
    through the pointer is seen by every later builder. *)
Record Store : Type := {
  file : os.File;
  appInfo : app.Info
}.

Definition M (A : Type) : Type := Store -> outcome A * Store.

Definition ret {A} (a : A) : M A := fun st => (Ok a, st).

Definition bind {A B} (m : M A) (k : A -> M B) : M B :=
  fun st =>
    match m st with
    | (Ok a, st') => k a st'
    | (Err e, st') => (Err e, st')
    | (Panic, st') => (Panic, st')
    end.

Declare Scope builder_scope.
Delimit Scope builder_scope with builder.
Notation "x <- m ;; k" := (bind m (fun x => k))
  (at level 100, m at next level, right associativity) : builder_scope.
Notation "m ;; k" := (bind m (fun _ => k))
  (at level 100, right associativity) : builder_scope.
Open Scope builder_scope.

(** [return err] with a non-nil [err] *)
Definition fail {A} (e : error) : M A := fun st => (Err e, st).

(** [p.field] through a pointer that may be nil *)
Definition deref {A} (p : option A) : M A :=
  fun st => match p with
            | Some a => (Ok a, st)
            | None => (Panic, st)
            end.

(** [if err != nil { return fmt.Errorf(prefix + "%s", err) }] *)
Definition wrapf {A} (prefix : string) (m : M A) : M A :=
  fun st =>
    match m st with
    | (Err e, st') => (Err (Wrapf prefix e), st')
    | other => other
    end.

Definition when (b : bool) (m : M unit) : M unit :=
  if b then m else ret tt.

(** Reading and writing through the [app] pointer *)
Definition get_app : M app.Info := fun st => (Ok (appInfo st), st).

Definition set_app_BinPath (p : string) : M unit :=
  fun st => (Ok tt, {| file := file st;
                       appInfo := app.set_BinPath p (appInfo st) |}).

(** [f.WriteString(s)] *)
Definition WriteString (s : string) : M unit :=
  fun st =>
    match os.fault (file st) with
    | Some (O, msg) => (Err (OSError msg), st)
    | Some (S n, msg) =>
        (Ok tt, {| file := {| os.written := os.written (file st) ++ [s];
                              os.fault := Some (n, msg) |};
                   appInfo := appInfo st |})
    | None =>
        (Ok tt, {| file := {| os.written := os.written (file st) ++ [s];
                              os.fault := None |};
                   appInfo := appInfo st |})
    end.

(** ** Package [container]: model identifiers and the inspection parser *)
Module container.

Definition HybridModel : string := "hybrid".
Definition BindModel : string := "bind".

Record Config : Type := {
  Name : string;
  Path : string;
  BuildDir : string;
  InstallDir : string;
  DefFile : string;
  Distro : string;
  URL : string;
  Model : string;
  AppExe : string;
  MPIDir : string;
  Binds : list string
}.

(** [var cfg Config] and [var mpiCfg implem.Info] *)
Definition zero_Config : Config :=
  {| Name := ""; Path := ""; BuildDir := ""; InstallDir := "";
     DefFile := ""; Distro := ""; URL := ""; Model := ""; AppExe := "";
     MPIDir := ""; Binds := [] |}.

Definition zero_Info : implem.Info :=
  {| implem.ID := ""; implem.Version := ""; implem.URL := "" |}.

Definition set_Model (v : string) (c : Config) : Config :=
  {| Name := Name c; Path := Path c; BuildDir := BuildDir c;
     InstallDir := InstallDir c; DefFile := DefFile c; Distro := Distro c;
     URL := URL c; Model := v; AppExe := AppExe c; MPIDir := MPIDir c;
     Binds := Binds c |}.

Definition set_Distro (v : string) (c : Config) : Config :=
  {| Name := Name c; Path := Path c; BuildDir := BuildDir c;
     InstallDir := InstallDir c; DefFile := DefFile c; Distro := v;
     URL := URL c; Model := Model c; AppExe := AppExe c;
     MPIDir := MPIDir c; Binds := Binds c |}.

Definition set_AppExe (v : string) (c : Config) : Config :=
  {| Name := Name c; Path := Path c; BuildDir := BuildDir c;
     InstallDir := InstallDir c; DefFile := DefFile c; Distro := Distro c;
     URL := URL c; Model := Model c; AppExe := v; MPIDir := MPIDir c;
     Binds := Binds c |}.

Definition set_MPIDir (v : string) (c : Config) : Config :=
  {| Name := Name c; Path := Path c; BuildDir := BuildDir c;
     InstallDir := InstallDir c; DefFile := DefFile c; Distro := Distro c;
     URL := URL c; Model := Model c; AppExe := AppExe c; MPIDir := v;
     Binds := Binds c |}.

Definition set_ID (v : string) (m : implem.Info) : implem.Info :=
  {| implem.ID := v; implem.Version := implem.Version m;
     implem.URL := implem.URL m |}.

Definition set_Version (v : string) (m : implem.Info) : implem.Info :=
  {| implem.ID := implem.ID m; implem.Version := v;
     implem.URL := implem.URL m |}.

(** [if strings.Contains(line, key) { field = strings.Replace(line, key, "", -1) }] *)
Definition scan {A} (line key : string) (set : string -> A -> A) (a : A)
    : A :=
  if strings.Contains line key
  then set (strings.Replace line key "" (-1)) a
  else a.

(** The body of the loop over the lines *)
Definition parseLine (acc : Config * implem.Info) (line : string)
    : Config * implem.Info :=
  let '(cfg, mpiCfg) := acc in
  let mpiCfg := scan line "MPI_Implementation: " set_ID mpiCfg in
  let mpiCfg := scan line "MPI_Version: " set_Version mpiCfg in
  let cfg := scan line "Model: " set_Model cfg in
  let cfg := scan line "Linux_version: " set_Distro cfg in
  let cfg := scan line "App_exe: " set_AppExe cfg in
  let cfg := scan line "MPI_Directory: " set_MPIDir cfg in
  (cfg, mpiCfg).

Definition parseInspectOutput (output : string) : Config * implem.Info :=
  let lines := strings.Split output "\n" in
  fold_left parseLine lines (zero_Config, zero_Info).

Definition defaultExecArgs : string := "--no-home".

Definition GetContainerDefaultName
    (distro mpiID mpiVersion appName model : string) : string :=
  strings.Replace distro ":" "-" (-1) +:+ "-" +:+ mpiID +:+ "-"
  +:+ mpiVersion +:+ "-" +:+ appName +:+ "-" +:+ model.

Definition set_Path (v : string) (c : Config) : Config :=
  {| Name := Name c; Path := v; BuildDir := BuildDir c;
     InstallDir := InstallDir c; DefFile := DefFile c; Distro := Distro c;
     URL := URL c; Model := Model c; AppExe := AppExe c; MPIDir := MPIDir c;
     Binds := Binds c |}.

Definition getDefaultExecArgs : list string :=
  strings.Split defaultExecArgs " ".

(** [hostBuildenv] is a pointer that is read for the bind model only;
    the warning logged for an empty [MPIDir] is left out. *)
Definition getBindArguments (hostMPI : option implem.Info)
    (hostBuildenv : option buildenv.Info) (c : Config)
    : outcome (list string) :=
  let bindArgs : list string := [] in
  if String.eqb (Model c) BindModel then
    match hostBuildenv with
    | None => Panic
    | Some env =>
        let bindStr := buildenv.InstallDir env +:+ ":" +:+ MPIDir c in
        Ok (bindArgs ++ [bindStr])
    end
  else Ok bindArgs.

(** The log line with the arguments is left out. *)
Definition GetExecArgs (myHostMPICfg : option implem.Info)
    (hostBuildEnv : option buildenv.Info) (syContainer : Config)
    (sysCfg : sys.Config) : outcome (list string) :=
  let args := getDefaultExecArgs in
  let args := if sys.Nopriv sysCfg then args ++ ["-u"] else args in
  match getBindArguments myHostMPICfg hostBuildEnv syContainer with
  | Ok bindArgs =>
      Ok (if Nat.ltb 0 (length bindArgs)
          then (args ++ ["--bind"]) ++ bindArgs
          else args)
  | Err e => Err e
  | Panic => Panic
  end.

Section Driver.
Context `{S : sy.Pkg}.

(** The result and the commands started on the host.  The log lines
    are left out; a timeout is one of the errors of [exec.Run]. *)
Definition Pull (containerInfo : Config) (sysCfg : sys.Config)
    (h : exec.Host) : outcome unit * list exec.Cmd :=
  if String.eqb (sys.SingularityBin sysCfg) ""
     || String.eqb (Path containerInfo) ""
     || String.eqb (URL containerInfo) ""
     || String.eqb (BuildDir containerInfo) ""
  then (Err (Errorf "invalid parameter(s)"), [])
  else
    match sy.CheckIntegrity sysCfg with
    | Some e =>
        (Err (Wrapf "Singularity installation has been compromised: " e),
         [])
    | None =>
        if negb (String.eqb (sys.Persistent sysCfg) "")
           && exec.PathExists h (Path containerInfo)
        then (Ok tt, [])
        else
          let cmd :=
            {| exec.Path := sys.SingularityBin sysCfg;
               exec.Args := ["pull"; Path containerInfo;
                             URL containerInfo];
               exec.Dir := BuildDir containerInfo |} in
          let r := exec.Run h cmd in
          match exec.Err r with
          | Some e =>
              (Err (Errorf ("failed to execute command - stdout: "
                            +:+ exec.Stdout r +:+ "; stderr: "
                            +:+ exec.Stderr r +:+ "; err: " +:+ e)),
               [cmd])
          | None => (Ok tt, [cmd])
          end
    end.

(** The three results of the source, and the commands started *)
Definition GetMetadata (imgPath : string) (sysCfg : sys.Config)
    (h : exec.Host)
    : Config * implem.Info * option error * list exec.Cmd :=
  let metadata := zero_Config in
  let mpiCfg := zero_Info in
  match sy.CheckIntegrity sysCfg with
  | Some e =>
      (metadata, mpiCfg,
       Some (Wrapf "Singularity installation has been compromised: " e),
       [])
  | None =>
      let cmd :=
        if sy.IsSudoCmd "inspect" sysCfg
        then {| exec.Path := sys.SudoBin sysCfg;
                exec.Args := [sys.SingularityBin sysCfg; "inspect";
                              imgPath];
                exec.Dir := "" |}
        else {| exec.Path := sys.SingularityBin sysCfg;
                exec.Args := ["inspect"; imgPath];
                exec.Dir := "" |} in
      let r := exec.Run h cmd in
      match exec.Err r with
      | Some e =>
          (metadata, mpiCfg,
           Some (Errorf ("failed to execute command - stdout: "
                         +:+ exec.Stdout r +:+ "; stderr: "
                         +:+ exec.Stderr r +:+ "; err: " +:+ e)),
           [cmd])
      | None =>
          let '(metadata, mpiCfg) := parseInspectOutput (exec.Stdout r) in
          let metadata := set_Path imgPath metadata in
          (metadata, mpiCfg, None, [cmd])
      end
  end.
End Driver.

End container.

(** ** Package [ldd]: the shared-library dependency inspector *)
Module ldd.

(** [GetDependencies] is a function value and may be nil. *)
Record Module_ : Type := {
  GetDependencies : option (string -> list string)
}.

(** What [cmd.Run] leaves behind: both buffers and the error, which is
    non-nil for a non-zero exit status and for a timeout. *)
Record Run : Type := {
  stdout : string;
  stderr : string;
  err : option string
}.

(** The host: [exec.LookPath] and the execution of a binary on a file *)
Record Host : Type := {
  LookPath : string -> option string;
  run : string -> string -> Run
}.

(** No inspector can be used on [file]: [ldd] is not on the path, or
    running it fails. *)
Definition unusable (h : Host) (file : string) : bool :=
  match LookPath h "ldd" with
  | None => true
  | Some lddPath => bool_decide (is_Some (err (run h lddPath file)))
  end.

(** The returned slice (or a panic) and the lines handed to [log] *)
Definition GetPackageDependenciesForFile (m : Module_) (file : string)
    (h : Host) : outcome (list string) * list string :=
  let dependencies : list string := [] in
  match LookPath h "ldd" with
  | None => (Ok dependencies, ["[WARN] cannot find ldd"])
  | Some lddPath =>
      let r := run h lddPath file in
      match err r with
      | Some e =>
          (Ok dependencies,
           ["failed to execute dpkg: " +:+ e +:+ "; stdout: " +:+ stdout r
            +:+ "; stderr: " +:+ stderr r])
      | None =>
          match GetDependencies m with
          | Some parse => (Ok (parse (stdout r)), [])
          | None => (Panic, [])
          end
      end
  end.

(** [DebianLoad] lives in a file of the package that is not part of
    the sources at hand; it is a parameter. *)
Class Loader : Type := {
  DebianLoad : bool * Module_
}.

(** The module and the error of the source: without a loaded module,
    a module whose function is nil and a non-nil error *)
Definition Detect `{L : Loader} : Module_ * option error :=
  let '(loaded, mod_) := DebianLoad in
  if loaded then (mod_, None)
  else
    let dummyModule := {| GetDependencies := None |} in
    (dummyModule, Some (Errorf "unable to find usable ldd module")).

End ldd.

(** ** Package [deffile] *)
Module deffile.

Definition distroCodenameTag : string := "DISTROCODENAME".

Record TemplateTags : Type := {
  Version : string;
  Tarball : string;
  URL : string;
  Dir : string;
  InstallConffile : string;
  UninstallConffile : string;
  Ifnet : string
}.

(** [MpiImplm] and [InternalEnv] are pointers: [None] is nil. *)
Record DefFileData : Type := {
  Path : string;
  DistroID : distro.ID;
  MpiImplm : option implem.Info;
  Tags : TemplateTags;
  InternalEnv : option buildenv.Info;
  Model : string
}.

Section Builders.
Context `{U : util.Pkg} `{R : distro.Resolver} `{J : filepath.Pkg}.

Definition addLabels (deffile : DefFileData) : M unit :=
  WriteString "%labels\n" ;;
  WriteString ("\tLinux_distribution "
               +:+ distro.Name (DistroID deffile) +:+ "\n") ;;
  WriteString ("\tLinux_version "
               +:+ distro.Version (DistroID deffile) +:+ "\n") ;;
  match MpiImplm deffile with
  | Some m =>
      WriteString ("\tMPI_Implementation " +:+ implem.ID m +:+ "\n") ;;
      WriteString ("\tMPI_Version " +:+ implem.Version m +:+ "\n")
  | None => ret tt
  end ;;
  match InternalEnv deffile with
  | Some env =>
      when (negb (String.eqb (buildenv.InstallDir env) ""))
        (WriteString ("\tMPI_Directory "
                      +:+ buildenv.InstallDir env +:+ "\n"))
  | None => ret tt
  end ;;
  when (negb (String.eqb (Model deffile) ""))
    (WriteString ("\tModel " +:+ Model deffile +:+ "\n")) ;;
  a <- get_app ;;
  WriteString ("\tApplication " +:+ app.Name a +:+ "\n") ;;
  (if String.eqb (Model deffile) container.BindModel
   then
     a <- get_app ;;
     WriteString ("\tApp_exe /opt/" +:+ app.BinName a +:+ "\n")
   else
     a <- get_app ;;
     when (String.eqb (app.BinPath a) "")
       (set_app_BinPath ("/opt/" +:+ app.BinName a)) ;;
     a <- get_app ;;
     WriteString ("\tApp_exe " +:+ app.BinPath a +:+ "\n")) ;;
  WriteString "\n".

Definition addDockerBootstrap (deffile : DefFileData) : M unit :=
  wrapf "failed to add bootstrap section to definition file: "
    (WriteString ("Bootstrap: docker\nFrom: "
                  +:+ distro.Name (DistroID deffile) +:+ "\n\n")).

Definition addYumBootstrap (deffile : DefFileData) : M unit :=
  wrapf "failed to add bootstrap section to definition file: "
    (WriteString ("Bootstrap: yum\nOSVersion: "
                  +:+ distro.Version (DistroID deffile)
                  +:+ "\nMirrorURL: http://mirror.centos.org/centos-%{OSVERSION}/%{OSVERSION}/os/$basearch/\nInclude: yum\n\n")).

Definition addDebootstrapBootstrap (deffile : DefFileData) : M unit :=
  wrapf "failed to add bootstrap section to definition file: "
    (WriteString ("Bootstrap: debootstrap\nOSVersion: "
                  +:+ distro.Codename (DistroID deffile)
                  +:+ "\nMirrorURL: http://us.archive.ubuntu.com/ubuntu/\n\n")).

Definition addDistroInit (deffile : DefFileData) (sysCfg : sys.Config)
    : M unit :=
  WriteString "%post\n" ;;
  if String.eqb (distro.Name (DistroID deffile)) "ubuntu" then
    WriteString "\tapt-get update && apt-get install -y dash wget git bash gcc gfortran g++ make file software-properties-common\n\n" ;;
    wrapf "failed to add ubuntu initialization code to definition file: "
      (WriteString "\tadd-apt-repository universe\n") ;;
    wrapf "failed to add ubuntu initialization code to definition file: "
      (WriteString "\tadd-apt-repository multiverse\n") ;;
    wrapf "failed to add ubuntu initialization code to definition file: "
      (WriteString "\tapt-get update\n\n")
  else if String.eqb (distro.Name (DistroID deffile)) "centos" then
    when (negb (sys.Nopriv sysCfg)) (WriteString "\trpm --rebuilddb\n") ;;
    WriteString "\tyum -y update\n" ;;
    WriteString "\tyum -y install bash wget tar bzip2 git make gcc gcc-c++ gcc-gfortran\n" ;;
    WriteString "\tyum clean all\n\n"
  else ret tt.

Definition AddBootstrap (deffile : DefFileData) (sysCfg : sys.Config)
    : M unit :=
  let libraryURL :=
    distro.GetBaseImageLibraryURL (DistroID deffile) sysCfg in
  if negb (String.eqb libraryURL "") then
    wrapf "failed to add bootstrap section to definition file: "
      (WriteString ("Bootstrap: library\nFrom: " +:+ libraryURL
                    +:+ "\n\n"))
  else if String.eqb (distro.Name (DistroID deffile)) "ubuntu" then
    addDebootstrapBootstrap deffile
  else if String.eqb (distro.Name (DistroID deffile)) "centos" then
    if negb (sys.Nopriv sysCfg) then addYumBootstrap deffile
    else addDockerBootstrap deffile
  else
    fail (Errorf ("unsupported distro: "
                  +:+ distro.Name (DistroID deffile))).

Definition AddMPIInstall (deffile : DefFileData) : M unit :=
  m <- deref (MpiImplm deffile) ;;
  WriteString ("\texport MPI_VERSION=" +:+ implem.Version m
               +:+ "\n\texport MPI_URL=\x22" +:+ implem.URL m
               +:+ "\x22\n") ;;
  env <- deref (InternalEnv deffile) ;;
  WriteString ("\texport MPI_DIR=" +:+ buildenv.InstallDir env
               +:+ "\n") ;;
  WriteString "\texport MPI_BUILDDIR=/opt/build-mpi\n\tmkdir -p $MPI_BUILDDIR\n\n" ;;
  let mpitarball := path.Base (implem.URL m) in
  let tarballFormat := util.DetectTarballFormat mpitarball in
  let tarArgs := util.GetTarArgs tarballFormat in
  WriteString ("\tcd $MPI_BUILDDIR && wget $MPI_URL && tar " +:+ tarArgs
               +:+ " " +:+ mpitarball +:+ "\n") ;;
  WriteString ("\tcd $MPI_BUILDDIR/" +:+ implem.ID m
               +:+ "-$MPI_VERSION && ./configure --prefix=$MPI_DIR && make -j8 install\n") ;;
  WriteString "\texport PATH=$MPI_DIR/bin:$PATH\n\texport LD_LIBRARY_PATH=$MPI_DIR/lib:$LD_LIBRARY_PATH\n\texport MANPATH=$MPI_DIR/share/man:$MANPATH\n\n".

Definition addMPIEnv (deffile : DefFileData) : M unit :=
  env <- deref (InternalEnv deffile) ;;
  WriteString ("%environment\n\tMPI_DIR=" +:+ buildenv.InstallDir env
               +:+ "\n") ;;
  WriteString "\texport MPI_DIR\n\texport PATH=$MPI_DIR/bin:$PATH\n\texport LD_LIBRARY_PATH=$MPI_DIR/lib:$LD_LIBRARY_PATH\n\n".

(** The host log written by the [default] branch is not part of the
    manifest and is left out. *)
Definition createFilesSection (data : DefFileData)
    (sysCfg : sys.Config) : M unit :=
  wrapf "failed to write to definition file: " (WriteString "%files\n") ;;
  if String.eqb (Model data) container.BindModel then
    a <- get_app ;;
    wrapf "failed to write to definition file: "
      (WriteString ("\t" +:+ app.BinPath a +:+ " /opt\n\n"))
  else if String.eqb (Model data) container.HybridModel then
    a <- get_app ;;
    when (String.eqb (util.DetectTarballFormat (app.Source a))
            util.UnknownFormat)
      (let src := strings.Replace (app.Source a) "file://" "" 1 in
       wrapf "failed to write to definition file: "
         (WriteString ("\t" +:+ src +:+ " /opt\n\n")))
  else
    a <- get_app ;;
    let src := strings.Replace (app.Source a) "file://" "" 1 in
    wrapf "failed to write to definition file: "
      (WriteString ("\t" +:+ src +:+ " /opt\n\n")).

(** The [srcDir] computed in the git branch is never read. *)
Definition addAppInstall (data : DefFileData) : M unit :=
  a <- get_app ;;
  let installCmd :=
    if negb (String.eqb (app.InstallCmd a) "") then app.InstallCmd a
    else "make install" in
  let urlType := util.DetectURLType (app.Source a) in
  (if String.eqb urlType util.GitURL then
     wrapf "failed to write to definition file: "
       (WriteString ("\tcd /opt/$APPDIR" +:+ " && " +:+ installCmd
                     +:+ "\n"))
   else if String.eqb urlType util.FileURL then
     env <- deref (InternalEnv data) ;;
     let containerSrcPath :=
       filepath.Join (buildenv.SrcDir env) (path.Base (app.Source a)) in
     if negb (String.eqb (app.BinPath a) "") then
       wrapf "failed to write to definition file: "
         (WriteString ("\tcd /opt/$APPDIR && mpicc -o " +:+ app.BinPath a
                       +:+ " " +:+ containerSrcPath +:+ "\n"))
     else if negb (String.eqb (app.InstallCmd a) "") then
       wrapf "failed to write to definition file: "
         (WriteString ("\tcd /opt/$APPDIR && " +:+ app.InstallCmd a
                       +:+ "\n"))
     else fail (Errorf "unable to figure out how to compile source file")
   else if String.eqb urlType util.HttpURL then
     wrapf "failed to write to definition file: "
       (WriteString ("\tcd /opt/$APPDIR && " +:+ installCmd +:+ "\n"))
   else ret tt) ;;
  wrapf "failed to write to definition file: "
    (WriteString ("\tcd /opt && ln -s $APPDIR/" +:+ app.BinName a +:+ " "
                  +:+ app.BinName a +:+ " 2> /dev/null || true\n\n")).

Definition addMPICleanup (data : DefFileData) : M unit :=
  when (String.eqb (Model data) container.HybridModel)
    (wrapf "failed to add MPI cleanup section: "
       (WriteString "\n\trm -rf $MPI_BUILDDIR\n\n")).

Definition addDetectAppDir (data : DefFileData) : M unit :=
  wrapf "failed to add app env info: "
    (WriteString "\tAPPDIR=`ls -l /opt | egrep '^d' | head -1 | awk '{print $9}'`\n\n").

(** The [srcDir] computed in the git branch is never read. *)
Definition addAppDownload (data : DefFileData) : M unit :=
  a <- get_app ;;
  let urlType := util.DetectURLType (app.Source a) in
  if String.eqb urlType util.GitURL then
    wrapf "failed to write to definition file: "
      (WriteString ("\tcd /opt && git clone " +:+ app.Source a +:+ "\n")) ;;
    wrapf "failed to add code to get the directory of the app to the definition file: "
      (addDetectAppDir data)
  else if String.eqb urlType util.HttpURL then
    let format := util.DetectTarballFormat (app.Source a) in
    let tarArgs := util.GetTarArgs format in
    wrapf "failed to write to definition file: "
      (WriteString ("\tcd /opt && wget " +:+ app.Source a +:+ " && tar "
                    +:+ tarArgs +:+ " " +:+ path.Base (app.Source a)
                    +:+ "\n")) ;;
    wrapf "failed to add code to get the directory of the app to the definition file: "
      (addDetectAppDir data)
  else ret tt.

Definition addDebianDependencies (list : list string) : M unit :=
  when (Nat.ltb 0 (length list))
    (wrapf "failed to section to install dependencies: "
       (WriteString ("\tapt install -y " +:+ strings.Join list " "
                     +:+ "\n"))) ;;
  wrapf "failed to add cleanup section: "
    (WriteString "\tln -s /usr/lib/x86_64-linux-gnu/libosmcomp.so /usr/lib/x86_64-linux-gnu/libosmcomp.so.3\n") ;;
  wrapf "failed to add cleanup section: " (WriteString "\tldconfig\n").

Definition addRPMDependencies (list : list string) : M unit :=
  when (Nat.ltb 0 (length list))
    (wrapf "failed to section to install dependencies: "
       (WriteString ("\tyum install -y " +:+ strings.Join list " "
                     +:+ "\n"))).

Definition addDependencies (deffile : DefFileData) (list : list string)
    : M unit :=
  if String.eqb (distro.Name (DistroID deffile)) "centos" then
    addRPMDependencies list
  else if String.eqb (distro.Name (DistroID deffile)) "ubuntu" then
    addDebianDependencies list
  else ret tt.

Definition addCleanUp (deffile : DefFileData) : M unit :=
  if String.eqb (distro.Name (DistroID deffile)) "centos" then
    wrapf "failed to add cleanup section: "
      (WriteString "\tapt-get clean\n")
  else if String.eqb (distro.Name (DistroID deffile)) "ubuntu" then
    wrapf "failed to add cleanup section: "
      (WriteString "\tyum clean all\n")
  else ret tt.

(** The block of [CreateHybridDefFile] that decides whether the files
    section is written at all *)
Definition hybridFiles (data : DefFileData) (sysCfg : sys.Config)
    : M unit :=
  a <- get_app ;;
  when (String.eqb (util.DetectURLType (app.Source a)) util.FileURL)
    (wrapf "failed to create the files section of the definition file: "
       (createFilesSection data sysCfg)).


(** The section builders of the hybrid model, in the order of the
    source, each with the message its failure is wrapped in *)
Definition hybridSections (data : DefFileData) (sysCfg : sys.Config)
    : M unit :=
  wrapf "failed to create the bootstrap section of the definition file: "
    (AddBootstrap data sysCfg) ;;
  wrapf "failed to create the labels section of the definition file: "
    (addLabels data) ;;
  hybridFiles data sysCfg ;;
  wrapf "failed to create the environment section of the definition file: "
    (addMPIEnv data) ;;
  wrapf "failed to add the code initializing the distro: "
    (addDistroInit data sysCfg) ;;
  wrapf "failed to add the section to download the app: "
    (addAppDownload data) ;;
  wrapf "failed to create the post section of the definition file: "
    (AddMPIInstall data) ;;
  wrapf "failed to create the post section of the definition file: "
    (addAppInstall data) ;;
  wrapf "failed to add code to cleanup MPI files: "
    (addMPICleanup data).

(** The result, the application descriptor behind the [app] pointer
    afterwards, and the file left on disk if one was created.  The
    host log line and the final [Close] leave the manifest as it is
    and are left out. *)
Definition CreateHybridDefFile (a : app.Info) (data : DefFileData)
    (sysCfg : sys.Config) (h : os.Host)
    : outcome unit * app.Info * option os.File :=
  if String.eqb (Path data) "" then
    (Err (Errorf "invalid parameter(s)"), a, None)
  else
    match os.Create h (Path data) with
    | inr e =>
        (Err (Wrapf ("failed to create " +:+ Path data +:+ ": ") e),
         a, None)
    | inl f =>
        let '(r, st) :=
          hybridSections data sysCfg {| file := f; appInfo := a |} in
        (r, appInfo st, Some (file st))
    end.

Definition setMPIInstallDir (mpiImplm mpiVersion : string) : string :=
  mpiImplm +:+ "-" +:+ mpiVersion.

Definition createUbuntuDockerBootstrapSection (data : DefFileData)
    (sysCfg : sys.Config) : M unit :=
  wrapf "failed to write to definition file: "
    (WriteString "Bootstrap: docker\n") ;;
  wrapf "failed to write to definition file: "
    (WriteString "From: ubuntu:DISTROCODENAME\n\n").

(** The packages the bind assembler adds to whatever the inspector
    found, in the order of the [append] calls *)
Definition bindPackages : list string :=
  ["libc-bin"; "libopensm-dev"; "librdmacm-dev"; "librdmacm1"; "kmod";
   "libmlx4-1"; "libibverbs-dev"; "libibverbs1"; "libnl-3-dev";
   "infiniband-diags"; "ibverbs-utils"].

(** The section builders of the bind model, in the order of the
    source, each with the message its failure is wrapped in *)
Definition bindSections (data : DefFileData) (sysCfg : sys.Config)
    (pkgs : list string) : M unit :=
  wrapf "failed to create the bootstrap section of the definition file: "
    (AddBootstrap data sysCfg) ;;
  wrapf "failed to create the labels section of the definition file: "
    (addLabels data) ;;
  wrapf "failed to create the files section of the definition file: "
    (createFilesSection data sysCfg) ;;
  wrapf "failed to create the environment section of the definition file: "
    (addMPIEnv data) ;;
  wrapf "failed to add the code initializing the distro: "
    (addDistroInit data sysCfg) ;;
  wrapf "failed to add package dependencies to the definition file: "
    (addDependencies data pkgs) ;;
  env <- deref (InternalEnv data) ;;
  wrapf "failed to write to definition file: "
    (WriteString ("\tmkdir -p " +:+ buildenv.InstallDir env +:+ "\n\n")) ;;
  wrapf "failed to add code to clean up: " (addCleanUp data).

(** The section builders of the model without MPI *)
Definition basicSections (data : DefFileData) (sysCfg : sys.Config)
    (pkgs : list string) : M unit :=
  wrapf "failed to create the bootstrap section of the definition file: "
    (AddBootstrap data sysCfg) ;;
  wrapf "failed to create the label section of the definition file: "
    (addLabels data) ;;
  wrapf "failed to create the files section of the definition file: "
    (createFilesSection data sysCfg) ;;
  wrapf "failed to add the code initializing the distro: "
    (addDistroInit data sysCfg) ;;
  wrapf "failed to add package dependencies to the definition file: "
    (addDependencies data pkgs) ;;
  wrapf "failed to add code to clean up: " (addCleanUp data).

(** The result, the application descriptor behind the [app] pointer
    afterwards, and the file left on disk if one was created.  The
    file is created first; then the inspector is looked for and run
    on the binary path as the descriptor has it at that moment.  The
    lines handed to [log] and the final [Close] are left out. *)
Definition CreateBindDefFile `{L : ldd.Loader} (a : app.Info)
    (data : DefFileData) (sysCfg : sys.Config) (h : os.Host)
    (lh : ldd.Host) : outcome unit * app.Info * option os.File :=
  if String.eqb (Path data) "" then
    (Err (Errorf "invalid parameter(s)"), a, None)
  else
    match os.Create h (Path data) with
    | inr e =>
        (Err (Wrapf ("failed to create " +:+ Path data +:+ ": ") e),
         a, None)
    | inl f =>
        match ldd.Detect with
        | (_, Some _) =>
            (Err (Errorf "failed to load a workable ldd module"), a,
             Some f)
        | (lddMod, None) =>
            match fst (ldd.GetPackageDependenciesForFile lddMod
                         (app.BinPath a) lh) with
            | Ok pkgs =>
                let pkgs := pkgs ++ bindPackages in
                let '(r, st) :=
                  bindSections data sysCfg pkgs
                    {| file := f; appInfo := a |} in
                (r, appInfo st, Some (file st))
            | Err e => (Err e, a, Some f)
            | Panic => (Panic, a, Some f)
            end
        end
    end.

Definition CreateBasicDefFile `{L : ldd.Loader} (a : app.Info)
    (data : DefFileData) (sysCfg : sys.Config) (h : os.Host)
    (lh : ldd.Host) : outcome unit * app.Info * option os.File :=
  if String.eqb (Path data) "" then
    (Err (Errorf "invalid parameter(s)"), a, None)
  else
    match os.Create h (Path data) with
    | inr e =>
        (Err (Wrapf ("failed to create " +:+ Path data +:+ ": ") e),
         a, None)
    | inl f =>
        match ldd.Detect with
        | (_, Some _) =>
            (Err (Errorf "failed to load a workable ldd module"), a,
             Some f)
        | (lddMod, None) =>
            match fst (ldd.GetPackageDependenciesForFile lddMod
                         (app.BinPath a) lh) with
            | Ok pkgs =>
                let '(r, st) :=
                  basicSections data sysCfg pkgs
                    {| file := f; appInfo := a |} in
                (r, appInfo st, Some (file st))
            | Err e => (Err e, a, Some f)
            | Panic => (Panic, a, Some f)
            end
        end
    end.

Definition UpdateDistroCodename (data distro : string) : string :=
  strings.Replace data distroCodenameTag distro (-1).

(** The result, the disk afterwards and the lines handed to [log] *)
Definition UpdateDeffileTemplate (data : DefFileData)
    (sysCfg : sys.Config) (disk : os.Disk)
    : outcome unit * os.Disk * list string :=
  match MpiImplm data with
  | None => (Panic, disk, [])
  | Some m =>
      if String.eqb (implem.Version m) ""
         || String.eqb (implem.URL m) ""
         || String.eqb (Path data) ""
         || String.eqb (Version (Tags data)) ""
         || String.eqb (URL (Tags data)) ""
         || String.eqb (Tarball (Tags data)) ""
         || String.eqb (distro.Name (DistroID data)) ""
      then (Err (Errorf "invalid parameter(s)"), disk, [])
      else
        let tarball := path.Base (implem.URL m) in
        match os.ReadFile disk (Path data) with
        | inr e =>
            (Err (Wrapf ("failed to read " +:+ Path data +:+ ": ") e),
             disk, [])
        | inl d =>
            let format := util.DetectTarballFormat tarball in
            let tarArgs : option string :=
              if String.eqb format util.FormatBZ2 then Some "-xjf"
              else if String.eqb format util.FormatGZ then Some "-xzf"
              else if String.eqb format util.FormatTAR then Some "-xf"
              else None in
            match tarArgs with
            | None =>
                (Err (Errorf ("un-supported tarball format for "
                              +:+ tarball)), disk, [])
            | Some tarArgs =>
                let logged :=
                  if sys.Debug sysCfg then
                    ["--> Replacing " +:+ Version (Tags data) +:+ " with "
                     +:+ implem.Version m;
                     "--> Replacing " +:+ URL (Tags data) +:+ " with "
                     +:+ implem.URL m;
                     "--> Replacing " +:+ Tarball (Tags data) +:+ " with "
                     +:+ tarball;
                     "--> Replacing TARARGS with " +:+ tarArgs]
                  else [] in
                let content := d in
                let content :=
                  strings.Replace content (Version (Tags data))
                    (implem.Version m) (-1) in
                let content :=
                  strings.Replace content (URL (Tags data))
                    (implem.URL m) (-1) in
                let content :=
                  strings.Replace content (Tarball (Tags data))
                    tarball (-1) in
                let content :=
                  strings.Replace content "TARARGS" tarArgs (-1) in
                let content :=
                  UpdateDistroCodename content
                    (distro.Codename (DistroID data)) in
                let '(disk', err) :=
                  os.WriteFile disk (Path data) content in
                match err with
                | Some e =>
                    (Err (Wrapf ("failed to write file " +:+ Path data
                                 +:+ ": ") e), disk', logged)
                | None => (Ok tt, disk', logged)
                end
            end
        end
  end.

End Builders.
End deffile.

(** ** Vocabulary of the statements *)
Module text.

Fixpoint mem (c : ascii) (s : string) : bool :=
  match s with
  | EmptyString => false
  | String b r => Ascii.eqb c b || mem c r
  end.

(** No byte of [a] occurs in [b]. *)
Fixpoint disjoint (a b : string) : bool :=
  match a with
  | EmptyString => true
  | String c r => negb (mem c b) && disjoint r b
  end.

(** The lines of a text that start with one of the given prefixes *)
Definition lines_with (prefixes : list string) (s : string) : list string :=
  List.filter (fun line => existsb (strings.HasPrefix line) prefixes)
    (strings.Split s "\n").

Definition single_line (s : string) : Prop :=
  strings.Contains s "\n" = false.

(** The bootstrap strategy in words: a registry image when the resolver
    knows one; otherwise debootstrap for ubuntu, pinned to the codename,
    and for centos yum when privileged and the Docker image when not;
    no strategy for any other name. *)
Definition bootstrap_fragment (libraryURL : string) (id : distro.ID)
    (nopriv : bool) : option string :=
  if negb (String.eqb libraryURL "") then
    Some ("Bootstrap: library\nFrom: " +:+ libraryURL +:+ "\n\n")
  else if String.eqb (distro.Name id) "ubuntu" then
    Some ("Bootstrap: debootstrap\nOSVersion: " +:+ distro.Codename id
          +:+ "\nMirrorURL: http://us.archive.ubuntu.com/ubuntu/\n\n")
  else if String.eqb (distro.Name id) "centos" then
    if nopriv then Some "Bootstrap: docker\nFrom: centos\n\n"
    else Some ("Bootstrap: yum\nOSVersion: " +:+ distro.Version id
               +:+ "\nMirrorURL: http://mirror.centos.org/centos-%{OSVERSION}/%{OSVERSION}/os/$basearch/\nInclude: yum\n\n")
  else None.

(** [out] is [template] in which some occurrences of a tag have been
    replaced by the value paired with it, every other byte kept. *)
Inductive substituted (pairs : list (string * string))
    : string -> string -> Prop :=
| substituted_end : substituted pairs "" ""
| substituted_keep c template out :
    substituted pairs template out ->
    substituted pairs (String c template) (String c out)
| substituted_tag tag value template out :
    In (tag, value) pairs ->
    substituted pairs template out ->
    substituted pairs (tag +:+ template) (value +:+ out).

(** The values are not empty and share no byte with the tag [p]. *)
Definition apart (pairs : list (string * string)) (p : string) : Prop :=
  forall tag value, In (tag, value) pairs ->
                    value <> "" /\ disjoint value p = true.

(** One of the two texts is the beginning of the other. *)
Definition comparable (a b : string) : bool :=
  strings.HasPrefix a b || strings.HasPrefix b a.

(** No occurrence of [p] can start at a byte of [v], whatever follows
    [v]. *)
Fixpoint starts_outside (v p : string) : bool :=
  match v with
  | EmptyString => true
  | String _ v' => negb (comparable v p) && starts_outside v' p
  end.

(** No occurrence of [p] that starts before [v], or at its first
    byte, can hold a byte of [v], whatever follows [v]. *)
Fixpoint ends_outside (v p : string) : bool :=
  match p with
  | EmptyString => true
  | String _ p' => negb (comparable v p) && ends_outside v p'
  end.

(** The value [v] is not empty and, put into any text, takes part in
    no occurrence of [p]. *)
Definition clear (v p : string) : bool :=
  negb (String.eqb v "") && starts_outside v p && ends_outside v p.


End text.

(** The innermost error of a chain of [fmt.Errorf] wrappers *)
Fixpoint cause (e : error) : error :=
  match e with
  | Wrapf _ c => cause c
  | other => other
  end.

(** The same store with a file that never fails *)
Definition heal (st : Store) : Store :=
  {| file := {| os.written := os.written (file st); os.fault := None |};
     appInfo := appInfo st |}.

(** The payloads written between two states of the same file *)
Definition emitted (before after : Store) : list string :=
  drop (length (os.written (file before))) (os.written (file after)).

Definition healthy (st : Store) : Prop := os.fault (file st) = None.

(** A successful run is the run on a file that never fails. *)
Definition uniform {A} (m : M A) : Prop :=
  forall st a st', m st = (Ok a, st') -> m (heal st) = (Ok a, heal st').

(** The builder leaves the application descriptor alone. *)
Definition frames {A} (m : M A) : Prop :=
  forall st r st', m st = (r, st') -> appInfo st' = appInfo st.

(** Every error the builder returns has a cause that satisfies [P]. *)
Definition blames {A} (P : error -> Prop) (m : M A) : Prop :=
  forall st e st', m st = (Err e, st') -> P (cause e).


(** ** Vocabulary of the template processor *)
Module template.
Section Vocabulary.
Context `{U : util.Pkg}.

(** One of the required fields is empty. *)
Definition missing_parameter (data : deffile.DefFileData)
    (m : implem.Info) : Prop :=
  implem.Version m = "" \/ implem.URL m = ""
  \/ deffile.Path data = ""
  \/ deffile.Version (deffile.Tags data) = ""
  \/ deffile.URL (deffile.Tags data) = ""
  \/ deffile.Tarball (deffile.Tags data) = ""
  \/ distro.Name (deffile.DistroID data) = "".


Definition tar_flag (m : implem.Info) : string :=
  let format := util.DetectTarballFormat (path.Base (implem.URL m)) in
  if String.eqb format util.FormatBZ2 then "-xjf"
  else if String.eqb format util.FormatGZ then "-xzf"
  else if String.eqb format util.FormatTAR then "-xf"
  else "".

(** The five tags with the value each one stands for, in the order
    of the passes *)
Definition pairs (data : deffile.DefFileData) (m : implem.Info)
    : list (string * string) :=
  [(deffile.Version (deffile.Tags data), implem.Version m);
   (deffile.URL (deffile.Tags data), implem.URL m);
   (deffile.Tarball (deffile.Tags data), path.Base (implem.URL m));
   ("TARARGS", tar_flag m);
   (deffile.distroCodenameTag,
    distro.Codename (deffile.DistroID data))].
End Vocabulary.

(** Successive replace-all passes *)
Definition passes (pairs : list (string * string)) (s : string) : string :=
  fold_left (fun acc p => strings.Replace acc p.1 p.2 (-1)) pairs s.

(** No value is empty and no value shares a byte with a tag. *)
Definition independent (pairs : list (string * string)) : bool :=
  forallb (fun v => negb (String.eqb v "")
                    && forallb (text.disjoint v) (map fst pairs))
    (map snd pairs).

(** Every tag either does not occur in the template, or stands for a
    value that is clear of the tags. *)
Definition compatible (pairs : list (string * string))
    (content : string) : bool :=
  forallb (fun p => negb (strings.Contains content p.1)
                    || forallb (text.clear p.2) (map fst pairs))
    pairs.
End template.

(** ** Vocabulary of the inspection parser *)
Module inspect.

(** The prefixes the parser looks for *)
Definition prefixes : list string :=
  ["MPI_Implementation: "; "MPI_Version: "; "Model: "; "Linux_version: ";
   "App_exe: "; "MPI_Directory: "].

(** A value on one line that holds none of the prefixes *)
Definition plain (v : string) : bool :=
  negb (strings.Contains v "\n")
  && forallb (fun key => negb (strings.Contains v key)) prefixes.

(** The labels of an image as the inspection command prints them: one
    [key: value] line per label *)
Definition render (labels : list (string * string)) : string :=
  strings.Join (map (fun kv => (kv.1 +:+ ": ") +:+ kv.2) labels) "\n".

End inspect.

(** ** Vocabulary of the hybrid assembly *)

(** The error of the bare-file branch of the install builder that has
    neither a binary path nor an install command *)
Definition cannot_compile : error :=
  Errorf "unable to figure out how to compile source file".


(** The binary path the labels builder leaves in the descriptor outside
    the bind model *)
Definition settled_BinPath (a : app.Info) : string :=
  if String.eqb (app.BinPath a) "" then "/opt/" +:+ app.BinName a
  else app.BinPath a.

(** ** Vocabulary of the manifest's sections *)

(** The payload opens a section of the manifest: a [%name] header or
    the bootstrap header. *)
Definition header (payload : string) : bool :=
  strings.HasPrefix payload "%" || strings.HasPrefix payload "Bootstrap: ".

(** A successful run from [st] appends payloads of which the ones that
    open a section are [hs], in that order. *)
Definition heads {A} (hs : list string) (m : M A) (st : Store) : Prop :=
  forall a st', m st = (Ok a, st') ->
    exists l, os.written (file st') = os.written (file st) ++ l
              /\ List.filter header l = hs.

(** The builder opens no section. *)
Definition quiet {A} (m : M A) : Prop := forall st, heads [] m st.

(** The causes an assembler can fail with: a missing path, a distro
    without a bootstrap, the error [own] of the assembler, or an error
    of the operating system *)
Definition assembly_cause (d : deffile.DefFileData) (own c : error) : Prop :=
  c = Errorf "invalid parameter(s)"
  \/ c = Errorf ("unsupported distro: "
                 +:+ distro.Name (deffile.DistroID d))
  \/ c = own
  \/ exists msg, c = OSError msg.

Definition no_ldd_module : error :=
  Errorf "failed to load a workable ldd module".

(** ** Descriptors for worked examples *)
Module example.

Definition ubuntu : distro.ID :=
  {| distro.Name := "ubuntu"; distro.Version := "20.04";
     distro.Codename := "focal" |}.

Definition centos : distro.ID :=
  {| distro.Name := "centos"; distro.Version := "7";
     distro.Codename := "" |}.

Definition ompi (url : string) : implem.Info :=
  {| implem.ID := "openmpi"; implem.Version := "4.0.1";
     implem.URL := url |}.

Definition env : buildenv.Info :=
  {| buildenv.InstallDir := "/opt/mpi"; buildenv.SrcDir := "/opt/src";
     buildenv.BuildDir := "/opt/build" |}.

Definition tags : deffile.TemplateTags :=
  {| deffile.Version := "MPIVERSION"; deffile.Tarball := "MPITARBALL";
     deffile.URL := "MPIURL"; deffile.Dir := "";
     deffile.InstallConffile := ""; deffile.UninstallConffile := "";
     deffile.Ifnet := "" |}.

Definition descriptor (id : distro.ID) (url model : string)
    : deffile.DefFileData :=
  {| deffile.Path := "/tmp/mpi.def";
     deffile.DistroID := id;
     deffile.MpiImplm := Some (ompi url);
     deffile.Tags := tags;
     deffile.InternalEnv := Some env;
     deffile.Model := model |}.

(** An application whose binary path is left to the tool *)
Definition hello (source : string) : app.Info :=
  {| app.Name := "hello"; app.BinName := "hello"; app.BinPath := "";
     app.Source := source; app.InstallCmd := "" |}.

Definition cfg (nopriv : bool) : sys.Config :=
  {| sys.Nopriv := nopriv; sys.Debug := false; sys.SingularityBin := "";
     sys.SudoBin := ""; sys.Persistent := ""; sys.Registry := "" |}.

(** A freshly created file that never fails, and the store around it *)
Definition fresh (a : app.Info) : Store :=
  {| file := {| os.written := []; os.fault := None |}; appInfo := a |}.

Definition host : os.Host :=
  {| os.create_error := None; os.disk_fault := None |}.

(** A host without [ldd], and one on which [ldd] exits with an error *)
Definition no_ldd : ldd.Host :=
  {| ldd.LookPath := fun _ => None;
     ldd.run := fun _ _ =>
       {| ldd.stdout := ""; ldd.stderr := ""; ldd.err := None |} |}.

Definition broken_ldd : ldd.Host :=
  {| ldd.LookPath := fun _ => Some "/usr/bin/ldd";
     ldd.run := fun _ _ =>
       {| ldd.stdout := ""; ldd.stderr := "not a dynamic executable";
          ldd.err := Some "exit status 1" |} |}.

Definition debian_ldd : ldd.Module_ :=
  {| ldd.GetDependencies := Some (fun _ => ["libc6"]) |}.

(** The labels of an image built for the hybrid model *)
Definition labels : list (string * string) :=
  [("Linux_distribution", "ubuntu"); ("Linux_version", "20.04");
   ("MPI_Implementation", "openmpi"); ("MPI_Version", "4.0.1");
   ("MPI_Directory", "/opt/mpi"); ("Model", "hybrid");
   ("Application", "hello"); ("App_exe", "/opt/hello")].

(** An installation that passes the integrity check and needs no
    [sudo] *)
Definition sound_installation : sy.Pkg :=
  {| sy.CheckIntegrity := fun _ => None;
     sy.IsSudoCmd := fun _ _ => false |}.

(** A host on which every command prints the labels above, and on
    which the given path exists *)
Definition inspecting_host (present : string) : exec.Host :=
  {| exec.Run := fun _ =>
       {| exec.Stdout := inspect.render labels; exec.Stderr := "";
          exec.Err := None |};
     exec.PathExists := String.eqb present |}.

Definition singularity (persistent : string) : sys.Config :=
  {| sys.Nopriv := false; sys.Debug := false;
     sys.SingularityBin := "/usr/bin/singularity"; sys.SudoBin := "";
     sys.Persistent := persistent; sys.Registry := "" |}.

(** A host whose [ldd] prints one line, and the two outcomes of
    loading the inspector's module *)
Definition working_ldd : ldd.Host :=
  {| ldd.LookPath := fun _ => Some "/usr/bin/ldd";
     ldd.run := fun _ _ =>
       {| ldd.stdout := "libc.so.6 => /lib/x86_64-linux-gnu/libc.so.6";
          ldd.stderr := ""; ldd.err := None |} |}.

Definition debian_loader : ldd.Loader :=
  {| ldd.DebianLoad := (true, debian_ldd) |}.

Definition no_loader : ldd.Loader :=
  {| ldd.DebianLoad := (false, {| ldd.GetDependencies := None |}) |}.

End example.

(** * Facts about the string functions *)

#[local] Arguments String.append !_ _ / : simpl nomatch.

(** The functions agree with the Go library on its documented examples
    and on the shapes the builders meet. *)
Example Replace_examples :
  strings.Replace "oink oink oink" "k" "ky" 2 = "oinky oinky oink"
  /\ strings.Replace "oink oink oink" "oink" "moo" (-1) = "moo moo moo"
  /\ strings.Replace "aaa" "aa" "b" (-1) = "ba"
  /\ strings.Replace "abc" "" "-" (-1) = "-a-b-c-"
  /\ strings.Replace "file:///src/file://x.c" "file://" "" 1
     = "/src/file://x.c".
Proof. repeat split. Qed.

Example Split_examples :
  strings.Split "a,b,c" "," = ["a"; "b"; "c"]
  /\ strings.Split "a man a plan a canal panama" "a "
     = [""; "man "; "plan "; "canal panama"]
  /\ strings.Split " xyz " "" = [" "; "x"; "y"; "z"; " "]
  /\ strings.Split "" "\n" = [""]
  /\ strings.Split "Model: bind\n" "\n" = ["Model: bind"; ""].
Proof. repeat split. Qed.

Example Base_examples :
  path.Base "/a/b" = "b" /\ path.Base "/" = "/" /\ path.Base "" = "."
  /\ path.Base "a/b/" = "b" /\ path.Base "///" = "/"
  /\ path.Base "http://example/ompi-4.0.1.tar.gz" = "ompi-4.0.1.tar.gz".
Proof. repeat split. Qed.

Example Contains_examples :
  strings.Contains "seafood" "foo" = true
  /\ strings.Contains "seafood" "bar" = false
  /\ strings.Contains "seafood" "" = true
  /\ strings.Contains "" "" = true
  /\ strings.Join ["foo"; "bar"; "baz"] ", " = "foo, bar, baz".
Proof. repeat split. Qed.

Section StringFacts.

Lemma length_append (a b : string) :
  String.length (a +:+ b) = String.length a + String.length b.
Proof. induction a as [|x a IH]; simpl; [done | by f_equal]. Qed.

Lemma drop_append (p r : string) :
  strings.drop (String.length p) (p +:+ r) = r.
Proof. induction p as [|x p IH]; simpl; [by destruct r | done]. Qed.

Lemma HasPrefix_append (p r : string) : strings.HasPrefix (p +:+ r) p = true.
Proof.
  induction p as [|x p IH]; simpl; [done |].
  by rewrite Ascii.eqb_refl, IH.
Qed.

Lemma HasPrefix_split (s p : string) :
  strings.HasPrefix s p = true -> s = p +:+ strings.drop (String.length p) s.
Proof.
  revert s; induction p as [|a p IH]; intros s H; simpl in *.
  - by destruct s.
  - destruct s as [|b s]; [done |].
    apply andb_true_iff in H as [Hab Hp].
    apply Ascii.eqb_eq in Hab as ->. simpl. f_equal. by apply IH.
Qed.

(** Scanning a text for a non-empty [old]: either the text is over, or
    it starts with [old], or its first byte is stepped over. *)
Lemma scan_ind (old : string) (Hold : old <> "") (P : string -> Prop) :
  P "" ->
  (forall r, P r -> P (old +:+ r)) ->
  (forall c r, strings.HasPrefix (String c r) old = false ->
               P r -> P (String c r)) ->
  forall s, P s.
Proof.
  intros Hnil Hhit Hmiss s.
  remember (String.length s) as n eqn:Hn.
  revert s Hn. induction (lt_wf n) as [n _ IH]. intros s ->.
  destruct s as [|c r]; [done |].
  destruct (strings.HasPrefix (String c r) old) eqn:Hp.
  - rewrite (HasPrefix_split _ _ Hp). apply Hhit.
    eapply IH; [| reflexivity].
    rewrite (HasPrefix_split _ _ Hp) at 2. rewrite length_append.
    destruct old; [done | simpl; lia].
  - apply Hmiss; [done |]. eapply IH; [| reflexivity]. simpl; lia.
Qed.

Lemma replace_go_skip (old new : string) (limit : option nat) (k : nat)
    (s : string) :
  strings.replace_go old new limit k s
  = strings.replace_go old new limit 0 (strings.drop k s).
Proof.
  revert s; induction k as [|k IH]; intros s.
  - by destruct s.
  - destruct s as [|c r]; [done |]. simpl. apply IH.
Qed.

Lemma replace_go_hit (old new r : string) :
  old <> "" ->
  strings.replace_go old new None 0 (old +:+ r)
  = new +:+ strings.replace_go old new None 0 r.
Proof.
  intros Hold. destruct old as [|a old]; [done |].
  change (String a old +:+ r) with (String a (old +:+ r)).
  cbn [strings.replace_go strings.spent strings.tick].
  change (String a (old +:+ r)) with (String a old +:+ r).
  rewrite HasPrefix_append. f_equal.
  rewrite replace_go_skip. simpl. rewrite Nat.sub_0_r.
  by rewrite drop_append.
Qed.

Lemma replace_go_miss (old new : string) (c : ascii) (r : string) :
  strings.HasPrefix (String c r) old = false ->
  strings.replace_go old new None 0 (String c r)
  = String c (strings.replace_go old new None 0 r).
Proof. intros H. cbn [strings.replace_go strings.spent]. by rewrite H. Qed.

Lemma disjoint_ne (a b : string) :
  a <> "" -> text.disjoint a b = true -> a <> b.
Proof.
  intros Ha Hd ->. destruct b as [|c b]; [done |].
  simpl in Hd. by rewrite Ascii.eqb_refl in Hd.
Qed.

(** All occurrences are replaced: the form every call site with a
    negative count reduces to. *)
Lemma Replace_all (s old new : string) :
  old <> "" -> old <> new ->
  strings.Replace s old new (-1) = strings.replace_go old new None 0 s.
Proof.
  intros Hold Hne. unfold strings.Replace.
  apply String.eqb_neq in Hne. rewrite Hne. simpl.
  by destruct old.
Qed.

Lemma disjoint_tail (v p : string) (a : ascii) :
  text.disjoint v (String a p) = true -> text.disjoint v p = true.
Proof.
  induction v as [|c v IH]; simpl; [done |].
  intros H. apply andb_true_iff in H as [H1 H2].
  apply negb_true_iff, orb_false_iff in H1 as [_ H1].
  rewrite H1. simpl. by apply IH.
Qed.

(** A text that starts with a value cannot start with a tag that shares
    no byte with the value. *)
Lemma HasPrefix_disjoint (v r p : string) :
  v <> "" -> p <> "" -> text.disjoint v p = true ->
  strings.HasPrefix (v +:+ r) p = false.
Proof.
  intros Hv Hp Hd. destruct v as [|c v]; [done |].
  destruct p as [|a p]; [done |]. simpl in *.
  apply andb_true_iff in Hd as [Hd _].
  apply negb_true_iff, orb_false_iff in Hd as [Hd _].
  by rewrite Ascii.eqb_sym, Hd.
Qed.

Lemma Contains_cons (c : ascii) (r p : string) :
  strings.Contains (String c r) p
  = strings.HasPrefix (String c r) p || strings.Contains r p.
Proof. done. Qed.

Lemma Contains_suffix (a b p : string) :
  strings.Contains (a +:+ b) p = false -> strings.Contains b p = false.
Proof.
  induction a as [|c a IH]; [done |].
  change (String c a +:+ b) with (String c (a +:+ b)).
  rewrite Contains_cons. intros H.
  apply orb_false_iff in H as [_ H]. by apply IH.
Qed.

Lemma Contains_nonempty (s p : string) :
  strings.Contains s p = false -> p <> "".
Proof. intros H ->. by destruct s. Qed.

(** An occurrence of a tag cannot start inside a value it shares no
    byte with. *)
Lemma Contains_disjoint (v r p : string) :
  p <> "" -> text.disjoint v p = true ->
  strings.Contains (v +:+ r) p = strings.Contains r p.
Proof.
  intros Hp. induction v as [|c v IH]; [done |]. intros Hd.
  change (String c v +:+ r) with (String c (v +:+ r)).
  rewrite Contains_cons.
  change (String c (v +:+ r)) with (String c v +:+ r).
  rewrite HasPrefix_disjoint; [| done | done | done].
  simpl in Hd. apply andb_true_iff in Hd as [_ Hd]. by apply IH.
Qed.

End StringFacts.

(** * Replacing every occurrence of a tag *)
Section ReplaceAll.
Variables old new : string.
Hypothesis old_nonempty : old <> "".

#[local] Abbreviation replace_all := (strings.replace_go old new None 0).

(** A text without the tag is left alone. *)
Lemma replace_all_absent (s : string) :
  strings.Contains s old = false -> replace_all s = s.
Proof.
  induction s as [|c r IH]; [done |].
  rewrite Contains_cons. intros H.
  apply orb_false_iff in H as [Hp Hc].
  rewrite replace_go_miss by done. f_equal. by apply IH.
Qed.

(** A value is copied when the tag cannot start inside it. *)
Lemma replace_all_value (v r : string) :
  text.disjoint v old = true ->
  replace_all (v +:+ r) = v +:+ replace_all r.
Proof.
  induction v as [|c v IH]; [done |]. intros Hd.
  change (String c v +:+ r) with (String c (v +:+ r)).
  rewrite replace_go_miss.
  - simpl in Hd. apply andb_true_iff in Hd as [_ Hd].
    simpl. f_equal. by apply IH.
  - change (String c (v +:+ r)) with (String c v +:+ r).
    by apply HasPrefix_disjoint.
Qed.

Section Values.
Hypothesis new_nonempty : new <> "".

(** What the result starts with, the text started with, as long as
    no byte of the inserted value is involved. *)
Lemma replace_all_prefix (s p : string) :
  text.disjoint new p = true ->
  strings.HasPrefix (replace_all s) p = true ->
  strings.HasPrefix s p = true.
Proof.
  revert p.
  induction s as [| r IH | c r Hmiss IH] using (scan_ind old old_nonempty);
    intros p Hd.
  - done.
  - rewrite replace_go_hit by done.
    destruct p as [|a p]; [done |].
    by rewrite HasPrefix_disjoint.
  - rewrite replace_go_miss by done.
    destruct p as [|a p]; [done |]. simpl.
    intros H. apply andb_true_iff in H as [-> H]. simpl.
    apply IH; [| done]. by eapply disjoint_tail.
Qed.

(** No occurrence of the tag is left when the value shares no byte
    with it. *)
Lemma replace_all_gone (s : string) :
  text.disjoint new old = true ->
  strings.Contains (replace_all s) old = false.
Proof.
  intros Hd.
  induction s as [| r IH | c r Hmiss IH] using (scan_ind old old_nonempty).
  - by destruct old.
  - rewrite replace_go_hit by done.
    by rewrite Contains_disjoint.
  - rewrite replace_go_miss by done. rewrite Contains_cons, IH.
    rewrite orb_false_r.
    destruct (strings.HasPrefix (String c (replace_all r)) old) eqn:Hp;
      [| done].
    rewrite <- replace_go_miss in Hp by done.
    apply replace_all_prefix in Hp; [congruence | done].
Qed.

(** Nor does the replacement bring in another tag that was absent
    and shares no byte with the value. *)
Lemma replace_all_keeps_absent (s p : string) :
  text.disjoint new p = true ->
  strings.Contains s p = false ->
  strings.Contains (replace_all s) p = false.
Proof.
  intros Hd.
  induction s as [| r IH | c r Hmiss IH] using (scan_ind old old_nonempty);
    intros Hc.
  - done.
  - rewrite replace_go_hit by done.
    rewrite Contains_disjoint;
      [| by eapply Contains_nonempty | done].
    apply IH. by eapply Contains_suffix.
  - rewrite Contains_cons in Hc.
    apply orb_false_iff in Hc as [Hp Hc].
    rewrite replace_go_miss by done. rewrite Contains_cons, IH by done.
    rewrite orb_false_r.
    destruct (strings.HasPrefix (String c (replace_all r)) p) eqn:Hq;
      [| done].
    rewrite <- replace_go_miss in Hq by done.
    apply replace_all_prefix in Hq; [congruence | done].
Qed.
End Values.
End ReplaceAll.

(** * Substitution of tags, relationally *)
Section Substituted.
Import text.

Lemma substituted_refl (pairs : list (string * string)) (s : string) :
  substituted pairs s s.
Proof. induction s; by constructor. Qed.

Lemma substituted_weaken (pairs pairs' : list (string * string))
    (t o : string) :
  (forall x, In x pairs -> In x pairs') ->
  substituted pairs t o -> substituted pairs' t o.
Proof.
  intros Hsub Hs. induction Hs; [constructor | by constructor |].
  constructor; [by apply Hsub | done].
Qed.

Lemma apart_tail pairs a p : apart pairs (String a p) -> apart pairs p.
Proof.
  intros H tag value Hin. destruct (H tag value Hin) as [Hv Hd].
  split; [done | by eapply disjoint_tail].
Qed.

(** If the output starts with [p], so does the template, and what
    follows [p] is again related. *)
Lemma substituted_prefix pairs p :
  apart pairs p ->
  forall t o, substituted pairs t o ->
    strings.HasPrefix o p = true ->
    strings.HasPrefix t p = true
    /\ substituted pairs (strings.drop (String.length p) t)
                         (strings.drop (String.length p) o).
Proof.
  induction p as [|a p IH]; intros Hap t o Hs Hp.
  - split; [done |]. by destruct t, o.
  - inversion Hs as [| c t' o' Hs' | tag value t' o' Hin Hs']; subst.
    + done.
    + simpl in Hp. apply andb_true_iff in Hp as [Hac Hp].
      destruct (IH (apart_tail _ _ _ Hap) _ _ Hs' Hp) as [Ht Hd].
      simpl. by rewrite Hac, Ht.
    + destruct (Hap _ _ Hin) as [Hv Hd].
      by rewrite HasPrefix_disjoint in Hp.
Qed.

(** One more pass of replace-all extends the relation. *)
Lemma substituted_replace pairs old new :
  old <> "" -> apart pairs old ->
  forall t s, substituted pairs t s ->
    substituted ((old, new) :: pairs) t
      (strings.replace_go old new None 0 s).
Proof.
  intros Hold Hap t s. remember (String.length s) as n eqn:Hn.
  revert t s Hn. induction (lt_wf n) as [n _ IH]. intros t s -> Hs.
  inversion Hs as [| c t' o' Hs' | tag value t' o' Hin Hs']; subst.
  - constructor.
  - destruct (strings.HasPrefix (String c o') old) eqn:Hp.
    + destruct (substituted_prefix _ _ Hap _ _ Hs Hp) as [Ht Hd].
      rewrite (HasPrefix_split _ _ Ht), (HasPrefix_split _ _ Hp).
      rewrite replace_go_hit by done.
      constructor; [by left |].
      eapply IH; [| reflexivity | done].
      rewrite (HasPrefix_split _ _ Hp) at 2. rewrite length_append.
      destruct old; [done | simpl; lia].
    + rewrite replace_go_miss by done. constructor.
      eapply IH; [| reflexivity | done]. simpl; lia.
  - destruct (Hap _ _ Hin) as [Hv Hd].
    rewrite replace_all_value by done.
    constructor; [by right |].
    eapply IH; [| reflexivity | done].
    rewrite length_append. destruct value; [done | simpl; lia].
Qed.

End Substituted.

(** * Values that take part in no occurrence of a tag *)
Section Clear.
Import text.





End Clear.

Section ReplaceClear.
Import text.
Variables old new : string.
Hypothesis old_nonempty : old <> "".

#[local] Abbreviation replace_all := (strings.replace_go old new None 0).




End ReplaceClear.

Section SubstitutedClear.
Import text.


End SubstitutedClear.

(** A replace-all that finds nothing returns its input, whatever the
    replacement is. *)
Lemma Replace_absent (s old new : string) :
  strings.Contains s old = false -> strings.Replace s old new (-1) = s.
Proof.
  intros H. assert (old <> "") as Hold by by eapply Contains_nonempty.
  unfold strings.Replace.
  destruct (String.eqb old new); [done |]. simpl.
  destruct old as [|a old]; [done |]. by apply replace_all_absent.
Qed.

(** * Reasoning about builders *)
Section BuilderFacts.

Lemma bind_Ok {A B} (m : M A) (k : A -> M B) st b st' :
  bind m k st = (Ok b, st') ->
  exists a st1, m st = (Ok a, st1) /\ k a st1 = (Ok b, st').
Proof.
  unfold bind. destruct (m st) as [[a|e|] st1]; [eauto | done | done].
Qed.

Lemma bind_Err {A B} (m : M A) (k : A -> M B) st e st' :
  bind m k st = (Err e, st') ->
  m st = (Err e, st')
  \/ exists a st1, m st = (Ok a, st1) /\ k a st1 = (Err e, st').
Proof.
  unfold bind. destruct (m st) as [[a|e'|] st1]; [eauto | | done].
  intros [= -> ->]. by left.
Qed.

Lemma wrapf_Ok {A} prefix (m : M A) st a st' :
  wrapf prefix m st = (Ok a, st') -> m st = (Ok a, st').
Proof. unfold wrapf. by destruct (m st) as [[?|?|] ?]. Qed.

Lemma wrapf_Err {A} prefix (m : M A) st e st' :
  wrapf prefix m st = (Err e, st') ->
  exists e', e = Wrapf prefix e' /\ m st = (Err e', st').
Proof.
  unfold wrapf. destruct (m st) as [[?|e'|] ?]; [done | | done].
  intros [= <- <-]. eauto.
Qed.

Lemma WriteString_Ok s st u st' :
  WriteString s st = (Ok u, st') ->
  os.written (file st') = os.written (file st) ++ [s]
  /\ appInfo st' = appInfo st.
Proof.
  unfold WriteString.
  destruct (os.fault (file st)) as [[[|n] msg]|]; [done | |];
    by intros [= <- <-].
Qed.

Lemma WriteString_Err s st e st' :
  WriteString s st = (Err e, st') ->
  st' = st /\ exists msg, e = OSError msg.
Proof.
  unfold WriteString.
  destruct (os.fault (file st)) as [[[|n] msg]|]; [| done | done].
  intros [= <- <-]. eauto.
Qed.

Lemma WriteString_healthy s st :
  healthy st ->
  WriteString s st
  = (Ok tt, {| file := {| os.written := os.written (file st) ++ [s];
                          os.fault := None |};
               appInfo := appInfo st |}).
Proof. unfold healthy, WriteString. by intros ->. Qed.

(** ** A successful run is the run on a file that never fails *)

Lemma uniform_ret {A} (a : A) : uniform (ret a).
Proof. by intros st b st' [= <- <-]. Qed.

Lemma uniform_fail {A} e : uniform (@fail A e).
Proof. by intros st b st'. Qed.

Lemma uniform_deref {A} (p : option A) : uniform (deref p).
Proof. intros st b st'. unfold deref. by destruct p; intros [= <- <-]. Qed.

Lemma uniform_get_app : uniform get_app.
Proof. by intros st b st' [= <- <-]. Qed.

Lemma uniform_set_app p : uniform (set_app_BinPath p).
Proof. by intros st b st' [= <- <-]. Qed.

Lemma uniform_WriteString s : uniform (WriteString s).
Proof.
  intros st [] st'. unfold WriteString, heal.
  destruct (os.fault (file st)) as [[[|n] msg]|]; [done | |];
    by intros [= <-].
Qed.

Lemma uniform_bind {A B} (m : M A) (k : A -> M B) :
  uniform m -> (forall a, uniform (k a)) -> uniform (bind m k).
Proof.
  intros Hm Hk st b st' H.
  apply bind_Ok in H as (a & st1 & H1 & H2).
  unfold bind. rewrite (Hm _ _ _ H1). by apply Hk.
Qed.

Lemma uniform_wrapf {A} prefix (m : M A) :
  uniform m -> uniform (wrapf prefix m).
Proof.
  intros Hm st a st' H. apply wrapf_Ok in H.
  unfold wrapf. by rewrite (Hm _ _ _ H).
Qed.

Lemma uniform_when b m : uniform m -> uniform (when b m).
Proof. intros Hm. destruct b; [done | apply uniform_ret]. Qed.

(** ** Builders that leave the application descriptor alone *)

Lemma frames_ret {A} (a : A) : frames (ret a).
Proof. by intros st r st' [= <- <-]. Qed.

Lemma frames_fail {A} e : frames (@fail A e).
Proof. by intros st r st' [= <- <-]. Qed.

Lemma frames_deref {A} (p : option A) : frames (deref p).
Proof. intros st r st'. unfold deref. by destruct p; intros [= <- <-]. Qed.

Lemma frames_get_app : frames get_app.
Proof. by intros st r st' [= <- <-]. Qed.

Lemma frames_WriteString s : frames (WriteString s).
Proof.
  intros st r st'. unfold WriteString.
  destruct (os.fault (file st)) as [[[|n] msg]|]; by intros [= <- <-].
Qed.

Lemma frames_bind {A B} (m : M A) (k : A -> M B) :
  frames m -> (forall a, frames (k a)) -> frames (bind m k).
Proof.
  intros Hm Hk st r st'. unfold bind.
  destruct (m st) as [[a|e|] st1] eqn:E.
  - intros H. rewrite (Hk _ _ _ _ H). by eapply Hm.
  - intros [= <- <-]. by eapply Hm.
  - intros [= <- <-]. by eapply Hm.
Qed.

Lemma frames_wrapf {A} prefix (m : M A) :
  frames m -> frames (wrapf prefix m).
Proof.
  intros Hm st r st'. unfold wrapf.
  destruct (m st) as [[a|e|] st1] eqn:E; intros [= <- <-]; by eapply Hm.
Qed.

Lemma frames_when b m : frames m -> frames (when b m).
Proof. intros Hm. destruct b; [done | apply frames_ret]. Qed.

(** ** Where the errors of a builder come from *)

Lemma blames_ret {A} P (a : A) : blames P (ret a).
Proof. by intros st e st'. Qed.

Lemma blames_fail {A} (P : error -> Prop) e :
  P (cause e) -> blames P (@fail A e).
Proof. by intros H st e' st' [= <- <-]. Qed.

Lemma blames_deref {A} P (p : option A) : blames P (deref p).
Proof. intros st e st'. unfold deref. by destruct p. Qed.

Lemma blames_get_app P : blames P get_app.
Proof. by intros st e st'. Qed.

Lemma blames_set_app P p : blames P (set_app_BinPath p).
Proof. by intros st e st'. Qed.

Lemma blames_WriteString (P : error -> Prop) s :
  (forall msg, P (OSError msg)) -> blames P (WriteString s).
Proof.
  intros HP st e st' H.
  apply WriteString_Err in H as [_ [msg ->]]. apply HP.
Qed.

Lemma blames_bind {A B} P (m : M A) (k : A -> M B) :
  blames P m -> (forall a, blames P (k a)) -> blames P (bind m k).
Proof.
  intros Hm Hk st e st' H.
  apply bind_Err in H as [H | (a & st1 & _ & H)];
    [by eapply Hm | by eapply Hk].
Qed.

Lemma blames_wrapf {A} P prefix (m : M A) :
  blames P m -> blames P (wrapf prefix m).
Proof.
  intros Hm st e st' H. apply wrapf_Err in H as (e' & -> & H).
  simpl. by eapply Hm.
Qed.

Lemma blames_when P b m : blames P m -> blames P (when b m).
Proof. intros Hm. destruct b; [done | apply blames_ret]. Qed.

(** ** Builders that return on a file that never fails *)











End BuilderFacts.

(** Structural closure of the three predicates over a builder's text *)
Ltac builder_step :=
  match goal with
  | |- uniform (bind _ _) => apply uniform_bind; [| intros ?]
  | |- uniform (wrapf _ _) => apply uniform_wrapf
  | |- uniform (when _ _) => apply uniform_when
  | |- uniform (WriteString _) => apply uniform_WriteString
  | |- uniform (ret _) => apply uniform_ret
  | |- uniform (fail _) => apply uniform_fail
  | |- uniform (deref _) => apply uniform_deref
  | |- uniform get_app => apply uniform_get_app
  | |- uniform (set_app_BinPath _) => apply uniform_set_app
  | |- frames (bind _ _) => apply frames_bind; [| intros ?]
  | |- frames (wrapf _ _) => apply frames_wrapf
  | |- frames (when _ _) => apply frames_when
  | |- frames (WriteString _) => apply frames_WriteString
  | |- frames (ret _) => apply frames_ret
  | |- frames (fail _) => apply frames_fail
  | |- frames (deref _) => apply frames_deref
  | |- frames get_app => apply frames_get_app
  | |- blames _ (bind _ _) => apply blames_bind; [| intros ?]
  | |- blames _ (wrapf _ _) => apply blames_wrapf
  | |- blames _ (when _ _) => apply blames_when
  | |- blames _ (WriteString _) => apply blames_WriteString; intros ?
  | |- blames _ (ret _) => apply blames_ret
  | |- blames _ (fail _) => apply blames_fail
  | |- blames _ (deref _) => apply blames_deref
  | |- blames _ get_app => apply blames_get_app
  | |- blames _ (set_app_BinPath _) => apply blames_set_app
  | |- context [if ?b then _ else _] => destruct b
  | |- context [match ?o with Some _ => _ | None => _ end] => destruct o
  end.

Ltac builder := repeat (cbv zeta; builder_step).



(** Running a builder on an explicit store: the plumbing is unfolded, the
    string functions and the collaborators are left as they are. *)
Ltac decide_tests_in H :=
  repeat match type of H with
         | context [String.eqb ?a ?b] =>
             let v := eval vm_compute in (String.eqb a b) in
             match v with
             | true => change (String.eqb a b) with true in H
             | false => change (String.eqb a b) with false in H
             end
         end.

Ltac exec_in H :=
  decide_tests_in H;
  cbv beta iota zeta delta
    [bind wrapf when get_app set_app_BinPath WriteString ret fail deref
     heal file appInfo os.fault os.written fst snd negb
     app.set_BinPath app.Name app.BinName app.BinPath app.Source
     app.InstallCmd] in H.

(** * The claims *)

(** The worked examples run with the collaborators modelled above. *)
#[local] Existing Instance util.spec.
#[local] Existing Instance distro.no_registry.
#[local] Existing Instance filepath.on_clean_operands.

(** ** Cleanup *)

(** C1: the cleanup builder is expected to emit an apt-family clean
    command for ubuntu and a yum-family one for centos.  The two branches
    of the code are swapped: on an ubuntu descriptor it writes the yum
    command, on a centos descriptor the apt command (while the distro
    initialisation and the dependency installation pair ubuntu with apt
    and centos with yum). *)
Theorem addCleanUp_swaps_the_package_managers :
  let ubuntu := example.descriptor example.ubuntu "" container.BindModel in
  let centos := example.descriptor example.centos "" container.BindModel in
  let st := example.fresh (example.hello "") in
  fst (deffile.addCleanUp ubuntu st) = Ok tt
  /\ emitted st (snd (deffile.addCleanUp ubuntu st)) = ["\tyum clean all\n"]
  /\ fst (deffile.addCleanUp centos st) = Ok tt
  /\ emitted st (snd (deffile.addCleanUp centos st)) = ["\tapt-get clean\n"].
Proof. vm_compute. repeat split. Qed.

(** The sibling builder pairs the distributions the other way round. *)
Lemma addDependencies_pairs_ubuntu_with_apt :
  let ubuntu := example.descriptor example.ubuntu "" container.BindModel in
  let st := example.fresh (example.hello "") in
  head (emitted st (snd (deffile.addDependencies ubuntu ["libc-bin"] st)))
  = Some "\tapt install -y libc-bin\n".
Proof. vm_compute. repeat split. Qed.

(** Any other distribution name: nothing is written and the builder
    succeeds, whatever the state of the file. *)
Lemma addCleanUp_other_distro (d : deffile.DefFileData) (st : Store) :
  distro.Name (deffile.DistroID d) <> "centos" ->
  distro.Name (deffile.DistroID d) <> "ubuntu" ->
  deffile.addCleanUp d st = (Ok tt, st).
Proof.
  intros Hc Hu. unfold deffile.addCleanUp.
  apply String.eqb_neq in Hc, Hu. by rewrite Hc, Hu.
Qed.

(** ** Archive suffixes in the install and download builders *)

(** The MPI-install builder has no error of its own: whatever the
    archive helpers answer, its only failures are those of the file. *)
Lemma AddMPIInstall_only_fails_on_writes `{U : util.Pkg}
    (d : deffile.DefFileData) :
  blames (fun c => exists msg, c = OSError msg) (deffile.AddMPIInstall d).
Proof. unfold deffile.AddMPIInstall. builder; eauto. Qed.

Lemma addAppDownload_only_fails_on_writes `{U : util.Pkg}
    (d : deffile.DefFileData) :
  blames (fun c => exists msg, c = OSError msg) (deffile.addAppDownload d).
Proof.
  unfold deffile.addAppDownload, deffile.addDetectAppDir. builder; eauto.
Qed.

(** C2: an archive suffix that is not recognised is expected to make the
    MPI-install builder and the http branch of the download builder fail.
    On a [.zip] address both succeed and write a [tar] command with an
    empty flag. *)
Theorem unknown_suffix_is_not_rejected :
  let d := example.descriptor example.ubuntu "http://example/ompi-4.0.1.zip"
             container.HybridModel in
  let a := example.hello "http://example/hello-1.0.zip" in
  let st := example.fresh a in
  util.DetectTarballFormat "ompi-4.0.1.zip" = util.UnknownFormat
  /\ fst (deffile.AddMPIInstall d st) = Ok tt
  /\ In "\tcd $MPI_BUILDDIR && wget $MPI_URL && tar  ompi-4.0.1.zip\n"
        (emitted st (snd (deffile.AddMPIInstall d st)))
  /\ util.DetectURLType (app.Source a) = util.HttpURL
  /\ util.DetectTarballFormat (app.Source a) = util.UnknownFormat
  /\ fst (deffile.addAppDownload d st) = Ok tt
  /\ head (emitted st (snd (deffile.addAppDownload d st)))
     = Some "\tcd /opt && wget http://example/hello-1.0.zip && tar  hello-1.0.zip\n".
Proof. vm_compute. repeat split; auto. Qed.

(** The recognised suffixes select the bzip2, gzip and plain flags. *)
Lemma known_suffixes_select_the_flag :
  let line url :=
    let d := example.descriptor example.ubuntu url container.HybridModel in
    let st := example.fresh (example.hello "") in
    emitted st (snd (deffile.AddMPIInstall d st)) !! 3 in
  line "http://example/ompi-4.0.1.tar.bz2"
  = Some "\tcd $MPI_BUILDDIR && wget $MPI_URL && tar -xjf ompi-4.0.1.tar.bz2\n"
  /\ line "http://example/ompi-4.0.1.tar.gz"
     = Some "\tcd $MPI_BUILDDIR && wget $MPI_URL && tar -xzf ompi-4.0.1.tar.gz\n"
  /\ line "http://example/ompi-4.0.1.tgz"
     = Some "\tcd $MPI_BUILDDIR && wget $MPI_URL && tar -xzf ompi-4.0.1.tgz\n"
  /\ line "http://example/ompi-4.0.1.tar"
     = Some "\tcd $MPI_BUILDDIR && wget $MPI_URL && tar -xf ompi-4.0.1.tar\n".
Proof. vm_compute. repeat split. Qed.

(** ** The dependency inspector *)

Lemma emitted_append (st st' : Store) (l : list string) :
  os.written (file st') = os.written (file st) ++ l -> emitted st st' = l.
Proof. unfold emitted. intros ->. by rewrite drop_app_length. Qed.

(** Whatever the list, the dependency-install builder has no error of
    its own: it fails only when a write to the file fails. *)
Lemma addDependencies_only_fails_on_writes (d : deffile.DefFileData)
    (list : list string) :
  blames (fun c => exists msg, c = OSError msg)
    (deffile.addDependencies d list).
Proof.
  unfold deffile.addDependencies, deffile.addRPMDependencies,
    deffile.addDebianDependencies.
  builder; eauto.
Qed.

(** C3: without a usable inspector the dependency list is empty, one line
    is logged and the caller is not failed; and the dependency-install
    builder, given the empty list, succeeds on a file that takes the
    writes, emitting no install line: only the two fixed lines of the
    ubuntu branch. *)
Theorem inspector_unavailable_is_harmless
    (m : ldd.Module_) (file : string) (h : ldd.Host)
    (d : deffile.DefFileData) (st : Store) :
  ldd.unusable h file = true ->
  healthy st ->
  exists warning st',
    ldd.GetPackageDependenciesForFile m file h = (Ok [], [warning])
    /\ deffile.addDependencies d [] st = (Ok tt, st')
    /\ emitted st st'
       = (if String.eqb (distro.Name (deffile.DistroID d)) "ubuntu"
          then ["\tln -s /usr/lib/x86_64-linux-gnu/libosmcomp.so /usr/lib/x86_64-linux-gnu/libosmcomp.so.3\n";
                "\tldconfig\n"]
          else [])
    /\ forallb (fun line => negb (strings.HasPrefix line "\tapt install")
                            && negb (strings.HasPrefix line "\tyum install"))
         (emitted st st') = true.
Proof.
  intros Hu Hst.
  assert (exists warning,
           ldd.GetPackageDependenciesForFile m file h = (Ok [], [warning]))
    as [warning Hw].
  { unfold ldd.unusable in Hu. unfold ldd.GetPackageDependenciesForFile.
    destruct (ldd.LookPath h "ldd") as [p|]; [| eauto].
    apply bool_decide_eq_true in Hu as [e He]. rewrite He. eauto. }
  exists warning. unfold deffile.addDependencies.
  destruct (String.eqb (distro.Name (deffile.DistroID d)) "centos") eqn:Hc.
  - apply String.eqb_eq in Hc. rewrite Hc. exists st. simpl.
    unfold emitted. by rewrite drop_all.
  - destruct (String.eqb (distro.Name (deffile.DistroID d)) "ubuntu").
    + unfold deffile.addDebianDependencies. simpl.
      unfold bind, when, ret, wrapf.
      rewrite WriteString_healthy by done.
      rewrite WriteString_healthy by done.
      eexists. split; [done |]. split; [done |].
      rewrite (emitted_append _ _
                 ["\tln -s /usr/lib/x86_64-linux-gnu/libosmcomp.so /usr/lib/x86_64-linux-gnu/libosmcomp.so.3\n";
                  "\tldconfig\n"]); [done |].
      simpl. by rewrite <- app_assoc.
    + exists st. unfold emitted. by rewrite drop_all.
Qed.

Lemma inspector_unavailable_is_harmless_witness :
  exists warning st',
    ldd.GetPackageDependenciesForFile example.debian_ldd "/opt/hello"
      example.broken_ldd = (Ok [], [warning])
    /\ deffile.addDependencies
         (example.descriptor example.ubuntu "" container.BindModel) []
         (example.fresh (example.hello "")) = (Ok tt, st')
    /\ emitted (example.fresh (example.hello "")) st'
       = ["\tln -s /usr/lib/x86_64-linux-gnu/libosmcomp.so /usr/lib/x86_64-linux-gnu/libosmcomp.so.3\n";
          "\tldconfig\n"]
    /\ forallb (fun line => negb (strings.HasPrefix line "\tapt install")
                            && negb (strings.HasPrefix line "\tyum install"))
         (emitted (example.fresh (example.hello "")) st') = true.
Proof.
  apply (inspector_unavailable_is_harmless example.debian_ldd "/opt/hello"
           example.broken_ldd
           (example.descriptor example.ubuntu "" container.BindModel)
           (example.fresh (example.hello ""))).
  - reflexivity.
  - reflexivity.
Defined.

(** Without [ldd] on the path the warning is the fixed one, and the
    centos branch writes nothing at all for the empty list. *)
Lemma no_ldd_on_the_path :
  ldd.GetPackageDependenciesForFile example.debian_ldd "/opt/hello"
    example.no_ldd = (Ok [], ["[WARN] cannot find ldd"])
  /\ deffile.addDependencies
       (example.descriptor example.centos "" container.BindModel) []
       (example.fresh (example.hello ""))
     = (Ok tt, example.fresh (example.hello "")).
Proof. split; reflexivity. Qed.

(** ** Bootstrap *)

Lemma split_go_line (a b : string) :
  text.single_line a ->
  strings.split_go "\n" 0 (a +:+ "\n" +:+ b)
  = (a, let '(h, t) := strings.split_go "\n" 0 b in h :: t).
Proof.
  unfold text.single_line. induction a as [|c a IH]; [done |].
  rewrite Contains_cons. intros H. apply orb_false_iff in H as [Hp Hc].
  change (String c a +:+ "\n" +:+ b) with (String c (a +:+ "\n" +:+ b)).
  cbn [strings.split_go].
  assert (strings.HasPrefix (String c (a +:+ "\n" +:+ b)) "\n" = false)
    as -> by exact Hp.
  by rewrite IH.
Qed.

(** C4, refuted as stated: a codename that holds a line break puts a
    second [Bootstrap:] line into a fragment the builder writes with
    success. *)
Lemma bootstrap_line_can_repeat :
  let id := {| distro.Name := "ubuntu"; distro.Version := "20.04";
               distro.Codename := "focal\nBootstrap: docker" |} in
  let d := example.descriptor id "" container.BindModel in
  let st := example.fresh (example.hello "") in
  let r := deffile.AddBootstrap (R := distro.no_registry) d
             (example.cfg false) st in
  fst r = Ok tt
  /\ length (text.lines_with ["Bootstrap: "] (os.content (file (snd r)))) = 2.
Proof. vm_compute. by split. Qed.

(** C4, amended: for every descriptor, configuration and file the
    builder follows the decision order of [text.bootstrap_fragment].
    With no strategy it returns the unsupported-distro error and leaves
    the file as it was; with a strategy it hands the fragment to the
    file in one write, so a file that takes the write receives exactly
    that fragment.  As long as the resolver's address, the version and
    the codename hold no line break, the fragment has one [Bootstrap:]
    line and one [From:] or [OSVersion:] line. *)
Theorem AddBootstrap_follows_the_decision_order `{R : distro.Resolver}
    (d : deffile.DefFileData) (sysCfg : sys.Config) (st : Store) :
  let id := deffile.DistroID d in
  let url := distro.GetBaseImageLibraryURL id sysCfg in
  match text.bootstrap_fragment url id (sys.Nopriv sysCfg) with
  | None =>
      deffile.AddBootstrap d sysCfg st
      = (Err (Errorf ("unsupported distro: " +:+ distro.Name id)), st)
  | Some fragment =>
      deffile.AddBootstrap d sysCfg st
      = wrapf "failed to add bootstrap section to definition file: "
          (WriteString fragment) st
      /\ (healthy st ->
          exists st', deffile.AddBootstrap d sysCfg st = (Ok tt, st'))
      /\ (forall st', deffile.AddBootstrap d sysCfg st = (Ok tt, st') ->
                      emitted st st' = [fragment])
      /\ (text.single_line url ->
          text.single_line (distro.Version id) ->
          text.single_line (distro.Codename id) ->
          length (text.lines_with ["Bootstrap: "] fragment) = 1
          /\ length (text.lines_with ["From: "; "OSVersion: "] fragment) = 1)
  end.
Proof.
  intros id url.
  assert (forall fragment st',
            wrapf "failed to add bootstrap section to definition file: "
              (WriteString fragment) st = (Ok tt, st') ->
            emitted st st' = [fragment]) as Hone.
  { intros fragment st' H. apply wrapf_Ok, WriteString_Ok in H as [H _].
    by apply emitted_append. }
  assert (forall fragment,
            healthy st ->
            exists st',
              wrapf "failed to add bootstrap section to definition file: "
                (WriteString fragment) st = (Ok tt, st')) as Hruns.
  { intros fragment Hst. unfold wrapf.
    rewrite WriteString_healthy by done. by eexists. }
  unfold text.bootstrap_fragment, deffile.AddBootstrap.
  fold id. fold url.
  destruct (negb (String.eqb url "")).
  { split; [done |]. split; [apply Hruns |]. split; [apply Hone |].
    intros Hurl _ _.
    unfold text.lines_with, strings.Split. cbn [strings.split_go
      strings.HasPrefix Ascii.eqb Bool.eqb andb String.append String.length].
    change (url +:+ "\n\n") with (url +:+ "\n" +:+ "\n").
    rewrite split_go_line by done. by vm_compute. }
  destruct (String.eqb (distro.Name id) "ubuntu").
  { unfold deffile.addDebootstrapBootstrap. fold id.
    split; [done |]. split; [apply Hruns |]. split; [apply Hone |].
    intros _ _ Hcode.
    unfold text.lines_with, strings.Split. cbn [strings.split_go
      strings.HasPrefix Ascii.eqb Bool.eqb andb String.append String.length].
    change (distro.Codename id
            +:+ "\nMirrorURL: http://us.archive.ubuntu.com/ubuntu/\n\n")
      with (distro.Codename id +:+ "\n"
            +:+ "MirrorURL: http://us.archive.ubuntu.com/ubuntu/\n\n").
    rewrite split_go_line by done. by vm_compute. }
  destruct (String.eqb (distro.Name id) "centos") eqn:Hname; [| done].
  apply String.eqb_eq in Hname.
  destruct (sys.Nopriv sysCfg); simpl.
  - unfold deffile.addDockerBootstrap. fold id. rewrite Hname.
    split; [done |]. split; [apply Hruns |]. split; [apply Hone |].
    intros _ _ _. by vm_compute.
  - unfold deffile.addYumBootstrap. fold id.
    split; [done |]. split; [apply Hruns |]. split; [apply Hone |].
    intros _ Hver _.
    unfold text.lines_with, strings.Split. cbn [strings.split_go
      strings.HasPrefix Ascii.eqb Bool.eqb andb String.append String.length].
    change (distro.Version id
            +:+ "\nMirrorURL: http://mirror.centos.org/centos-%{OSVERSION}/%{OSVERSION}/os/$basearch/\nInclude: yum\n\n")
      with (distro.Version id +:+ "\n"
            +:+ "MirrorURL: http://mirror.centos.org/centos-%{OSVERSION}/%{OSVERSION}/os/$basearch/\nInclude: yum\n\n").
    rewrite split_go_line by done. by vm_compute.
Qed.

Lemma AddBootstrap_follows_the_decision_order_witness :
  let d := example.descriptor example.ubuntu "" container.BindModel in
  let st := example.fresh (example.hello "") in
  let fragment :=
    "Bootstrap: debootstrap\nOSVersion: focal\nMirrorURL: http://us.archive.ubuntu.com/ubuntu/\n\n" in
  (exists st', deffile.AddBootstrap d (example.cfg false) st = (Ok tt, st'))
  /\ (forall st', deffile.AddBootstrap d (example.cfg false) st = (Ok tt, st') ->
                  emitted st st' = [fragment])
  /\ length (text.lines_with ["Bootstrap: "] fragment) = 1
  /\ length (text.lines_with ["From: "; "OSVersion: "] fragment) = 1.
Proof.
  destruct (AddBootstrap_follows_the_decision_order (R := distro.no_registry)
              (example.descriptor example.ubuntu "" container.BindModel)
              (example.cfg false) (example.fresh (example.hello "")))
    as (_ & Hruns & Hone & Hlines).
  split; [exact (Hruns eq_refl) |]. split; [exact Hone |].
  exact (Hlines eq_refl eq_refl eq_refl).
Defined.

(** The other strategies, on the same file *)
Lemma bootstrap_strategies :
  let run (R : distro.Resolver) id nopriv :=
    let st := example.fresh (example.hello "") in
    let r := deffile.AddBootstrap (R := R)
               (example.descriptor id "" container.BindModel)
               (example.cfg nopriv) st in
    (fst r, emitted st (snd r)) in
  let fedora := {| distro.Name := "fedora"; distro.Version := "31";
                   distro.Codename := "" |} in
  run (distro.registry_at "library://sylabs/centos:7") example.centos false
  = (Ok tt, ["Bootstrap: library\nFrom: library://sylabs/centos:7\n\n"])
  /\ run distro.no_registry example.centos false
     = (Ok tt, ["Bootstrap: yum\nOSVersion: 7\nMirrorURL: http://mirror.centos.org/centos-%{OSVERSION}/%{OSVERSION}/os/$basearch/\nInclude: yum\n\n"])
  /\ run distro.no_registry example.centos true
     = (Ok tt, ["Bootstrap: docker\nFrom: centos\n\n"])
  /\ run distro.no_registry fedora false
     = (Err (Errorf "unsupported distro: fedora"), []).
Proof. vm_compute. repeat split. Qed.

(** ** The template processor *)

Section Template.
Context `{U : util.Pkg}.

Lemma sanity_check_fails_iff (data : deffile.DefFileData)
    (m : implem.Info) :
  String.eqb (implem.Version m) ""
  || String.eqb (implem.URL m) ""
  || String.eqb (deffile.Path data) ""
  || String.eqb (deffile.Version (deffile.Tags data)) ""
  || String.eqb (deffile.URL (deffile.Tags data)) ""
  || String.eqb (deffile.Tarball (deffile.Tags data)) ""
  || String.eqb (distro.Name (deffile.DistroID data)) "" = true
  <-> template.missing_parameter data m.
Proof.
  unfold template.missing_parameter.
  rewrite !orb_true_iff, !String.eqb_eq. tauto.
Qed.

End Template.


(** An empty tag name, on a template that is there *)
Lemma an_empty_tag_is_an_invalid_parameter :
  let tags := {| deffile.Version := "MPIVERSION"; deffile.Tarball := "";
                 deffile.URL := "MPIURL"; deffile.Dir := "";
                 deffile.InstallConffile := "";
                 deffile.UninstallConffile := ""; deffile.Ifnet := "" |} in
  let data := {| deffile.Path := "/tmp/mpi.def";
                 deffile.DistroID := example.ubuntu;
                 deffile.MpiImplm :=
                   Some (example.ompi "http://example/ompi-4.0.1.tar.gz");
                 deffile.Tags := tags;
                 deffile.InternalEnv := None;
                 deffile.Model := "" |} in
  let disk := {| os.files := {[ "/tmp/mpi.def" := "V=MPIVERSION\n" ]};
                 os.readonly := ∅; os.short := ∅ |} in
  deffile.UpdateDeffileTemplate data (example.cfg true) disk
  = (Err (Errorf "invalid parameter(s)"), disk, []).
Proof. reflexivity. Qed.


(** *** What one application leaves in the template *)

Section Passes.

Lemma independent_spec (pairs : list (string * string)) :
  template.independent pairs = true ->
  forall tag value tag', In (tag, value) pairs -> In tag' (map fst pairs) ->
    value <> "" /\ text.disjoint value tag' = true.
Proof.
  unfold template.independent. intros H tag value tag' Hin Hin'.
  rewrite forallb_forall in H.
  specialize (H value (in_map snd _ _ Hin)).
  apply andb_true_iff in H as [Hv Hd].
  apply negb_true_iff, String.eqb_neq in Hv.
  rewrite forallb_forall in Hd. split; [done | by apply Hd].
Qed.

Lemma independent_app_l (ps qs : list (string * string)) :
  template.independent (ps ++ qs) = true -> template.independent ps = true.
Proof.
  unfold template.independent. rewrite !map_app, forallb_app.
  intros H. apply andb_true_iff in H as [H _].
  rewrite forallb_forall in *. intros v Hv.
  specialize (H v Hv). apply andb_true_iff in H as [H1 H2].
  rewrite H1. simpl. rewrite forallb_app in H2.
  by apply andb_true_iff in H2 as [H2 _].
Qed.

Lemma passes_snoc (ps : list (string * string)) (tag value s : string) :
  template.passes (ps ++ [(tag, value)]) s
  = strings.Replace (template.passes ps s) tag value (-1).
Proof. unfold template.passes. by rewrite fold_left_app. Qed.

(** After the passes no tag is left, and the result is the template
    with tags replaced by their values and nothing else touched:
    provided no tag is empty, no value is empty and no value shares a
    byte with a tag. *)
Lemma passes_spec (ps : list (string * string)) (s : string) :
  (forall tag, In tag (map fst ps) -> tag <> "") ->
  template.independent ps = true ->
  (forall tag, In tag (map fst ps) ->
               strings.Contains (template.passes ps s) tag = false)
  /\ text.substituted ps s (template.passes ps s).
Proof.
  induction ps as [| [tag value] ps IH] using rev_ind; intros Hne Hind.
  - split; [done | apply substituted_refl].
  - rewrite passes_snoc.
    destruct IH as [IHgone IHsub].
    { intros t Ht. apply Hne. rewrite map_app, in_app_iff. by left. }
    { by eapply independent_app_l. }
    assert (In (tag, value) (ps ++ [(tag, value)])) as Hlast
      by (rewrite in_app_iff; right; by left).
    assert (In tag (map fst (ps ++ [(tag, value)]))) as Htag
      by (rewrite map_app, in_app_iff; right; by left).
    destruct (independent_spec _ Hind _ _ _ Hlast Htag) as [Hv Hd].
    assert (tag <> "") as Hold by by apply Hne.
    rewrite Replace_all; [| done | intros ->; by eapply disjoint_ne].
    split.
    + intros t Ht. rewrite map_app, in_app_iff in Ht.
      destruct Ht as [Ht | [<- | []]].
      * apply replace_all_keeps_absent; [done | done | | by apply IHgone].
        eapply independent_spec; [done | done |].
        rewrite map_app, in_app_iff. by left.
      * by apply replace_all_gone.
    + eapply substituted_weaken;
        [| apply substituted_replace; [done | | done]].
      * intros x [<- | Hx]; rewrite in_app_iff; [right; by left | by left].
      * intros t v Hin. eapply independent_spec; [done | | done].
        rewrite in_app_iff. by left.
Qed.





End Passes.


(** Text outside every tag is not safe either: an empty codename joins
    what stood on both sides of the codename marker. *)
Lemma a_marker_can_appear_by_joining :
  let data := example.descriptor example.centos
                "http://example/ompi-4.0.1.tar.gz" container.HybridModel in
  let disk := {| os.files :=
                   {[ "/tmp/mpi.def" := "# TARDISTROCODENAMEARGS\n" ]};
                 os.readonly := ∅; os.short := ∅ |} in
  let r := deffile.UpdateDeffileTemplate data (example.cfg false) disk in
  r.1.1 = Ok tt
  /\ os.files r.1.2 !! "/tmp/mpi.def" = Some "# TARARGS\n".
Proof. vm_compute. repeat split. Qed.

(** Inputs the condition of the amended statement admits: an address
    that shares bytes with the tags, and the empty codename of a
    distribution whose template does not hold the codename marker. *)
Lemma ordinary_inputs_are_compatible :
  let ubuntu := example.descriptor example.ubuntu
                  "http://Example.ORG/ompi-4.0.1.tar.gz"
                  container.HybridModel in
  let centos := example.descriptor example.centos
                  "http://example/ompi-4.0.1.tar.gz" container.HybridModel in
  let template (from : string) :=
    from +:+ "\texport V=MPIVERSION\n\twget MPIURL && tar TARARGS MPITARBALL\n" in
  template.compatible
    (template.pairs ubuntu (example.ompi "http://Example.ORG/ompi-4.0.1.tar.gz"))
    (template "From: ubuntu:DISTROCODENAME\n") = true
  /\ template.independent
       (template.pairs ubuntu
          (example.ompi "http://Example.ORG/ompi-4.0.1.tar.gz")) = false
  /\ template.compatible
       (template.pairs centos (example.ompi "http://example/ompi-4.0.1.tar.gz"))
       (template "From: centos:7\n") = true
  /\ template.independent
       (template.pairs centos
          (example.ompi "http://example/ompi-4.0.1.tar.gz")) = false.
Proof. vm_compute. repeat split. Qed.



(** ** Labels *)

Lemma addLabels_uniform (d : deffile.DefFileData) :
  uniform (deffile.addLabels d).
Proof. unfold deffile.addLabels. builder. Qed.

(** C7: in the labels a successful run writes, the only line that starts
    with the [App_exe] key is [/opt/<binary-name>] for the bind model
    and, for the hybrid model with a binary path configured, that
    path. *)
Theorem addLabels_App_exe (d : deffile.DefFileData) (st st' : Store) :
  deffile.addLabels d st = (Ok tt, st') ->
  let a := appInfo st in
  let lines :=
    List.filter (fun line => strings.HasPrefix line "\tApp_exe ")
      (emitted st st') in
  (deffile.Model d = container.BindModel ->
   lines = ["\tApp_exe /opt/" +:+ app.BinName a +:+ "\n"])
  /\ (deffile.Model d = container.HybridModel -> app.BinPath a <> "" ->
      lines = ["\tApp_exe " +:+ app.BinPath a +:+ "\n"]).
Proof.
  intros Hrun a lines. subst lines a.
  apply addLabels_uniform in Hrun.
  change (emitted st st') with (emitted (heal st) (heal st')).
  unfold deffile.addLabels in Hrun.
  destruct st as [[w ft] [name bin binpath src cmd]].
  cbn [appInfo app.BinName app.BinPath].
  split.
  - intros Hmodel. rewrite Hmodel in Hrun.
    destruct (deffile.MpiImplm d) as [m|];
      (destruct (deffile.InternalEnv d) as [env|];
       [destruct (String.eqb (buildenv.InstallDir env) "") |]).
    all: cbn in Hrun; injection Hrun as Hrun _.
    all: unfold emitted; cbn [file os.written heal].
    all: rewrite <- Hrun, <- !app_assoc, drop_app_length; by cbn.
  - intros Hmodel Hpath. rewrite Hmodel in Hrun.
    destruct binpath as [|c p]; [done |].
    destruct (deffile.MpiImplm d) as [m|];
      (destruct (deffile.InternalEnv d) as [env|];
       [destruct (String.eqb (buildenv.InstallDir env) "") |]).
    all: cbn in Hrun; injection Hrun as Hrun _.
    all: unfold emitted; cbn [file os.written heal].
    all: rewrite <- Hrun, <- !app_assoc, drop_app_length; by cbn.
Qed.

Lemma addLabels_App_exe_witness :
  let bind := example.descriptor example.ubuntu "" container.BindModel in
  let hybrid := example.descriptor example.ubuntu "" container.HybridModel in
  let st := example.fresh (example.hello "") in
  let st2 :=
    example.fresh (app.set_BinPath "/usr/local/bin/hello" (example.hello "")) in
  let App_exe st st' :=
    List.filter (fun line => strings.HasPrefix line "\tApp_exe ")
      (emitted st st') in
  App_exe st (snd (deffile.addLabels bind st)) = ["\tApp_exe /opt/hello\n"]
  /\ App_exe st2 (snd (deffile.addLabels hybrid st2))
     = ["\tApp_exe /usr/local/bin/hello\n"].
Proof.
  split.
  - apply (proj1 (addLabels_App_exe
                    (example.descriptor example.ubuntu "" container.BindModel)
                    (example.fresh (example.hello "")) _ eq_refl)).
    reflexivity.
  - apply (proj2 (addLabels_App_exe
                    (example.descriptor example.ubuntu ""
                       container.HybridModel)
                    (example.fresh
                       (app.set_BinPath "/usr/local/bin/hello"
                          (example.hello ""))) _ eq_refl)).
    + reflexivity.
    + discriminate.
Defined.

(** ** Files of the hybrid model *)

Section HybridFiles.
Context `{U : util.Pkg}.

Lemma hybridFiles_uniform (d : deffile.DefFileData) (sysCfg : sys.Config) :
  uniform (deffile.hybridFiles d sysCfg).
Proof.
  unfold deffile.hybridFiles, deffile.createFilesSection. builder.
Qed.

(** C8, amended: for the hybrid model the files block of the assembler
    stages the source exactly when the source is classified as a file
    reference and, in addition, its name shows no archive format.  For
    a file reference the block writes the section header and, under
    that condition, the staging line; for any other source it writes
    nothing. *)
Theorem hybridFiles_stages_plain_file_sources
    (d : deffile.DefFileData) (sysCfg : sys.Config) (st st' : Store) :
  deffile.Model d = container.HybridModel ->
  deffile.hybridFiles d sysCfg st = (Ok tt, st') ->
  let source := app.Source (appInfo st) in
  let staging :=
    "\t" +:+ strings.Replace source "file://" "" 1 +:+ " /opt\n\n" in
  let is_file := String.eqb (util.DetectURLType source) util.FileURL in
  let no_archive :=
    String.eqb (util.DetectTarballFormat source) util.UnknownFormat in
  emitted st st'
  = (if is_file
     then "%files\n" :: (if no_archive then [staging] else [])
     else [])
  /\ (In staging (emitted st st')
      <-> util.DetectURLType source = util.FileURL
          /\ util.DetectTarballFormat source = util.UnknownFormat).
Proof.
  intros Hmodel Hrun source staging is_file no_archive.
  apply hybridFiles_uniform in Hrun.
  change (emitted st st') with (emitted (heal st) (heal st')).
  unfold deffile.hybridFiles, deffile.createFilesSection in Hrun.
  rewrite Hmodel in Hrun.
  destruct st as [[w ft] [name bin binpath src cmd]].
  cbn [appInfo app.Source] in source.
  assert (emitted (heal {| file := {| os.written := w; os.fault := ft |};
                           appInfo := app.Build_Info name bin binpath
                                        src cmd |}) (heal st')
          = (if is_file
             then "%files\n" :: (if no_archive then [staging] else [])
             else [])) as ->.
  { subst is_file no_archive staging source.
    remember (heal st') as target eqn:Ht in Hrun |- *. exec_in Hrun.
    destruct (String.eqb (util.DetectURLType src) util.FileURL);
      [destruct (String.eqb (util.DetectTarballFormat src)
                   util.UnknownFormat) |].
    all: injection Hrun as <-.
    all: unfold emitted; cbn [file os.written heal].
    all: rewrite <- ?app_assoc, ?drop_app_length, ?drop_all; by cbn. }
  split; [done |].
  subst is_file no_archive.
  rewrite <- !String.eqb_eq.
  destruct (String.eqb (util.DetectURLType source) util.FileURL);
    [destruct (String.eqb (util.DetectTarballFormat source)
                 util.UnknownFormat) |].
  - split; [done | intros _; right; by left].
  - split; [| intros [_ ?]; done].
    intros [H | []]. subst staging. discriminate H.
  - split; [intros [] | intros [? _]; done].
Qed.
End HybridFiles.

Lemma hybridFiles_stages_plain_file_sources_witness :
  let d := example.descriptor example.ubuntu
             "http://example/ompi-4.0.1.tar.gz" container.HybridModel in
  let st := example.fresh (example.hello "file:///home/me/hello.c") in
  let st' := snd (deffile.hybridFiles d (example.cfg false) st) in
  emitted st st' = ["%files\n"; "\t/home/me/hello.c /opt\n\n"]
  /\ (In "\t/home/me/hello.c /opt\n\n" (emitted st st')
      <-> util.DetectURLType "file:///home/me/hello.c" = util.FileURL
          /\ util.DetectTarballFormat "file:///home/me/hello.c"
             = util.UnknownFormat).
Proof.
  exact (hybridFiles_stages_plain_file_sources
           (example.descriptor example.ubuntu
              "http://example/ompi-4.0.1.tar.gz" container.HybridModel)
           (example.cfg false)
           (example.fresh (example.hello "file:///home/me/hello.c"))
           _ eq_refl eq_refl).
Defined.

(** C8, refuted as stated: a path to an archive, with or without the
    [file://] scheme, is a file reference; the assembler succeeds, and
    the manifest has the header of the files section but no staging line
    at all. *)
Lemma a_file_reference_can_go_unstaged :
  let d := example.descriptor example.ubuntu
             "http://example/ompi-4.0.1.tar.gz" container.HybridModel in
  let unstaged source :=
    let r := deffile.CreateHybridDefFile (example.hello source) d
               (example.cfg false) example.host in
    util.DetectURLType source = util.FileURL
    /\ r.1.1 = Ok tt
    /\ exists manifest,
         r.2 = Some manifest
         /\ In "%files\n" (os.written manifest)
         /\ List.filter (fun line => strings.HasSuffix line " /opt\n\n")
              (os.written manifest) = [] in
  unstaged "/home/me/hello-1.0.tar.gz"
  /\ unstaged "file:///home/me/hello-1.0.tar.gz".
Proof.
  vm_compute. split.
  all: split; [done |]; split; [done |]; eexists; split; [done |].
  all: split; [tauto | done].
Qed.

(** ** Labels and the inspection parser *)

Lemma Contains_here (s p : string) :
  strings.HasPrefix s p = true -> strings.Contains s p = true.
Proof. intros H. destruct s; simpl; by rewrite H. Qed.

Lemma split_go_single (s : string) :
  text.single_line s -> strings.split_go "\n" 0 s = (s, []).
Proof.
  unfold text.single_line. induction s as [|c s IH]; [done |].
  rewrite Contains_cons. intros H. apply orb_false_iff in H as [Hp Hc].
  cbn [strings.split_go]. rewrite Hp. by rewrite IH.
Qed.

Lemma scan_hit {A} (key v : string) (set : string -> A -> A) (a : A) :
  key <> "" -> strings.Contains v key = false ->
  container.scan (key +:+ v) key set a = set v a.
Proof.
  intros Hkey Hv. unfold container.scan.
  rewrite Contains_here by apply HasPrefix_append.
  rewrite Replace_all by done.
  rewrite replace_go_hit by done. simpl.
  by rewrite replace_all_absent.
Qed.

Lemma scan_miss {A} (line key : string) (set : string -> A -> A) (a : A) :
  strings.Contains line key = false -> container.scan line key set a = a.
Proof. unfold container.scan. by intros ->. Qed.

Lemma plain_spec (v : string) :
  inspect.plain v = true ->
  text.single_line v
  /\ strings.Contains v "MPI_Implementation: " = false
  /\ strings.Contains v "MPI_Version: " = false
  /\ strings.Contains v "Model: " = false
  /\ strings.Contains v "Linux_version: " = false
  /\ strings.Contains v "App_exe: " = false
  /\ strings.Contains v "MPI_Directory: " = false.
Proof.
  unfold inspect.plain, inspect.prefixes, text.single_line.
  cbn [forallb]. rewrite !andb_true_iff, !negb_true_iff. tauto.
Qed.

(** A line that starts with a literal key: the prefixes cannot start
    inside the key, so looking for them in the line is looking for them
    in the value. *)
Ltac scan_line :=
  cbn [strings.Contains strings.HasPrefix String.append Ascii.eqb Bool.eqb
       andb orb].




(** The whole label set, as the inspection command prints it, one
    [key: value] line per label in the order the emitter writes them:
    the six fields the parser has are recovered, the distribution name
    and the application name are dropped. *)
Lemma rendered_labels_are_recovered
    (name version id mpi dir model appname exe : string) :
  forallb inspect.plain [name; version; id; mpi; dir; model; appname; exe]
  = true ->
  container.parseInspectOutput
    (inspect.render
       [("Linux_distribution", name); ("Linux_version", version);
        ("MPI_Implementation", id); ("MPI_Version", mpi);
        ("MPI_Directory", dir); ("Model", model);
        ("Application", appname); ("App_exe", exe)])
  = (container.set_AppExe exe
       (container.set_Model model
          (container.set_MPIDir dir
             (container.set_Distro version container.zero_Config))),
     container.set_Version mpi (container.set_ID id container.zero_Info)).
Proof.
  cbn [forallb]. rewrite !andb_true_iff.
  intros (H1 & H2 & H3 & H4 & H5 & H6 & H7 & H8 & _).
  apply plain_spec in H1 as (? & ? & ? & ? & ? & ? & ?).
  apply plain_spec in H2 as (? & ? & ? & ? & ? & ? & ?).
  apply plain_spec in H3 as (? & ? & ? & ? & ? & ? & ?).
  apply plain_spec in H4 as (? & ? & ? & ? & ? & ? & ?).
  apply plain_spec in H5 as (? & ? & ? & ? & ? & ? & ?).
  apply plain_spec in H6 as (? & ? & ? & ? & ? & ? & ?).
  apply plain_spec in H7 as (? & ? & ? & ? & ? & ? & ?).
  apply plain_spec in H8 as (? & ? & ? & ? & ? & ? & ?).
  unfold container.parseInspectOutput, strings.Split, inspect.render,
    strings.Join.
  cbn [map String.concat fst snd].
  repeat (rewrite split_go_line
            by (unfold text.single_line; scan_line; assumption)).
  rewrite split_go_single
    by (unfold text.single_line; scan_line; assumption).
  cbn [fold_left container.parseLine].
  repeat first
    [ rewrite scan_hit by done
    | rewrite scan_miss by (scan_line; assumption) ].
  reflexivity.
Qed.

(** ** The binary path in the hybrid assembly *)

Section HybridAssembly.
Context `{U : util.Pkg} `{R : distro.Resolver} `{J : filepath.Pkg}.


(** *** What the builders before the application install leave behind *)

Lemma AddBootstrap_frames d sysCfg : frames (deffile.AddBootstrap d sysCfg).
Proof.
  unfold deffile.AddBootstrap, deffile.addDebootstrapBootstrap,
    deffile.addYumBootstrap, deffile.addDockerBootstrap. builder.
Qed.















(** Outside the bind model, a successful run of the labels builder
    stores the settled path through the [app] pointer. *)
Lemma addLabels_settles_BinPath (d : deffile.DefFileData) (st st' : Store) :
  deffile.Model d <> container.BindModel ->
  deffile.addLabels d st = (Ok tt, st') ->
  appInfo st'
  = app.set_BinPath (settled_BinPath (appInfo st)) (appInfo st).
Proof.
  intros Hmodel Hrun. apply addLabels_uniform in Hrun.
  apply String.eqb_neq in Hmodel.
  unfold deffile.addLabels in Hrun. rewrite Hmodel in Hrun.
  unfold settled_BinPath.
  destruct st as [[w ft] [name bin binpath src cmd]].
  remember (heal st') as target eqn:Ht in Hrun.
  assert (appInfo st' = appInfo target) as -> by by subst target.
  clear Ht.
  destruct (deffile.MpiImplm d) as [m|];
    (destruct (deffile.InternalEnv d) as [env|];
     [destruct (String.eqb (buildenv.InstallDir env) "") |]);
    destruct (String.eqb (deffile.Model d) "");
    destruct binpath as [|c p].
  all: exec_in Hrun; by injection Hrun as <-.
Qed.




(** *** The sections before the install *)







End HybridAssembly.

(** The error the labels builder makes unreachable: the install builder
    on its own, given a file source with neither a binary path nor an
    install command. *)
Lemma addAppInstall_alone_cannot_compile :
  let d := example.descriptor example.ubuntu
             "http://example/ompi-4.0.1.tar.gz" container.HybridModel in
  let st := example.fresh (example.hello "file:///home/me/hello.c") in
  deffile.addAppInstall d st = (Err cannot_compile, st)
  /\ message
       (Wrapf "failed to create the post section of the definition file: "
          cannot_compile)
     = "failed to create the post section of the definition file: unable to figure out how to compile source file".
Proof. split; reflexivity. Qed.



(** The manifest of that assembly: the install builder's part is the
    compiler line and the link line. *)
Lemma hybrid_manifest_of_a_file_source :
  let a := example.hello "file:///home/me/hello.c" in
  let d := example.descriptor example.ubuntu
             "http://example/ompi-4.0.1.tar.gz" container.HybridModel in
  let r := deffile.CreateHybridDefFile (U := util.spec)
             (R := distro.no_registry) (J := filepath.on_clean_operands)
             a d (example.cfg false) example.host in
  exists manifest,
    r = (Ok tt, app.set_BinPath "/opt/hello" a, Some manifest)
    /\ drop (length (os.written manifest) - 3) (os.written manifest)
       = ["\tcd /opt/$APPDIR && mpicc -o /opt/hello /opt/src/hello.c\n";
          "\tcd /opt && ln -s $APPDIR/hello hello 2> /dev/null || true\n\n";
          "\n\trm -rf $MPI_BUILDDIR\n\n"]
    /\ Forall (fun line => strings.Contains line "make install" = false)
         (os.written manifest).
Proof.
  vm_compute. eexists. split; [reflexivity |]. split; [reflexivity |].
  repeat constructor.
Qed.

(** * Further properties of the code *)

(** ** Container names and execution arguments *)

Lemma Contains_char (s : string) (c : ascii) :
  strings.Contains s (String c "") = text.mem c s.
Proof.
  induction s as [|b s IH]; [done |].
  rewrite Contains_cons, IH. simpl. by rewrite andb_true_r.
Qed.

Lemma mem_append (c : ascii) (a b : string) :
  text.mem c (a +:+ b) = text.mem c a || text.mem c b.
Proof.
  induction a as [|x a IH]; [done |]. simpl. by rewrite IH, orb_assoc.
Qed.

(** A container name holds no colon when the implementation, the
    version, the application and the model hold none: the colons of the
    distribution (as in [ubuntu:disco]) are all turned into dashes. *)
Theorem GetContainerDefaultName_has_no_colon
    (distro mpiID mpiVersion appName model : string) :
  strings.Contains mpiID ":" = false ->
  strings.Contains mpiVersion ":" = false ->
  strings.Contains appName ":" = false ->
  strings.Contains model ":" = false ->
  strings.Contains
    (container.GetContainerDefaultName distro mpiID mpiVersion appName model)
    ":" = false.
Proof.
  intros H1 H2 H3 H4.
  pose proof (replace_all_gone ":" "-" ltac:(done) ltac:(done) distro
                ltac:(done)) as Hd.
  rewrite <- Replace_all in Hd by done.
  unfold container.GetContainerDefaultName.
  rewrite Contains_char in *.
  rewrite !mem_append, Hd, H1, H2, H3, H4. done.
Qed.

Lemma GetContainerDefaultName_has_no_colon_witness :
  container.GetContainerDefaultName "ubuntu:disco" "openmpi" "4.0.1" "hello"
    "hybrid" = "ubuntu-disco-openmpi-4.0.1-hello-hybrid"
  /\ strings.Contains
       (container.GetContainerDefaultName "ubuntu:disco" "openmpi" "4.0.1"
          "hello" "hybrid") ":" = false.
Proof.
  split; [reflexivity |].
  apply (GetContainerDefaultName_has_no_colon "ubuntu:disco" "openmpi"
           "4.0.1" "hello" "hybrid"); reflexivity.
Defined.

Lemma bind_spec_is_no_flag (dir mpidir flag : string) :
  strings.Contains flag ":" = false -> dir +:+ ":" +:+ mpidir <> flag.
Proof.
  intros H E. rewrite <- E, Contains_char, !mem_append in H.
  simpl in H. by rewrite orb_true_r in H.
Qed.

(** The execution arguments: short of a nil build environment under the
    bind model, they start with [--no-home], hold [-u] exactly in
    unprivileged mode and [--bind] exactly for the bind model, in which
    case they end with the mount of the host's MPI directory on the
    container's. *)
Theorem GetExecArgs_flags (hostMPI : option implem.Info)
    (hostBuildEnv : option buildenv.Info) (c : container.Config)
    (sysCfg : sys.Config) (args : list string) :
  container.GetExecArgs hostMPI hostBuildEnv c sysCfg = Ok args ->
  head args = Some "--no-home"
  /\ (In "-u" args <-> sys.Nopriv sysCfg = true)
  /\ (In "--bind" args <-> container.Model c = container.BindModel)
  /\ (container.Model c = container.BindModel ->
      exists env,
        hostBuildEnv = Some env
        /\ last args
           = Some (buildenv.InstallDir env +:+ ":" +:+ container.MPIDir c)).
Proof.
  unfold container.GetExecArgs, container.getBindArguments,
    container.getDefaultExecArgs.
  change (strings.Split container.defaultExecArgs " ") with ["--no-home"].
  rewrite <- (String.eqb_eq (container.Model c)).
  destruct (String.eqb (container.Model c) container.BindModel).
  - destruct hostBuildEnv as [env|]; [| done].
    pose proof (bind_spec_is_no_flag (buildenv.InstallDir env)
                  (container.MPIDir c) "-u" eq_refl) as Hu.
    pose proof (bind_spec_is_no_flag (buildenv.InstallDir env)
                  (container.MPIDir c) "--bind" eq_refl) as Hb.
    destruct (sys.Nopriv sysCfg); intros [= <-]; cbn.
    all: repeat split; try done; eauto; try tauto.
    all: intros [? | ?]; try done; intuition congruence.
  - destruct (sys.Nopriv sysCfg); intros [= <-]; cbn.
    all: repeat split; try done; try tauto.
    all: intros [? | ?]; try done; intuition congruence.
Qed.

Lemma GetExecArgs_flags_witness :
  let c := container.set_Model container.BindModel
             (container.set_MPIDir "/opt/mpi" container.zero_Config) in
  let args := ["--no-home"; "-u"; "--bind"; "/home/me/ompi:/opt/mpi"] in
  head args = Some "--no-home"
  /\ (In "-u" args <-> sys.Nopriv (example.cfg true) = true)
  /\ (In "--bind" args <-> container.Model c = container.BindModel)
  /\ (container.Model c = container.BindModel ->
      exists env,
        Some {| buildenv.InstallDir := "/home/me/ompi";
                buildenv.SrcDir := ""; buildenv.BuildDir := "" |} = Some env
        /\ last args
           = Some (buildenv.InstallDir env +:+ ":" +:+ container.MPIDir c)).
Proof.
  apply (GetExecArgs_flags None
           (Some {| buildenv.InstallDir := "/home/me/ompi";
                    buildenv.SrcDir := ""; buildenv.BuildDir := "" |})
           (container.set_Model container.BindModel
              (container.set_MPIDir "/opt/mpi" container.zero_Config))
           (example.cfg true)).
  reflexivity.
Defined.

(** ** The inspection parser on arbitrary output *)

Lemma HasPrefix_widen (h rest p : string) :
  strings.HasPrefix h p = true -> strings.HasPrefix (h +:+ rest) p = true.
Proof.
  revert h; induction p as [|a p IH]; intros h; [done |].
  destruct h as [|b h]; [done |]. simpl.
  intros H. apply andb_true_iff in H as [-> H]. simpl. by apply IH.
Qed.

Lemma Contains_widen (h rest p : string) :
  strings.Contains h p = true -> strings.Contains (h +:+ rest) p = true.
Proof.
  induction h as [|c h IH].
  - simpl. rewrite orb_false_r. intros H.
    destruct p; [by destruct rest | done].
  - change (String c h +:+ rest) with (String c (h +:+ rest)).
    rewrite !Contains_cons. intros H.
    apply orb_true_iff in H as [H | H].
    + change (String c (h +:+ rest)) with (String c h +:+ rest).
      by rewrite HasPrefix_widen.
    + rewrite IH by done. apply orb_true_r.
Qed.

(** Every line of a text is a piece of the text: a key that occurs in
    no place of the text occurs in none of its lines. *)
Lemma lines_without_key (s key : string) :
  strings.Contains s key = false ->
  Forall (fun line => strings.Contains line key = false)
    (strings.Split s "\n").
Proof.
  intros H. unfold strings.Split.
  assert (key <> "") as Hkey by by eapply Contains_nonempty.
  induction s as [|c s IH].
  - constructor; [by destruct key | constructor].
  - rewrite Contains_cons in H. apply orb_false_iff in H as [Hp Hc].
    specialize (IH Hc). cbn [strings.split_go].
    destruct (strings.split_go "\n" 0 s) as [h t] eqn:E.
    destruct (strings.HasPrefix (String c s) "\n") eqn:Hnl.
    + constructor; [by destruct key |].
      change (String.length "\n" - 1) with 0. by rewrite E.
    + apply Forall_cons in IH as [Hh Ht]. constructor; [| done].
      assert (exists rest, s = h +:+ rest) as [rest ->].
      { clear -E. revert h t E. induction s as [|b s IHs]; intros h t E.
        - injection E as <- <-. by exists "".
        - cbn [strings.split_go] in E.
          destruct (strings.HasPrefix (String b s) "\n").
          + injection E as <- _. by exists (String b s).
          + destruct (strings.split_go "\n" 0 s) as [h' t'].
            injection E as <- <-.
            destruct (IHs _ _ eq_refl) as [rest ->]. by exists rest. }
      destruct (strings.Contains (String c h) key) eqn:Hin; [| done].
      apply (Contains_widen _ rest) in Hin.
      change (String c h +:+ rest) with (String c (h +:+ rest)) in Hin.
      rewrite Contains_cons, Hp, Hc in Hin. done.
Qed.

(** An output in which none of the six prefixes occurs, on any line and
    at any place, is parsed to the zero values: nothing is invented. *)
Theorem parseInspectOutput_ignores_foreign_output (output : string) :
  forallb (fun key => negb (strings.Contains output key)) inspect.prefixes
  = true ->
  container.parseInspectOutput output
  = (container.zero_Config, container.zero_Info).
Proof.
  unfold inspect.prefixes. cbn [forallb].
  rewrite !andb_true_iff, !negb_true_iff.
  intros (H1 & H2 & H3 & H4 & H5 & H6 & _).
  apply lines_without_key in H1, H2, H3, H4, H5, H6.
  unfold container.parseInspectOutput.
  generalize dependent (strings.Split output "\n"). intros lines.
  generalize (container.zero_Config, container.zero_Info).
  induction lines as [|line lines IH]; intros acc H1 H2 H3 H4 H5 H6;
    [done |].
  apply Forall_cons in H1 as [? ?], H2 as [? ?], H3 as [? ?], H4 as [? ?],
    H5 as [? ?], H6 as [? ?].
  cbn [fold_left]. rewrite IH by done. f_equal.
  destruct acc as [cfg mpiCfg]. unfold container.parseLine.
  by rewrite !scan_miss by done.
Qed.

Lemma parseInspectOutput_ignores_foreign_output_witness :
  container.parseInspectOutput
    "\tModel hybrid\n\tApp_exe /opt/hello\nFATAL: image not found\n"
  = (container.zero_Config, container.zero_Info).
Proof.
  apply (parseInspectOutput_ignores_foreign_output
           "\tModel hybrid\n\tApp_exe /opt/hello\nFATAL: image not found\n").
  reflexivity.
Defined.

(** When a key is printed twice, the later line wins. *)
Theorem parseInspectOutput_last_line_wins (v1 v2 : string) :
  inspect.plain v1 = true -> inspect.plain v2 = true ->
  container.parseInspectOutput
    (("Model: " +:+ v1) +:+ "\n" +:+ ("Model: " +:+ v2))
  = (container.set_Model v2 container.zero_Config, container.zero_Info)
  /\ container.parseInspectOutput
       (("MPI_Version: " +:+ v1) +:+ "\n" +:+ ("MPI_Version: " +:+ v2))
     = (container.zero_Config, container.set_Version v2 container.zero_Info).
Proof.
  intros Hv1 Hv2.
  apply plain_spec in Hv1 as (? & ? & ? & ? & ? & ? & ?).
  apply plain_spec in Hv2 as (? & ? & ? & ? & ? & ? & ?).
  unfold container.parseInspectOutput, strings.Split.
  split.
  all: rewrite split_go_line
         by (unfold text.single_line; scan_line; assumption).
  all: rewrite split_go_single
         by (unfold text.single_line; scan_line; assumption).
  all: cbn [fold_left container.parseLine].
  all: repeat first
         [ rewrite scan_hit by done
         | rewrite scan_miss by (scan_line; assumption) ].
  all: reflexivity.
Qed.

Lemma parseInspectOutput_last_line_wins_witness :
  container.parseInspectOutput "Model: first\nModel: second"
  = (container.set_Model "second" container.zero_Config, container.zero_Info)
  /\ container.parseInspectOutput "MPI_Version: first\nMPI_Version: second"
     = (container.zero_Config,
        container.set_Version "second" container.zero_Info).
Proof.
  exact (parseInspectOutput_last_line_wins "first" "second" eq_refl eq_refl).
Defined.




(** The whole label set, as the inspection command prints it, is read
    back: the six fields the parser has are recovered from any values
    that stay on one line and hold none of the prefixes; the name of the
    distribution and of the application are dropped, and the version of
    the distribution is what the [Distro] field receives. *)
Theorem parseInspectOutput_round_trip
    (name version id mpi dir model appname exe : string) :
  forallb inspect.plain [name; version; id; mpi; dir; model; appname; exe]
  = true ->
  container.parseInspectOutput
    (inspect.render
       [("Linux_distribution", name); ("Linux_version", version);
        ("MPI_Implementation", id); ("MPI_Version", mpi);
        ("MPI_Directory", dir); ("Model", model);
        ("Application", appname); ("App_exe", exe)])
  = (container.set_AppExe exe
       (container.set_Model model
          (container.set_MPIDir dir
             (container.set_Distro version container.zero_Config))),
     container.set_Version mpi (container.set_ID id container.zero_Info)).
Proof. apply rendered_labels_are_recovered. Qed.

Lemma parseInspectOutput_round_trip_witness :
  container.parseInspectOutput (inspect.render example.labels)
  = (container.set_AppExe "/opt/hello"
       (container.set_Model "hybrid"
          (container.set_MPIDir "/opt/mpi"
             (container.set_Distro "20.04" container.zero_Config))),
     container.set_Version "4.0.1"
       (container.set_ID "openmpi" container.zero_Info)).
Proof.
  apply (parseInspectOutput_round_trip "ubuntu" "20.04" "openmpi" "4.0.1"
           "/opt/mpi" "hybrid" "hello" "/opt/hello").
  reflexivity.
Defined.

(** ** The build driver *)

Section Driver.
Context `{S : sy.Pkg}.

(** Reading the metadata of an image whose inspection prints its
    labels: with a sound installation and a successful run, one
    inspection command is started (through [sudo] when the
    installation asks for it), the six fields are those of the labels
    and the path is the path of the image. *)
Theorem GetMetadata_reads_the_labels (imgPath : string)
    (sysCfg : sys.Config) (h : exec.Host)
    (name version id mpi dir model appname exe : string) :
  let cmd :=
    if sy.IsSudoCmd "inspect" sysCfg
    then {| exec.Path := sys.SudoBin sysCfg;
            exec.Args := [sys.SingularityBin sysCfg; "inspect"; imgPath];
            exec.Dir := "" |}
    else {| exec.Path := sys.SingularityBin sysCfg;
            exec.Args := ["inspect"; imgPath];
            exec.Dir := "" |} in
  sy.CheckIntegrity sysCfg = None ->
  exec.Err (exec.Run h cmd) = None ->
  exec.Stdout (exec.Run h cmd)
  = inspect.render
      [("Linux_distribution", name); ("Linux_version", version);
       ("MPI_Implementation", id); ("MPI_Version", mpi);
       ("MPI_Directory", dir); ("Model", model);
       ("Application", appname); ("App_exe", exe)] ->
  forallb inspect.plain [name; version; id; mpi; dir; model; appname; exe]
  = true ->
  container.GetMetadata imgPath sysCfg h
  = (container.set_Path imgPath
       (container.set_AppExe exe
          (container.set_Model model
             (container.set_MPIDir dir
                (container.set_Distro version container.zero_Config)))),
     container.set_Version mpi (container.set_ID id container.zero_Info),
     None, [cmd]).
Proof.
  intros cmd Hsound Hrun Hout Hplain. unfold container.GetMetadata.
  rewrite Hsound. fold cmd. rewrite Hrun, Hout.
  by rewrite rendered_labels_are_recovered.
Qed.

(** In persistent mode an image that is already there is not pulled
    again: no command is started and the call succeeds; without the
    image, or outside persistent mode, exactly the pull command is
    started, in the build directory. *)
Theorem Pull_skips_an_image_that_is_there (c : container.Config)
    (sysCfg : sys.Config) (h : exec.Host) :
  sys.SingularityBin sysCfg <> "" ->
  container.Path c <> "" -> container.URL c <> "" ->
  container.BuildDir c <> "" ->
  sy.CheckIntegrity sysCfg = None ->
  let skipped :=
    negb (String.eqb (sys.Persistent sysCfg) "")
    && exec.PathExists h (container.Path c) in
  (skipped = true -> container.Pull c sysCfg h = (Ok tt, []))
  /\ (skipped = false ->
      snd (container.Pull c sysCfg h)
      = [{| exec.Path := sys.SingularityBin sysCfg;
            exec.Args := ["pull"; container.Path c; container.URL c];
            exec.Dir := container.BuildDir c |}]).
Proof.
  intros H1 H2 H3 H4 Hsound skipped. subst skipped.
  apply String.eqb_neq in H1, H2, H3, H4.
  unfold container.Pull. rewrite H1, H2, H3, H4, Hsound. simpl.
  split; intros ->; [done |]. simpl. by destruct (exec.Err _).
Qed.

(** With a required field empty, or an installation that fails the
    integrity check, [Pull] starts no command and fails. *)
Theorem Pull_checks_before_it_runs (c : container.Config)
    (sysCfg : sys.Config) (h : exec.Host) :
  sys.SingularityBin sysCfg = "" \/ container.Path c = ""
  \/ container.URL c = "" \/ container.BuildDir c = ""
  \/ sy.CheckIntegrity sysCfg <> None ->
  exists e, container.Pull c sysCfg h = (Err e, []).
Proof.
  intros H. unfold container.Pull.
  destruct (_ || _) eqn:Hc; [eauto |].
  rewrite !orb_false_iff, !String.eqb_neq in Hc.
  destruct (sy.CheckIntegrity sysCfg); [eauto |]. tauto.
Qed.
End Driver.

Lemma GetMetadata_reads_the_labels_witness :
  container.GetMetadata (S := example.sound_installation) "/tmp/hello.sif"
    (example.singularity "") (example.inspecting_host "")
  = (container.set_Path "/tmp/hello.sif"
       (container.set_AppExe "/opt/hello"
          (container.set_Model "hybrid"
             (container.set_MPIDir "/opt/mpi"
                (container.set_Distro "20.04" container.zero_Config)))),
     container.set_Version "4.0.1"
       (container.set_ID "openmpi" container.zero_Info),
     None,
     [{| exec.Path := "/usr/bin/singularity";
         exec.Args := ["inspect"; "/tmp/hello.sif"]; exec.Dir := "" |}]).
Proof.
  apply (GetMetadata_reads_the_labels (S := example.sound_installation)
           "/tmp/hello.sif" (example.singularity "")
           (example.inspecting_host "")
           "ubuntu" "20.04" "openmpi" "4.0.1" "/opt/mpi" "hybrid" "hello"
           "/opt/hello"); reflexivity.
Defined.

Lemma Pull_skips_an_image_that_is_there_witness :
  let c := {| container.Name := ""; container.Path := "/tmp/hello.sif";
              container.BuildDir := "/tmp/build";
              container.InstallDir := ""; container.DefFile := "";
              container.Distro := ""; container.URL := "library://me/hello";
              container.Model := ""; container.AppExe := "";
              container.MPIDir := ""; container.Binds := [] |} in
  container.Pull (S := example.sound_installation) c
    (example.singularity "true") (example.inspecting_host "/tmp/hello.sif")
  = (Ok tt, []).
Proof.
  apply (Pull_skips_an_image_that_is_there (S := example.sound_installation)
           {| container.Name := ""; container.Path := "/tmp/hello.sif";
              container.BuildDir := "/tmp/build";
              container.InstallDir := ""; container.DefFile := "";
              container.Distro := ""; container.URL := "library://me/hello";
              container.Model := ""; container.AppExe := "";
              container.MPIDir := ""; container.Binds := [] |}
           (example.singularity "true")
           (example.inspecting_host "/tmp/hello.sif")); try discriminate.
  - reflexivity.
  - reflexivity.
Defined.

Lemma Pull_checks_before_it_runs_witness :
  exists e,
    container.Pull (S := example.sound_installation) container.zero_Config
      (example.singularity "") (example.inspecting_host "") = (Err e, []).
Proof.
  apply (Pull_checks_before_it_runs (S := example.sound_installation)
           container.zero_Config (example.singularity "")
           (example.inspecting_host "")).
  right. left. reflexivity.
Defined.

(** ** The template processor, further *)

(** The docker bootstrap of the ubuntu templates, once the codename
    marker is resolved, names the image of that codename: for every
    codename, also an empty one or one that spells the marker. *)
Theorem ubuntu_docker_bootstrap_names_the_codename
    (data : deffile.DefFileData) (sysCfg : sys.Config) (st st' : Store)
    (codename : string) :
  deffile.createUbuntuDockerBootstrapSection data sysCfg st = (Ok tt, st') ->
  deffile.UpdateDistroCodename
    (String.concat "" (emitted st st')) codename
  = "Bootstrap: docker\nFrom: ubuntu:" +:+ codename +:+ "\n\n".
Proof.
  intros Hrun.
  unfold deffile.createUbuntuDockerBootstrapSection in Hrun.
  apply bind_Ok in Hrun as ([] & st1 & H1 & H2).
  apply wrapf_Ok, WriteString_Ok in H1 as [W1 _].
  apply wrapf_Ok, WriteString_Ok in H2 as [W2 _].
  rewrite (emitted_append _ _ ["Bootstrap: docker\n";
                               "From: ubuntu:DISTROCODENAME\n\n"])
    by (by rewrite W2, W1, <- app_assoc).
  unfold deffile.UpdateDistroCodename, strings.Replace.
  destruct (String.eqb deffile.distroCodenameTag codename) eqn:E.
  - apply String.eqb_eq in E as <-. reflexivity.
  - reflexivity.
Qed.

Lemma ubuntu_docker_bootstrap_names_the_codename_witness :
  let d := example.descriptor example.ubuntu "" container.BindModel in
  let st := example.fresh (example.hello "") in
  deffile.UpdateDistroCodename
    (String.concat ""
       (emitted st
          (snd (deffile.createUbuntuDockerBootstrapSection d
                  (example.cfg false) st))))
    "focal"
  = "Bootstrap: docker\nFrom: ubuntu:focal\n\n".
Proof.
  apply (ubuntu_docker_bootstrap_names_the_codename
           (example.descriptor example.ubuntu "" container.BindModel)
           (example.cfg false) (example.fresh (example.hello ""))).
  reflexivity.
Defined.

(** Resolving the codename marker leaves a text without the marker as it
    is, and leaves no marker behind when the codename is not empty and
    shares no byte with the marker. *)
Theorem UpdateDistroCodename_resolves_the_marker (data distro : string) :
  (strings.Contains data deffile.distroCodenameTag = false ->
   deffile.UpdateDistroCodename data distro = data)
  /\ (distro <> "" ->
      text.disjoint distro deffile.distroCodenameTag = true ->
      strings.Contains (deffile.UpdateDistroCodename data distro)
        deffile.distroCodenameTag = false).
Proof.
  unfold deffile.UpdateDistroCodename. split.
  - apply Replace_absent.
  - intros Hne Hd. rewrite Replace_all;
      [| done | intros E; by eapply disjoint_ne].
    by apply replace_all_gone.
Qed.

Lemma UpdateDistroCodename_resolves_the_marker_witness :
  deffile.UpdateDistroCodename "From: ubuntu:focal\n" "disco"
  = "From: ubuntu:focal\n"
  /\ strings.Contains
       (deffile.UpdateDistroCodename
          "From: ubuntu:DISTROCODENAME\n# DISTROCODENAME\n" "disco")
       deffile.distroCodenameTag = false.
Proof.
  split.
  - apply (proj1 (UpdateDistroCodename_resolves_the_marker
                    "From: ubuntu:focal\n" "disco")).
    reflexivity.
  - apply (proj2 (UpdateDistroCodename_resolves_the_marker
                    "From: ubuntu:DISTROCODENAME\n# DISTROCODENAME\n"
                    "disco")).
    + discriminate.
    + reflexivity.
Defined.

Section TemplateFurther.
Context `{U : util.Pkg}.

(** The processor touches one file: whatever it returns, every other
    path of the disk holds what it held, and the set of read-only
    paths is the same. *)
Theorem UpdateDeffileTemplate_touches_one_file
    (data : deffile.DefFileData) (sysCfg : sys.Config)
    (disk disk' : os.Disk) (r : outcome unit) (log : list string)
    (other : string) :
  deffile.UpdateDeffileTemplate data sysCfg disk = (r, disk', log) ->
  other <> deffile.Path data ->
  os.files disk' !! other = os.files disk !! other
  /\ os.readonly disk' = os.readonly disk.
Proof.
  intros Hrun Hother.
  unfold deffile.UpdateDeffileTemplate in Hrun.
  destruct (deffile.MpiImplm data) as [m |]; [| by injection Hrun as _ <- _].
  destruct (_ || _) in Hrun; [by injection Hrun as _ <- _ |].
  destruct (os.ReadFile _ _) in Hrun; [| by injection Hrun as _ <- _].
  cbv zeta in Hrun.
  repeat match type of Hrun with
         | context [if String.eqb ?a ?b then _ else _] =>
             destruct (String.eqb a b)
         end.
  all: try by injection Hrun as _ <- _.
  all: match type of Hrun with
       | context [os.WriteFile ?d ?n ?c] =>
           destruct (os.WriteFile d n c) as [d' err] eqn:W
       end.
  all: assert (disk' = d') as -> by (destruct err; by injection Hrun).
  all: unfold os.WriteFile in W.
  all: destruct (decide _) in W; [by injection W as <- _ |].
  all: destruct (os.short disk !! deffile.Path data) in W.
  all: injection W as <- _; cbn; split; [| done].
  all: apply lookup_insert_ne; congruence.
Qed.

(** Debug mode changes what is logged and nothing else: the result
    and the disk are those of a run without it. *)
Theorem UpdateDeffileTemplate_debug_only_logs
    (data : deffile.DefFileData) (sysCfg sysCfg' : sys.Config)
    (disk : os.Disk) :
  let r := deffile.UpdateDeffileTemplate data sysCfg disk in
  let r' := deffile.UpdateDeffileTemplate data sysCfg' disk in
  r.1 = r'.1
  /\ (sys.Debug sysCfg = false -> r.2 = [])
  /\ (r.1.1 = Ok tt -> sys.Debug sysCfg = true -> length r.2 = 4).
Proof.
  unfold deffile.UpdateDeffileTemplate, os.ReadFile, os.WriteFile.
  repeat match goal with
         | |- context [match ?x with _ => _ end] =>
             lazymatch x with
             | sys.Debug _ => fail
             | _ => destruct x
             end
         end; cbn; repeat split; try done.
  all: try by intros ->.
  all: by intros _ ->.
Qed.

(** A template in which none of the five tags occurs is written back
    as it is: a successful run leaves the whole disk unchanged. *)
Theorem UpdateDeffileTemplate_keeps_a_template_without_tags
    (data : deffile.DefFileData) (sysCfg : sys.Config)
    (disk disk' : os.Disk) (log : list string) (m : implem.Info)
    (content : string) :
  deffile.MpiImplm data = Some m ->
  os.files disk !! deffile.Path data = Some content ->
  forallb (fun tag => negb (strings.Contains content tag))
    (map fst (template.pairs data m)) = true ->
  deffile.UpdateDeffileTemplate data sysCfg disk = (Ok tt, disk', log) ->
  disk' = disk.
Proof.
  intros Hm Hread Hfree Hrun.
  cbn [template.pairs map fst forallb] in Hfree.
  rewrite !andb_true_iff, !negb_true_iff in Hfree.
  destruct Hfree as (F1 & F2 & F3 & F4 & F5 & _).
  unfold deffile.UpdateDeffileTemplate in Hrun. rewrite Hm in Hrun.
  destruct (_ || _) in Hrun; [done |].
  unfold os.ReadFile in Hrun. rewrite Hread in Hrun.
  unfold deffile.UpdateDistroCodename, os.WriteFile in Hrun.
  assert (forall flag,
            strings.Replace
              (strings.Replace
                 (strings.Replace
                    (strings.Replace
                       (strings.Replace content
                          (deffile.Version (deffile.Tags data))
                          (implem.Version m) (-1))
                       (deffile.URL (deffile.Tags data)) (implem.URL m)
                       (-1))
                    (deffile.Tarball (deffile.Tags data))
                    (path.Base (implem.URL m)) (-1))
                 "TARARGS" flag (-1))
              deffile.distroCodenameTag
              (distro.Codename (deffile.DistroID data)) (-1)
            = content) as Hsame.
  { intros flag. by do 5 rewrite (Replace_absent content) by done. }
  destruct (String.eqb _ util.FormatBZ2);
    [| destruct (String.eqb _ util.FormatGZ);
       [| destruct (String.eqb _ util.FormatTAR); [| done]]].
  all: rewrite Hsame in Hrun.
  all: destruct (decide _) in Hrun; [done |].
  all: destruct (os.short disk !! deffile.Path data) in Hrun; [done |].
  all: injection Hrun as <- _.
  all: destruct disk as [files ro sh]; cbn in *; f_equal.
  all: by apply insert_id.
Qed.

(** Applying the processor to its own output changes nothing: when no
    value is empty or shares a byte with a tag, a second run succeeds,
    logs the same lines and leaves the disk of the first run. *)
Theorem UpdateDeffileTemplate_is_idempotent
    (data : deffile.DefFileData) (sysCfg : sys.Config)
    (disk disk' : os.Disk) (log : list string) (m : implem.Info)
    (content : string) :
  deffile.MpiImplm data = Some m ->
  os.files disk !! deffile.Path data = Some content ->
  template.independent (template.pairs data m) = true ->
  deffile.UpdateDeffileTemplate data sysCfg disk = (Ok tt, disk', log) ->
  deffile.UpdateDeffileTemplate data sysCfg disk' = (Ok tt, disk', log).
Proof.
  intros Hm Hread Hind Hrun.
  unfold deffile.UpdateDeffileTemplate in Hrun. rewrite Hm in Hrun.
  pose proof (sanity_check_fails_iff data m) as Hiff.
  destruct (_ || _) eqn:Hc in Hrun; [done |].
  rewrite Hc in Hiff.
  assert (forall tag, In tag (map fst (template.pairs data m)) ->
            strings.Contains
              (template.passes (template.pairs data m) content) tag
            = false) as Hgone.
  { apply passes_spec; [| done].
    intros tag Htag; cbn in Htag.
    destruct Htag as [<- | [<- | [<- | [<- | [<- | []]]]]]; try done.
    all: intros Hempty; enough (false = true) by done.
    all: apply Hiff; unfold template.missing_parameter; tauto. }
  unfold template.passes, template.pairs, template.tar_flag in Hgone.
  cbn [fold_left fst snd map] in Hgone.
  unfold os.ReadFile in Hrun. rewrite Hread in Hrun.
  unfold deffile.UpdateDeffileTemplate. rewrite Hm, Hc.
  unfold deffile.UpdateDistroCodename in *.
  revert Hrun Hgone.
  destruct (String.eqb _ util.FormatBZ2);
    [| destruct (String.eqb _ util.FormatGZ);
       [| destruct (String.eqb _ util.FormatTAR); [| done]]].
  all: intros Hrun Hgone.
  all: match type of Hgone with
       | context [strings.Contains ?o _] => set (out := o) in *
       end.
  all: unfold os.WriteFile in Hrun.
  all: destruct (decide _) as [| Hw] in Hrun; [done |].
  all: destruct (os.short disk !! deffile.Path data) eqn:Hs in Hrun;
    [done |].
  all: injection Hrun as <- <-.
  all: unfold os.ReadFile; cbn [os.files]; rewrite lookup_insert_eq.
  all: do 5 rewrite (Replace_absent out) by (apply Hgone; cbn; tauto).
  all: unfold os.WriteFile; cbn [os.files os.readonly os.short].
  all: destruct (decide _) as [| _]; [done |].
  all: by rewrite Hs, insert_insert_eq.
Qed.
End TemplateFurther.

Lemma UpdateDeffileTemplate_touches_one_file_witness :
  let data := example.descriptor example.ubuntu
                "http://example/ompi-4.0.1.tar.gz" container.HybridModel in
  let disk := {| os.files := {[ "/tmp/mpi.def" := "tar TARARGS MPITARBALL\n";
                                "/tmp/app.def" := "tar TARARGS MPITARBALL\n" ]};
                 os.readonly := {[ "/tmp/app.def" ]};
                 os.short := ∅ |} in
  let r := deffile.UpdateDeffileTemplate data (example.cfg false) disk in
  os.files r.1.2 !! "/tmp/app.def" = os.files disk !! "/tmp/app.def"
  /\ os.readonly r.1.2 = os.readonly disk.
Proof.
  intros data disk r.
  apply (UpdateDeffileTemplate_touches_one_file data (example.cfg false) disk
           r.1.2 r.1.1 r.2 "/tmp/app.def").
  - subst r. by destruct (deffile.UpdateDeffileTemplate _ _ _) as [[? ?] ?].
  - discriminate.
Defined.

Lemma UpdateDeffileTemplate_debug_only_logs_witness :
  let data := example.descriptor example.ubuntu
                "http://example/ompi-4.0.1.tar.gz" container.HybridModel in
  let disk := {| os.files := {[ "/tmp/mpi.def" := "tar TARARGS MPITARBALL\n" ]};
                 os.readonly := ∅; os.short := ∅ |} in
  let verbose := {| sys.Nopriv := false; sys.Debug := true;
                    sys.SingularityBin := ""; sys.SudoBin := "";
                    sys.Persistent := ""; sys.Registry := "" |} in
  let r := deffile.UpdateDeffileTemplate data verbose disk in
  let r' := deffile.UpdateDeffileTemplate data (example.cfg false) disk in
  r.1 = r'.1 /\ r'.2 = [] /\ length r.2 = 4.
Proof.
  intros data disk verbose r r'.
  pose proof (UpdateDeffileTemplate_debug_only_logs data verbose
                (example.cfg false) disk) as (Hsame & _ & Hlog).
  pose proof (UpdateDeffileTemplate_debug_only_logs data (example.cfg false)
                verbose disk) as (_ & Hquiet & _).
  split; [exact Hsame |]. split.
  - apply Hquiet. reflexivity.
  - apply Hlog; reflexivity.
Defined.

Lemma UpdateDeffileTemplate_keeps_a_template_without_tags_witness :
  let data := example.descriptor example.ubuntu
                "http://example/ompi-4.0.1.tar.gz" container.HybridModel in
  let disk := {| os.files := {[ "/tmp/mpi.def" := "Bootstrap: docker\n" ]};
                 os.readonly := ∅; os.short := ∅ |} in
  (deffile.UpdateDeffileTemplate data (example.cfg false) disk).1.2 = disk.
Proof.
  exact (UpdateDeffileTemplate_keeps_a_template_without_tags
           (example.descriptor example.ubuntu
              "http://example/ompi-4.0.1.tar.gz" container.HybridModel)
           (example.cfg false)
           {| os.files := {[ "/tmp/mpi.def" := "Bootstrap: docker\n" ]};
              os.readonly := ∅; os.short := ∅ |}
           _ _
           (example.ompi "http://example/ompi-4.0.1.tar.gz")
           "Bootstrap: docker\n"
           eq_refl eq_refl eq_refl eq_refl).
Defined.

Lemma UpdateDeffileTemplate_is_idempotent_witness :
  let data := example.descriptor example.ubuntu
                "http://example/ompi-4.0.1.tar.gz" container.HybridModel in
  let content :=
    "From: ubuntu:DISTROCODENAME\n\twget MPIURL && tar TARARGS MPITARBALL\n" in
  let disk := {| os.files := {[ "/tmp/mpi.def" := content ]};
                 os.readonly := ∅; os.short := ∅ |} in
  let once := deffile.UpdateDeffileTemplate data (example.cfg false) disk in
  deffile.UpdateDeffileTemplate data (example.cfg false) once.1.2
  = (Ok tt, once.1.2, once.2).
Proof.
  exact (UpdateDeffileTemplate_is_idempotent
           (example.descriptor example.ubuntu
              "http://example/ompi-4.0.1.tar.gz" container.HybridModel)
           (example.cfg false)
           {| os.files :=
                {[ "/tmp/mpi.def" :=
                     "From: ubuntu:DISTROCODENAME\n\twget MPIURL && tar TARARGS MPITARBALL\n" ]};
              os.readonly := ∅; os.short := ∅ |}
           _ _
           (example.ompi "http://example/ompi-4.0.1.tar.gz")
           "From: ubuntu:DISTROCODENAME\n\twget MPIURL && tar TARARGS MPITARBALL\n"
           eq_refl eq_refl eq_refl eq_refl).
Defined.

(** ** The labels builder, further *)

(** A builder that leaves the descriptor alone, followed by another one:
    what the second one guarantees about the descriptor holds for the
    sequence. *)
Lemma frames_then {A B} (Q : app.Info -> app.Info -> Prop)
    (m : M A) (k : A -> M B) :
  frames m -> (forall a, Q a a) ->
  (forall x st r st', k x st = (r, st') -> Q (appInfo st) (appInfo st')) ->
  forall st r st', bind m k st = (r, st') -> Q (appInfo st) (appInfo st').
Proof.
  intros Hm Hrefl Hk st r st'. unfold bind.
  destruct (m st) as [[a|e|] st1] eqn:E.
  - intros H. rewrite <- (Hm _ _ _ E). by eapply Hk.
  - intros [= <- <-]. rewrite (Hm _ _ _ E). apply Hrefl.
  - intros [= <- <-]. rewrite (Hm _ _ _ E). apply Hrefl.
Qed.

Lemma get_app_then {B} (Q : app.Info -> app.Info -> Prop)
    (k : app.Info -> M B) :
  (forall st r st', k (appInfo st) st = (r, st') ->
                    Q (appInfo st) (appInfo st')) ->
  forall st r st', bind get_app k st = (r, st') ->
                   Q (appInfo st) (appInfo st').
Proof. intros Hk st r st'. apply Hk. Qed.

(** What a run of the labels builder, successful or not, can do to the
    descriptor *)
Lemma addLabels_descriptor (d : deffile.DefFileData)
    (st st' : Store) (r : outcome unit) :
  deffile.addLabels d st = (r, st') ->
  (deffile.Model d = container.BindModel
   \/ app.BinPath (appInfo st) <> "" -> appInfo st' = appInfo st)
  /\ (appInfo st' = appInfo st
      \/ appInfo st'
         = app.set_BinPath ("/opt/" +:+ app.BinName (appInfo st))
             (appInfo st)).
Proof.
  revert st r st'.
  set (Q := fun a a' : app.Info =>
              (deffile.Model d = container.BindModel
               \/ app.BinPath a <> "" -> a' = a)
              /\ (a' = a
                  \/ a' = app.set_BinPath ("/opt/" +:+ app.BinName a) a)).
  change (forall st r st', deffile.addLabels d st = (r, st') ->
                           Q (appInfo st) (appInfo st')).
  assert (forall a, Q a a) as Hrefl by (intros a; split; [done | by left]).
  unfold deffile.addLabels.
  do 6 (apply frames_then;
        [repeat match goal with
                | |- frames (match ?x with _ => _ end) => destruct x
                end; builder
        | done | intros _]).
  apply get_app_then.
  intros st. generalize (app.Name (appInfo st)). intros nm. revert st.
  apply frames_then; [builder | done | intros _].
  destruct (String.eqb (deffile.Model d) container.BindModel) eqn:Hmodel.
  - apply frames_then; [builder | done | intros _].
    intros st r st' H. apply frames_WriteString in H. rewrite H.
    apply Hrefl.
  - apply String.eqb_neq in Hmodel.
    intros [[w ft] [name bin binpath src cmd]] r st' H.
    destruct binpath as [|c p]; destruct ft as [[[|[|n]] msg]|].
    all: exec_in H; injection H as <- <-.
    all: split; [| by auto].
    all: by intros [? | ?].
Qed.

(** The labels builder never overwrites a binary path that is
    configured and never writes the descriptor under the bind model;
    otherwise, whether it succeeds or fails, the descriptor it leaves is
    the one it found or that one with the binary path set to
    [/opt/<binary-name>], and nothing else in it changes.  After a
    successful run outside the bind model the binary path is set. *)
Theorem addLabels_changes_at_most_BinPath (d : deffile.DefFileData)
    (st st' : Store) (r : outcome unit) :
  deffile.addLabels d st = (r, st') ->
  let a := appInfo st in
  (deffile.Model d = container.BindModel \/ app.BinPath a <> "" ->
   appInfo st' = a)
  /\ (appInfo st' = a
      \/ appInfo st' = app.set_BinPath ("/opt/" +:+ app.BinName a) a)
  /\ (r = Ok tt -> deffile.Model d <> container.BindModel ->
      app.BinPath (appInfo st') = settled_BinPath a).
Proof.
  intros Hrun a. subst a.
  destruct (addLabels_descriptor d st st' r Hrun) as [H1 H2].
  split; [exact H1 |]. split; [exact H2 |].
  intros -> Hmodel.
  by rewrite (addLabels_settles_BinPath d st st' Hmodel Hrun).
Qed.

Lemma addLabels_changes_at_most_BinPath_witness :
  let d := example.descriptor example.ubuntu "" container.HybridModel in
  let a := app.set_BinPath "/usr/local/bin/hello" (example.hello "") in
  let broken :=
    {| file := {| os.written := []; os.fault := Some (9, "disk full") |};
       appInfo := a |} in
  appInfo (snd (deffile.addLabels d broken)) = a
  /\ app.BinPath (appInfo (snd (deffile.addLabels d
                                  (example.fresh (example.hello "")))))
     = "/opt/hello".
Proof.
  split.
  - apply (proj1 (addLabels_changes_at_most_BinPath
                    (example.descriptor example.ubuntu ""
                       container.HybridModel)
                    {| file := {| os.written := [];
                                  os.fault := Some (9, "disk full") |};
                       appInfo := app.set_BinPath "/usr/local/bin/hello"
                                    (example.hello "") |}
                    _ _ eq_refl)).
    right. discriminate.
  - apply (proj2 (proj2 (addLabels_changes_at_most_BinPath
                           (example.descriptor example.ubuntu ""
                              container.HybridModel)
                           (example.fresh (example.hello ""))
                           _ _ eq_refl))).
    + reflexivity.
    + discriminate.
Defined.

(** Every key of the labels section is written at most once, and the
    optional ones exactly when their source is there: the two MPI labels
    when the descriptor has an MPI implementation, the MPI directory
    when it has a build environment with a non-empty install directory,
    the model when it is not empty. *)
Theorem addLabels_writes_each_key_once (d : deffile.DefFileData)
    (st st' : Store) :
  deffile.addLabels d st = (Ok tt, st') ->
  let lines key :=
    List.filter (fun line => strings.HasPrefix line ("\t" +:+ key +:+ " "))
      (emitted st st') in
  lines "Linux_distribution"
  = ["\tLinux_distribution " +:+ distro.Name (deffile.DistroID d) +:+ "\n"]
  /\ lines "Linux_version"
     = ["\tLinux_version " +:+ distro.Version (deffile.DistroID d) +:+ "\n"]
  /\ lines "MPI_Implementation"
     = match deffile.MpiImplm d with
       | Some m => ["\tMPI_Implementation " +:+ implem.ID m +:+ "\n"]
       | None => []
       end
  /\ lines "MPI_Version"
     = match deffile.MpiImplm d with
       | Some m => ["\tMPI_Version " +:+ implem.Version m +:+ "\n"]
       | None => []
       end
  /\ lines "MPI_Directory"
     = match deffile.InternalEnv d with
       | Some env =>
           if String.eqb (buildenv.InstallDir env) "" then []
           else ["\tMPI_Directory " +:+ buildenv.InstallDir env +:+ "\n"]
       | None => []
       end
  /\ lines "Model"
     = (if String.eqb (deffile.Model d) "" then []
        else ["\tModel " +:+ deffile.Model d +:+ "\n"])
  /\ lines "Application"
     = ["\tApplication " +:+ app.Name (appInfo st) +:+ "\n"].
Proof.
  intros Hrun lines. subst lines.
  apply addLabels_uniform in Hrun.
  change (emitted st st') with (emitted (heal st) (heal st')).
  unfold deffile.addLabels in Hrun.
  destruct st as [[w ft] [name bin binpath src cmd]].
  cbn [appInfo app.Name].
  remember (heal st') as target eqn:Ht. clear Ht.
  destruct (String.eqb (deffile.Model d) container.BindModel);
    destruct (String.eqb (deffile.Model d) "");
    destruct binpath as [|c p];
    destruct (deffile.MpiImplm d) as [m|];
    (destruct (deffile.InternalEnv d) as [env|];
     [destruct (String.eqb (buildenv.InstallDir env) "") |]).
  all: exec_in Hrun; injection Hrun as <-.
  all: unfold emitted; cbn [file os.written heal].
  all: rewrite <- ?app_assoc, drop_app_length.
  all: by cbn.
Qed.

Lemma addLabels_writes_each_key_once_witness :
  let d := example.descriptor example.ubuntu "" container.HybridModel in
  let st := example.fresh (example.hello "") in
  let lines key :=
    List.filter (fun line => strings.HasPrefix line ("\t" +:+ key +:+ " "))
      (emitted st (snd (deffile.addLabels d st))) in
  lines "MPI_Implementation" = ["\tMPI_Implementation openmpi\n"]
  /\ lines "MPI_Directory" = ["\tMPI_Directory /opt/mpi\n"]
  /\ lines "Model" = ["\tModel hybrid\n"].
Proof.
  pose proof (addLabels_writes_each_key_once
                (example.descriptor example.ubuntu "" container.HybridModel)
                (example.fresh (example.hello "")) _ eq_refl)
    as (_ & _ & H3 & _ & H5 & H6 & _).
  split; [exact H3 |]. split; [exact H5 | exact H6].
Defined.

(** ** The install builder, further *)

Section Install.
Context `{U : util.Pkg} `{J : filepath.Pkg}.

(** The install builder gives up with the cannot-compile error exactly
    when the source is a file reference, the descriptor has a build
    environment, and the application has neither a binary path nor an
    install command; it has then written nothing.  A file that fails
    makes no difference to that. *)
Theorem addAppInstall_cannot_compile_iff (d : deffile.DefFileData)
    (st st' : Store) (r : outcome unit) :
  util.GitURL <> util.FileURL ->
  deffile.addAppInstall d st = (r, st') ->
  let a := appInfo st in
  (r = Err cannot_compile
   <-> util.DetectURLType (app.Source a) = util.FileURL
       /\ is_Some (deffile.InternalEnv d)
       /\ app.BinPath a = "" /\ app.InstallCmd a = "")
  /\ (r = Err cannot_compile -> st' = st).
Proof.
  intros Hgit Hrun a. subst a.
  destruct st as [[w ft] [name bin binpath src cmd]].
  cbn [appInfo app.Source app.BinPath app.InstallCmd].
  unfold deffile.addAppInstall in Hrun.
  cbv beta iota zeta delta
    [bind get_app appInfo app.Source app.BinPath app.BinName
     app.InstallCmd] in Hrun.
  destruct (String.eqb (util.DetectURLType src) util.GitURL) eqn:Egit.
  { apply String.eqb_eq in Egit.
    destruct ft as [[[|[|n]] msg]|]; exec_in Hrun; injection Hrun as <- <-.
    all: split; [split; [done |] | done].
    all: intros (Hurl & _); congruence. }
  destruct (String.eqb (util.DetectURLType src) util.FileURL) eqn:Efile.
  - apply String.eqb_eq in Efile.
    destruct (deffile.InternalEnv d) as [env|].
    + destruct binpath as [|c p]; destruct cmd as [|c' p'];
        destruct ft as [[[|[|n]] msg]|]; exec_in Hrun;
        injection Hrun as <- <-.
      all: split; [split; [try done |] | done].
      all: try by intros (_ & _ & ? & ?).
      all: by eauto.
    + exec_in Hrun. injection Hrun as <- <-.
      split; [split; [done |] | done].
      intros (_ & [env Henv] & _). done.
  - apply String.eqb_neq in Efile.
    destruct (String.eqb (util.DetectURLType src) util.HttpURL);
      destruct ft as [[[|[|n]] msg]|]; exec_in Hrun;
      injection Hrun as <- <-.
    all: split; [split; [done |] | done].
    all: by intros (Hurl & _).
Qed.

Lemma Replace_strips_the_scheme (p : string) :
  strings.Replace ("file://" +:+ p) "file://" "" 1 = p.
Proof. by destruct p. Qed.

(** Outside the bind model a source written [file://<path>] is staged
    under [<path>]: the files section of a successful run is its
    header and the line that copies [<path>] to [/opt].  Under the
    hybrid model this needs a source whose name shows no archive
    format. *)
Theorem createFilesSection_strips_the_scheme (d : deffile.DefFileData)
    (sysCfg : sys.Config) (st st' : Store) (p : string) :
  deffile.createFilesSection d sysCfg st = (Ok tt, st') ->
  deffile.Model d <> container.BindModel ->
  app.Source (appInfo st) = "file://" +:+ p ->
  (deffile.Model d = container.HybridModel ->
   util.DetectTarballFormat (app.Source (appInfo st))
   = util.UnknownFormat) ->
  emitted st st' = ["%files\n"; "\t" +:+ p +:+ " /opt\n\n"].
Proof.
  intros Hrun Hmodel Hsrc Hplain.
  apply String.eqb_neq in Hmodel.
  unfold deffile.createFilesSection in Hrun. rewrite Hmodel in Hrun.
  apply bind_Ok in Hrun as ([] & st1 & H1 & Hrun).
  apply wrapf_Ok in H1. pose proof (frames_WriteString _ _ _ _ H1) as F1.
  apply WriteString_Ok in H1 as [W1 _].
  assert (os.written (file st')
          = os.written (file st1) ++ ["\t" +:+ p +:+ " /opt\n\n"]) as W2.
  { destruct (String.eqb (deffile.Model d) container.HybridModel) eqn:E.
    - apply String.eqb_eq in E. specialize (Hplain E).
      apply bind_Ok in Hrun as (a & st2 & [= <- <-] & Hrun).
      rewrite F1, Hplain, String.eqb_refl in Hrun.
      cbv zeta in Hrun. unfold when in Hrun.
      apply wrapf_Ok, WriteString_Ok in Hrun as [W2 _].
      by rewrite W2, Hsrc, Replace_strips_the_scheme.
    - apply bind_Ok in Hrun as (a & st2 & [= <- <-] & Hrun).
      cbv zeta in Hrun. rewrite F1 in Hrun.
      apply wrapf_Ok, WriteString_Ok in Hrun as [W2 _].
      by rewrite W2, Hsrc, Replace_strips_the_scheme. }
  apply emitted_append. by rewrite W2, W1, <- app_assoc.
Qed.
End Install.

Lemma addAppInstall_cannot_compile_iff_witness :
  let d := example.descriptor example.ubuntu
             "http://example/ompi-4.0.1.tar.gz" container.HybridModel in
  let st :=
    {| file := {| os.written := ["%post\n"];
                  os.fault := Some (0, "disk full") |};
       appInfo := example.hello "file:///home/me/hello.c" |} in
  deffile.addAppInstall d st = (Err cannot_compile, st).
Proof.
  intros d st.
  destruct (deffile.addAppInstall d st) as [r st'] eqn:Hrun.
  assert (util.GitURL <> util.FileURL) as Hgit by (vm_compute; discriminate).
  pose proof (addAppInstall_cannot_compile_iff d st st' r Hgit Hrun)
    as [Hiff Hsame].
  assert (r = Err cannot_compile) as Hr.
  { apply Hiff. repeat split. by eexists. }
  by rewrite Hr, (Hsame Hr).
Defined.

Lemma createFilesSection_strips_the_scheme_witness :
  let d := example.descriptor example.ubuntu "" container.HybridModel in
  let st := example.fresh (example.hello "file:///home/me/file://hello.c") in
  emitted st (snd (deffile.createFilesSection d (example.cfg false) st))
  = ["%files\n"; "\t/home/me/file://hello.c /opt\n\n"].
Proof.
  apply (createFilesSection_strips_the_scheme
           (example.descriptor example.ubuntu "" container.HybridModel)
           (example.cfg false)
           (example.fresh (example.hello "file:///home/me/file://hello.c"))
           _ "/home/me/file://hello.c").
  - reflexivity.
  - discriminate.
  - reflexivity.
  - reflexivity.
Defined.

(** ** The sections of a manifest *)

Section Heads.

Lemma heads_bind {A B} (hs1 hs2 : list string) (m : M A) (k : A -> M B)
    (st : Store) :
  heads hs1 m st ->
  (forall a st1, m st = (Ok a, st1) -> heads hs2 (k a) st1) ->
  heads (hs1 ++ hs2) (bind m k) st.
Proof.
  intros Hm Hk b st' H. apply bind_Ok in H as (a & st1 & H1 & H2).
  destruct (Hm _ _ H1) as (l1 & W1 & F1).
  destruct (Hk _ _ H1 _ _ H2) as (l2 & W2 & F2).
  exists (l1 ++ l2). split.
  - by rewrite W2, W1, <- app_assoc.
  - by rewrite List.filter_app, F1, F2.
Qed.

Lemma heads_wrapf {A} (hs : list string) prefix (m : M A) (st : Store) :
  heads hs m st -> heads hs (wrapf prefix m) st.
Proof. intros Hm a st' H. apply wrapf_Ok in H. exact (Hm _ _ H). Qed.

Lemma heads_get_app {B} (hs : list string) (k : app.Info -> M B)
    (st : Store) :
  heads hs (k (appInfo st)) st -> heads hs (bind get_app k) st.
Proof. intros H a st' E. exact (H a st' E). Qed.

Lemma heads_WriteString (s : string) (st : Store) :
  heads (if header s then [s] else []) (WriteString s) st.
Proof.
  intros a st' H. apply WriteString_Ok in H as [W _].
  exists [s]. split; [done |]. simpl. by destruct (header s).
Qed.

Lemma quiet_ret {A} (a : A) : quiet (ret a).
Proof.
  intros st b st' [= <- <-]. exists []. by rewrite app_nil_r.
Qed.

Lemma quiet_fail {A} e : quiet (@fail A e).
Proof. by intros st b st'. Qed.

Lemma quiet_deref {A} (p : option A) : quiet (deref p).
Proof.
  intros st b st'. unfold deref. destruct p; [| done].
  intros [= <- <-]. exists []. by rewrite app_nil_r.
Qed.

Lemma quiet_get_app : quiet get_app.
Proof.
  intros st b st' [= <- <-]. exists []. by rewrite app_nil_r.
Qed.

Lemma quiet_set_app p : quiet (set_app_BinPath p).
Proof.
  intros st b st' [= <- <-]. exists []. by rewrite app_nil_r.
Qed.

Lemma quiet_WriteString (s : string) :
  header s = false -> quiet (WriteString s).
Proof.
  intros Hs st. pose proof (heads_WriteString s st) as H.
  by rewrite Hs in H.
Qed.

Lemma quiet_bind {A B} (m : M A) (k : A -> M B) :
  quiet m -> (forall a, quiet (k a)) -> quiet (bind m k).
Proof.
  intros Hm Hk st. apply (heads_bind [] []); [apply Hm |].
  intros a st1 _. apply Hk.
Qed.

Lemma quiet_wrapf {A} prefix (m : M A) : quiet m -> quiet (wrapf prefix m).
Proof. intros Hm st. apply heads_wrapf, Hm. Qed.

Lemma quiet_when b m : quiet m -> quiet (when b m).
Proof. intros Hm. destruct b; [done | apply quiet_ret]. Qed.

End Heads.

Ltac quiet_step :=
  match goal with
  | |- quiet (bind _ _) => apply quiet_bind; [| intros ?]
  | |- quiet (wrapf _ _) => apply quiet_wrapf
  | |- quiet (when _ _) => apply quiet_when
  | |- quiet (WriteString _) => apply quiet_WriteString; reflexivity
  | |- quiet (ret _) => apply quiet_ret
  | |- quiet (fail _) => apply quiet_fail
  | |- quiet (deref _) => apply quiet_deref
  | |- quiet get_app => apply quiet_get_app
  | |- quiet (set_app_BinPath _) => apply quiet_set_app
  | |- quiet (if ?b then _ else _) => destruct b
  | |- quiet (match ?o with Some _ => _ | None => _ end) => destruct o
  end.

Ltac quiet_builder := repeat (cbv zeta; quiet_step).

Ltac as_quiet :=
  match goal with
  | |- forall s, heads [] ?m s => change (quiet m)
  end.

Section SectionOrder.
Context `{U : util.Pkg} `{R : distro.Resolver} `{J : filepath.Pkg}.

Lemma AddBootstrap_opens (d : deffile.DefFileData) (sysCfg : sys.Config)
    (st st' : Store) :
  deffile.AddBootstrap d sysCfg st = (Ok tt, st') ->
  exists boot,
    os.written (file st') = os.written (file st) ++ [boot]
    /\ strings.HasPrefix boot "Bootstrap: " = true.
Proof.
  unfold deffile.AddBootstrap, deffile.addDebootstrapBootstrap,
    deffile.addYumBootstrap, deffile.addDockerBootstrap.
  cbv zeta.
  repeat match goal with
         | |- context [if ?b then _ else _] => destruct b
         end.
  all: try done.
  all: intros H; apply wrapf_Ok, WriteString_Ok in H as [W _].
  all: by eexists.
Qed.

Lemma addLabels_heads (d : deffile.DefFileData) (st : Store) :
  heads ["%labels\n"] (deffile.addLabels d) st.
Proof.
  unfold deffile.addLabels.
  apply (heads_bind ["%labels\n"] []); [apply heads_WriteString |].
  intros _ st1 _. revert st1.
  as_quiet.
  quiet_builder.
Qed.

Lemma createFilesSection_heads (d : deffile.DefFileData)
    (sysCfg : sys.Config) (st : Store) :
  heads ["%files\n"] (deffile.createFilesSection d sysCfg) st.
Proof.
  unfold deffile.createFilesSection.
  apply (heads_bind ["%files\n"] []);
    [apply heads_wrapf, heads_WriteString |].
  intros _ st1 _. revert st1. as_quiet. quiet_builder.
Qed.

Lemma hybridFiles_heads (d : deffile.DefFileData) (sysCfg : sys.Config)
    (st : Store) :
  heads (if String.eqb (util.DetectURLType (app.Source (appInfo st)))
              util.FileURL
         then ["%files\n"] else [])
    (deffile.hybridFiles d sysCfg) st.
Proof.
  unfold deffile.hybridFiles. apply heads_get_app.
  destruct (String.eqb _ util.FileURL).
  - apply heads_wrapf, createFilesSection_heads.
  - apply quiet_ret.
Qed.

Lemma addMPIEnv_heads (d : deffile.DefFileData) (st st' : Store) :
  deffile.addMPIEnv d st = (Ok tt, st') ->
  exists env l,
    deffile.InternalEnv d = Some env
    /\ os.written (file st') = os.written (file st) ++ l
    /\ List.filter header l
       = ["%environment\n\tMPI_DIR=" +:+ buildenv.InstallDir env +:+ "\n"].
Proof.
  unfold deffile.addMPIEnv. intros H.
  destruct (deffile.InternalEnv d) as [env|]; [| done].
  exists env.
  apply bind_Ok in H as (env' & st0 & [= <- <-] & H).
  apply bind_Ok in H as ([] & st1 & H1 & H2).
  apply WriteString_Ok in H1 as [W1 _].
  apply WriteString_Ok in H2 as [W2 _].
  eexists. split; [done |]. split.
  - by rewrite W2, W1, <- app_assoc.
  - reflexivity.
Qed.

Lemma addDistroInit_heads (d : deffile.DefFileData) (sysCfg : sys.Config)
    (st : Store) :
  heads ["%post\n"] (deffile.addDistroInit d sysCfg) st.
Proof.
  unfold deffile.addDistroInit.
  apply (heads_bind ["%post\n"] []); [apply heads_WriteString |].
  intros _ st1 _. revert st1. as_quiet. quiet_builder.
Qed.

Lemma addAppDownload_quiet d : quiet (deffile.addAppDownload d).
Proof.
  unfold deffile.addAppDownload, deffile.addDetectAppDir. quiet_builder.
Qed.

Lemma AddMPIInstall_quiet d : quiet (deffile.AddMPIInstall d).
Proof. unfold deffile.AddMPIInstall. quiet_builder. Qed.

Lemma addAppInstall_quiet d : quiet (deffile.addAppInstall d).
Proof. unfold deffile.addAppInstall. quiet_builder. Qed.

Lemma addMPICleanup_quiet d : quiet (deffile.addMPICleanup d).
Proof. unfold deffile.addMPICleanup. quiet_builder. Qed.

Lemma addDependencies_quiet d pkgs : quiet (deffile.addDependencies d pkgs).
Proof.
  unfold deffile.addDependencies, deffile.addRPMDependencies,
    deffile.addDebianDependencies.
  quiet_builder.
Qed.

Lemma addCleanUp_quiet d : quiet (deffile.addCleanUp d).
Proof. unfold deffile.addCleanUp. quiet_builder. Qed.

End SectionOrder.

(** One section of an assembler that succeeded as a whole *)
Ltac section_step Hrun E st :=
  apply bind_Ok in Hrun as ([] & st & E & Hrun); try apply wrapf_Ok in E.

Section Assemblers.
Context `{U : util.Pkg} `{R : distro.Resolver} `{J : filepath.Pkg}.

Lemma header_of_bootstrap (boot : string) :
  strings.HasPrefix boot "Bootstrap: " = true ->
  List.filter header [boot] = [boot].
Proof.
  intros H. cbn [List.filter]. unfold header.
  by rewrite H, orb_true_r.
Qed.

Lemma Create_Ok (h : os.Host) (name : string) (f : os.File) :
  os.Create h name = inl f -> os.written f = [].
Proof.
  unfold os.Create. destruct (os.create_error h); [done |].
  by intros [= <-].
Qed.

(** The manifest of a hybrid assembly that succeeds opens its sections
    in this order: the bootstrap header, [%labels], [%files] exactly
    when the source is a file reference, [%environment] with the MPI
    directory of the build environment, and a single [%post].  No
    other payload opens a section. *)
Theorem CreateHybridDefFile_section_order (a a' : app.Info)
    (d : deffile.DefFileData) (sysCfg : sys.Config) (h : os.Host)
    (f : os.File) :
  deffile.CreateHybridDefFile a d sysCfg h = (Ok tt, a', Some f) ->
  exists boot env,
    deffile.InternalEnv d = Some env
    /\ strings.HasPrefix boot "Bootstrap: " = true
    /\ List.filter header (os.written f)
       = [boot; "%labels\n"]
         ++ (if String.eqb (util.DetectURLType (app.Source a)) util.FileURL
             then ["%files\n"] else [])
         ++ ["%environment\n\tMPI_DIR=" +:+ buildenv.InstallDir env
             +:+ "\n";
             "%post\n"].
Proof.
  unfold deffile.CreateHybridDefFile.
  destruct (String.eqb (deffile.Path d) ""); [done |].
  destruct (os.Create h (deffile.Path d)) as [f0|e] eqn:C; [| done].
  apply Create_Ok in C.
  destruct (deffile.hybridSections d sysCfg _) as [r st9] eqn:Hrun.
  intros [= -> <- <-].
  unfold deffile.hybridSections in Hrun.
  section_step Hrun E1 st1.
  destruct (AddBootstrap_opens _ _ _ _ E1) as (boot & W1 & Hboot).
  pose proof (AddBootstrap_frames _ _ _ _ _ E1) as F1.
  section_step Hrun E2 st2.
  destruct (addLabels_heads d st1 _ _ E2) as (l2 & W2 & H2).
  destruct (addLabels_descriptor d st1 st2 _ E2) as [_ D2].
  assert (app.Source (appInfo st2) = app.Source a) as S2.
  { rewrite F1 in D2. cbn in D2. by destruct D2 as [-> | ->]. }
  section_step Hrun E3 st3.
  destruct (hybridFiles_heads d sysCfg st2 _ _ E3) as (l3 & W3 & H3).
  rewrite S2 in H3.
  section_step Hrun E4 st4.
  destruct (addMPIEnv_heads d st3 st4 E4) as (env & l4 & Henv & W4 & H4).
  section_step Hrun E5 st5.
  destruct (addDistroInit_heads d sysCfg st4 _ _ E5) as (l5 & W5 & H5).
  section_step Hrun E6 st6.
  destruct (addAppDownload_quiet d st5 _ _ E6) as (l6 & W6 & H6).
  section_step Hrun E7 st7.
  destruct (AddMPIInstall_quiet d st6 _ _ E7) as (l7 & W7 & H7).
  section_step Hrun E8 st8.
  destruct (addAppInstall_quiet d st7 _ _ E8) as (l8 & W8 & H8).
  apply wrapf_Ok in Hrun.
  destruct (addMPICleanup_quiet d st8 _ _ Hrun) as (l9 & W9 & H9).
  exists boot, env. split; [done |]. split; [done |].
  rewrite W9, W8, W7, W6, W5, W4, W3, W2, W1. cbn [file].
  rewrite C, !List.filter_app, H2, H3, H4, H5, H6, H7, H8, H9.
  rewrite (header_of_bootstrap boot Hboot).
  by rewrite !app_nil_r, <- !app_assoc.
Qed.

Context `{L : ldd.Loader}.

(** The manifest of a bind assembly that succeeds opens its sections
    in this order: the bootstrap header, [%labels], [%files],
    [%environment] with the MPI directory of the build environment,
    and a single [%post]. *)
Theorem CreateBindDefFile_section_order (a a' : app.Info)
    (d : deffile.DefFileData) (sysCfg : sys.Config) (h : os.Host)
    (lh : ldd.Host) (f : os.File) :
  deffile.CreateBindDefFile a d sysCfg h lh = (Ok tt, a', Some f) ->
  exists boot env,
    deffile.InternalEnv d = Some env
    /\ strings.HasPrefix boot "Bootstrap: " = true
    /\ List.filter header (os.written f)
       = [boot; "%labels\n"; "%files\n";
          "%environment\n\tMPI_DIR=" +:+ buildenv.InstallDir env +:+ "\n";
          "%post\n"].
Proof.
  unfold deffile.CreateBindDefFile.
  destruct (String.eqb (deffile.Path d) ""); [done |].
  destruct (os.Create h (deffile.Path d)) as [f0|e] eqn:C; [| done].
  apply Create_Ok in C.
  destruct ldd.Detect as [lddMod [e|]]; [done |].
  destruct (ldd.GetPackageDependenciesForFile _ _ _).1 as [pkgs|e|];
    [| done | done].
  destruct (deffile.bindSections d sysCfg _ _) as [r st9] eqn:Hrun.
  intros [= -> <- <-].
  unfold deffile.bindSections in Hrun.
  section_step Hrun E1 st1.
  destruct (AddBootstrap_opens _ _ _ _ E1) as (boot & W1 & Hboot).
  section_step Hrun E2 st2.
  destruct (addLabels_heads d st1 _ _ E2) as (l2 & W2 & H2).
  section_step Hrun E3 st3.
  destruct (createFilesSection_heads d sysCfg st2 _ _ E3)
    as (l3 & W3 & H3).
  section_step Hrun E4 st4.
  destruct (addMPIEnv_heads d st3 st4 E4) as (env & l4 & Henv & W4 & H4).
  section_step Hrun E5 st5.
  destruct (addDistroInit_heads d sysCfg st4 _ _ E5) as (l5 & W5 & H5).
  section_step Hrun E6 st6.
  destruct (addDependencies_quiet d _ st5 _ _ E6) as (l6 & W6 & H6).
  assert (exists l7, os.written (file st9) = os.written (file st6) ++ l7
                     /\ List.filter header l7 = []) as (l7 & W7 & H7).
  { revert Hrun. generalize st9. generalize tt. generalize st6.
    match goal with
    | |- forall s u s', ?m s = (Ok u, s') -> _ => change (quiet m)
    end.
    unfold deffile.addCleanUp. quiet_builder. }
  exists boot, env. split; [done |]. split; [done |].
  rewrite W7, W6, W5, W4, W3, W2, W1. cbn [file].
  rewrite C, !List.filter_app, H2, H3, H4, H5, H6, H7.
  rewrite (header_of_bootstrap boot Hboot).
  by rewrite !app_nil_r.
Qed.

(** The manifest of a basic assembly that succeeds opens its sections
    in this order: the bootstrap header, [%labels], [%files] and a
    single [%post]; it has no [%environment] section. *)
Theorem CreateBasicDefFile_section_order (a a' : app.Info)
    (d : deffile.DefFileData) (sysCfg : sys.Config) (h : os.Host)
    (lh : ldd.Host) (f : os.File) :
  deffile.CreateBasicDefFile a d sysCfg h lh = (Ok tt, a', Some f) ->
  exists boot,
    strings.HasPrefix boot "Bootstrap: " = true
    /\ List.filter header (os.written f)
       = [boot; "%labels\n"; "%files\n"; "%post\n"].
Proof.
  unfold deffile.CreateBasicDefFile.
  destruct (String.eqb (deffile.Path d) ""); [done |].
  destruct (os.Create h (deffile.Path d)) as [f0|e] eqn:C; [| done].
  apply Create_Ok in C.
  destruct ldd.Detect as [lddMod [e|]]; [done |].
  destruct (ldd.GetPackageDependenciesForFile _ _ _).1 as [pkgs|e|];
    [| done | done].
  destruct (deffile.basicSections d sysCfg _ _) as [r st9] eqn:Hrun.
  intros [= -> <- <-].
  unfold deffile.basicSections in Hrun.
  section_step Hrun E1 st1.
  destruct (AddBootstrap_opens _ _ _ _ E1) as (boot & W1 & Hboot).
  section_step Hrun E2 st2.
  destruct (addLabels_heads d st1 _ _ E2) as (l2 & W2 & H2).
  section_step Hrun E3 st3.
  destruct (createFilesSection_heads d sysCfg st2 _ _ E3)
    as (l3 & W3 & H3).
  section_step Hrun E5 st5.
  destruct (addDistroInit_heads d sysCfg st3 _ _ E5) as (l5 & W5 & H5).
  section_step Hrun E6 st6.
  destruct (addDependencies_quiet d _ st5 _ _ E6) as (l6 & W6 & H6).
  apply wrapf_Ok in Hrun.
  destruct (addCleanUp_quiet d st6 _ _ Hrun) as (l7 & W7 & H7).
  exists boot. split; [done |].
  rewrite W7, W6, W5, W3, W2, W1. cbn [file].
  rewrite C, !List.filter_app, H2, H3, H5, H6, H7.
  rewrite (header_of_bootstrap boot Hboot).
  by rewrite !app_nil_r.
Qed.

Lemma addDependencies_install_line (d : deffile.DefFileData)
    (pkgs : list string) (st st' : Store) :
  deffile.addDependencies d pkgs st = (Ok tt, st') ->
  pkgs <> [] ->
  (distro.Name (deffile.DistroID d) = "ubuntu" ->
   In ("\tapt install -y " +:+ strings.Join pkgs " " +:+ "\n")
     (os.written (file st')))
  /\ (distro.Name (deffile.DistroID d) = "centos" ->
      In ("\tyum install -y " +:+ strings.Join pkgs " " +:+ "\n")
        (os.written (file st'))).
Proof.
  intros Hrun Hpkgs. destruct pkgs as [|p pkgs]; [done |].
  unfold deffile.addDependencies in Hrun.
  split; intros Hname; rewrite Hname in Hrun.
  - change (String.eqb "ubuntu" "centos") with false in Hrun.
    change (String.eqb "ubuntu" "ubuntu") with true in Hrun.
    cbv iota in Hrun. unfold deffile.addDebianDependencies in Hrun.
    apply bind_Ok in Hrun as ([] & st1 & H1 & Hrun).
    apply wrapf_Ok, WriteString_Ok in H1 as [W1 _].
    apply bind_Ok in Hrun as ([] & st2 & H2 & H3).
    apply wrapf_Ok, WriteString_Ok in H2 as [W2 _].
    apply wrapf_Ok, WriteString_Ok in H3 as [W3 _].
    rewrite W3, W2, W1, !in_app_iff. left. left. right. by left.
  - change (String.eqb "centos" "centos") with true in Hrun.
    cbv iota in Hrun. unfold deffile.addRPMDependencies in Hrun.
    apply wrapf_Ok, WriteString_Ok in Hrun as [W1 _].
    rewrite W1, in_app_iff. right. by left.
Qed.

(** A bind assembly that succeeds installs the fixed packages: the
    install line of the distro's package manager lists what the
    inspector found on the binary followed by the eleven packages the
    assembler always adds, so the line is there also when no inspector
    can be used and the list found is empty. *)
Theorem CreateBindDefFile_installs_the_fixed_packages (a a' : app.Info)
    (d : deffile.DefFileData) (sysCfg : sys.Config) (h : os.Host)
    (lh : ldd.Host) (f : os.File) :
  deffile.CreateBindDefFile a d sysCfg h lh = (Ok tt, a', Some f) ->
  exists deps,
    (ldd.GetPackageDependenciesForFile ldd.Detect.1 (app.BinPath a) lh).1
    = Ok deps
    /\ (ldd.unusable lh (app.BinPath a) = true -> deps = [])
    /\ let pkgs := strings.Join (deps ++ deffile.bindPackages) " " in
       (distro.Name (deffile.DistroID d) = "ubuntu" ->
        In ("\tapt install -y " +:+ pkgs +:+ "\n") (os.written f))
       /\ (distro.Name (deffile.DistroID d) = "centos" ->
           In ("\tyum install -y " +:+ pkgs +:+ "\n") (os.written f)).
Proof.
  unfold deffile.CreateBindDefFile.
  destruct (String.eqb (deffile.Path d) ""); [done |].
  destruct (os.Create h (deffile.Path d)) as [f0|e] eqn:C; [| done].
  destruct ldd.Detect as [lddMod [e|]]; [done |]. cbn [fst].
  destruct (ldd.GetPackageDependenciesForFile _ _ _).1 as [deps|e|] eqn:D;
    [| done | done].
  destruct (deffile.bindSections d sysCfg _ _) as [r st9] eqn:Hrun.
  intros [= -> <- <-]. exists deps. split; [done |]. split.
  { intros Hun. unfold ldd.unusable in Hun.
    unfold ldd.GetPackageDependenciesForFile in D.
    destruct (ldd.LookPath lh "ldd") as [lddPath|]; [| by injection D].
    destruct (ldd.err _) as [msg|]; [by injection D |].
    by apply bool_decide_eq_true, is_Some_None in Hun. }
  unfold deffile.bindSections in Hrun.
  section_step Hrun E1 st1. section_step Hrun E2 st2.
  section_step Hrun E3 st3. section_step Hrun E4 st4.
  section_step Hrun E5 st5. section_step Hrun E6 st6.
  assert (exists l7, os.written (file st9) = os.written (file st6) ++ l7
                     /\ List.filter header l7 = []) as (l7 & W7 & _).
  { revert Hrun. generalize st9. generalize tt. generalize st6.
    match goal with
    | |- forall s u s', ?m s = (Ok u, s') -> _ => change (quiet m)
    end.
    unfold deffile.addCleanUp. quiet_builder. }
  apply addDependencies_install_line in E6 as [Hu Hc].
  - cbv zeta. rewrite W7. split; intros Hname; apply in_app_iff; left; auto.
  - by destruct deps.
Qed.

(** Without a loaded inspector module the bind and the basic assembler
    give up with their own error; by then the manifest has been
    created, so an empty file is left at its path, and the descriptor
    is as it was. *)
Theorem assemblers_need_an_ldd_module (a : app.Info)
    (d : deffile.DefFileData) (sysCfg : sys.Config) (h : os.Host)
    (lh : ldd.Host) :
  ldd.DebianLoad.1 = false ->
  deffile.Path d <> "" ->
  os.create_error h = None ->
  let left_behind :=
    Some {| os.written := []; os.fault := os.disk_fault h |} in
  deffile.CreateBindDefFile a d sysCfg h lh
  = (Err no_ldd_module, a, left_behind)
  /\ deffile.CreateBasicDefFile a d sysCfg h lh
     = (Err no_ldd_module, a, left_behind).
Proof.
  intros Hload Hpath Hcreate.
  unfold deffile.CreateBindDefFile, deffile.CreateBasicDefFile,
    os.Create, ldd.Detect.
  apply String.eqb_neq in Hpath. rewrite Hpath, Hcreate.
  destruct ldd.DebianLoad as [loaded m]. cbn in Hload. by rewrite Hload.
Qed.

(** *** Where the errors of an assembly come from *)

Lemma assembly_cause_OSError d own msg :
  assembly_cause d own (OSError msg).
Proof. unfold assembly_cause. eauto 6. Qed.

Lemma bootstrap_causes d own sysCfg :
  blames (assembly_cause d own) (deffile.AddBootstrap d sysCfg).
Proof.
  unfold deffile.AddBootstrap, deffile.addDebootstrapBootstrap,
    deffile.addYumBootstrap, deffile.addDockerBootstrap.
  builder; try apply assembly_cause_OSError.
  right. by left.
Qed.

Lemma labels_causes d own :
  blames (assembly_cause d own) (deffile.addLabels d).
Proof.
  unfold deffile.addLabels. builder; apply assembly_cause_OSError.
Qed.

Lemma files_causes d own sysCfg :
  blames (assembly_cause d own) (deffile.createFilesSection d sysCfg).
Proof.
  unfold deffile.createFilesSection. builder; apply assembly_cause_OSError.
Qed.

Lemma env_causes d own : blames (assembly_cause d own) (deffile.addMPIEnv d).
Proof.
  unfold deffile.addMPIEnv. builder; apply assembly_cause_OSError.
Qed.

Lemma init_causes d own sysCfg :
  blames (assembly_cause d own) (deffile.addDistroInit d sysCfg).
Proof.
  unfold deffile.addDistroInit. builder; apply assembly_cause_OSError.
Qed.

Lemma download_causes d own :
  blames (assembly_cause d own) (deffile.addAppDownload d).
Proof.
  unfold deffile.addAppDownload, deffile.addDetectAppDir.
  builder; apply assembly_cause_OSError.
Qed.

Lemma mpi_causes d own :
  blames (assembly_cause d own) (deffile.AddMPIInstall d).
Proof.
  unfold deffile.AddMPIInstall. builder; apply assembly_cause_OSError.
Qed.

Lemma install_causes d :
  blames (assembly_cause d cannot_compile) (deffile.addAppInstall d).
Proof.
  unfold deffile.addAppInstall. builder; try apply assembly_cause_OSError.
  all: right; right; by left.
Qed.

Lemma dependencies_causes d own pkgs :
  blames (assembly_cause d own) (deffile.addDependencies d pkgs).
Proof.
  unfold deffile.addDependencies, deffile.addRPMDependencies,
    deffile.addDebianDependencies.
  builder; apply assembly_cause_OSError.
Qed.

Lemma cleanup_causes d own :
  blames (assembly_cause d own) (deffile.addCleanUp d).
Proof.
  unfold deffile.addCleanUp. builder; apply assembly_cause_OSError.
Qed.

Lemma mpi_cleanup_causes d own :
  blames (assembly_cause d own) (deffile.addMPICleanup d).
Proof.
  unfold deffile.addMPICleanup. builder; apply assembly_cause_OSError.
Qed.

(** Whatever the wrapping, an error of the hybrid assembler goes back
    to one of four causes: the manifest has no path, the distro has no
    bootstrap, the source file cannot be compiled, or the operating
    system refused to create the file or to write to it. *)
Theorem CreateHybridDefFile_error_causes (a a' : app.Info)
    (d : deffile.DefFileData) (sysCfg : sys.Config) (h : os.Host)
    (e : error) (f : option os.File) :
  deffile.CreateHybridDefFile a d sysCfg h = (Err e, a', f) ->
  assembly_cause d cannot_compile (cause e).
Proof.
  unfold deffile.CreateHybridDefFile.
  destruct (String.eqb (deffile.Path d) "");
    [intros [= <- _ _]; by left |].
  unfold os.Create. destruct (os.create_error h) as [msg|].
  { intros [= <- _ _]. apply assembly_cause_OSError. }
  destruct (deffile.hybridSections d sysCfg _) as [r st9] eqn:Hrun.
  intros [= -> _ _]. revert Hrun.
  match goal with
  | |- ?m ?s = (Err e, st9) -> _ =>
      enough (blames (assembly_cause d cannot_compile) m) as Hb
        by apply Hb
  end.
  unfold deffile.hybridSections, deffile.hybridFiles.
  repeat first
    [ apply bootstrap_causes | apply labels_causes | apply files_causes
    | apply env_causes | apply init_causes | apply download_causes
    | apply mpi_causes | apply install_causes | apply mpi_cleanup_causes
    | apply blames_get_app
    | apply blames_when
    | apply blames_wrapf
    | apply blames_bind; [| intros ?] ].
Qed.

(** An error of the bind or of the basic assembler goes back to one of
    four causes: the manifest has no path, the distro has no
    bootstrap, no inspector module could be loaded, or the operating
    system refused to create the file or to write to it. *)
Theorem ldd_assemblers_error_causes (a a' : app.Info)
    (d : deffile.DefFileData) (sysCfg : sys.Config) (h : os.Host)
    (lh : ldd.Host) (e : error) (f : option os.File) :
  deffile.CreateBindDefFile a d sysCfg h lh = (Err e, a', f)
  \/ deffile.CreateBasicDefFile a d sysCfg h lh = (Err e, a', f) ->
  assembly_cause d no_ldd_module (cause e).
Proof.
  unfold deffile.CreateBindDefFile, deffile.CreateBasicDefFile.
  destruct (String.eqb (deffile.Path d) "");
    [intros [[= <- _ _] | [= <- _ _]]; by left |].
  unfold os.Create. destruct (os.create_error h) as [msg|].
  { intros [[= <- _ _] | [= <- _ _]]; apply assembly_cause_OSError. }
  destruct ldd.Detect as [lddMod [e'|]].
  { intros [[= <- _ _] | [= <- _ _]]; right; right; by left. }
  assert ((ldd.GetPackageDependenciesForFile lddMod (app.BinPath a) lh).1
          <> Err e) as Hldd.
  { unfold ldd.GetPackageDependenciesForFile.
    destruct (ldd.LookPath lh "ldd"); [| done].
    destruct (ldd.err _); [done |].
    by destruct (ldd.GetDependencies lddMod). }
  destruct (ldd.GetPackageDependenciesForFile _ _ _).1 as [pkgs|e'|];
    [| intros [[= -> _ _] | [= -> _ _]]; done
     | intros [[=] | [=]]].
  destruct (deffile.bindSections d sysCfg _ _) as [r1 st1] eqn:Hbind.
  destruct (deffile.basicSections d sysCfg _ _) as [r2 st2] eqn:Hbasic.
  intros [[= -> _ _] | [= -> _ _]].
  - revert Hbind.
    match goal with
    | |- ?m ?s = (Err e, st1) -> _ =>
        enough (blames (assembly_cause d no_ldd_module) m) as Hb
          by apply Hb
    end.
    unfold deffile.bindSections.
    repeat first
      [ apply bootstrap_causes | apply labels_causes | apply files_causes
      | apply env_causes | apply init_causes | apply dependencies_causes
      | apply cleanup_causes
      | apply blames_deref
      | apply blames_WriteString; intros ?; apply assembly_cause_OSError
      | apply blames_wrapf
      | apply blames_bind; [| intros ?] ].
  - revert Hbasic.
    match goal with
    | |- ?m ?s = (Err e, st2) -> _ =>
        enough (blames (assembly_cause d no_ldd_module) m) as Hb
          by apply Hb
    end.
    unfold deffile.basicSections.
    repeat first
      [ apply bootstrap_causes | apply labels_causes | apply files_causes
      | apply init_causes | apply dependencies_causes
      | apply cleanup_causes
      | apply blames_wrapf
      | apply blames_bind; [| intros ?] ].
Qed.
End Assemblers.

Lemma CreateHybridDefFile_section_order_witness :
  let a := example.hello "file:///home/me/hello.c" in
  let d := example.descriptor example.ubuntu
             "http://example/ompi-4.0.1.tar.gz" container.HybridModel in
  let r := deffile.CreateHybridDefFile (U := util.spec)
             (R := distro.no_registry) (J := filepath.on_clean_operands)
             a d (example.cfg false) example.host in
  exists f boot,
    r.2 = Some f
    /\ strings.HasPrefix boot "Bootstrap: " = true
    /\ List.filter header (os.written f)
       = [boot; "%labels\n"; "%files\n";
          "%environment\n\tMPI_DIR=/opt/mpi\n"; "%post\n"].
Proof.
  intros a d r.
  destruct r as [[o a'] [f|]] eqn:Hrun;
    [| vm_compute in Hrun; discriminate].
  destruct o as [[] | e |]; [| vm_compute in Hrun; discriminate ..].
  destruct (CreateHybridDefFile_section_order
              (U := util.spec) (R := distro.no_registry)
              (J := filepath.on_clean_operands)
              a a' d (example.cfg false) example.host f Hrun)
    as (boot & env & Henv & Hboot & Horder).
  injection Henv as <-.
  exists f, boot. split; [done |]. split; [exact Hboot | exact Horder].
Defined.

Lemma CreateBindDefFile_section_order_witness :
  let a := app.set_BinPath "/home/me/hello" (example.hello "") in
  let d := example.descriptor example.ubuntu
             "http://example/ompi-4.0.1.tar.gz" container.BindModel in
  let r := deffile.CreateBindDefFile (U := util.spec)
             (R := distro.no_registry) (L := example.debian_loader)
             a d (example.cfg false) example.host example.working_ldd in
  exists f boot,
    r.2 = Some f
    /\ strings.HasPrefix boot "Bootstrap: " = true
    /\ List.filter header (os.written f)
       = [boot; "%labels\n"; "%files\n";
          "%environment\n\tMPI_DIR=/opt/mpi\n"; "%post\n"].
Proof.
  intros a d r.
  destruct r as [[o a'] [f|]] eqn:Hrun;
    [| vm_compute in Hrun; discriminate].
  destruct o as [[] | e |]; [| vm_compute in Hrun; discriminate ..].
  destruct (CreateBindDefFile_section_order
              (U := util.spec) (R := distro.no_registry)
              (L := example.debian_loader)
              a a' d (example.cfg false) example.host example.working_ldd
              f Hrun)
    as (boot & env & Henv & Hboot & Horder).
  injection Henv as <-.
  exists f, boot. split; [done |]. split; [exact Hboot | exact Horder].
Defined.

Lemma CreateBasicDefFile_section_order_witness :
  let a := app.set_BinPath "/home/me/hello" (example.hello "") in
  let d := example.descriptor example.centos "" "" in
  let r := deffile.CreateBasicDefFile (U := util.spec)
             (R := distro.no_registry) (L := example.debian_loader)
             a d (example.cfg true) example.host example.no_ldd in
  exists f boot,
    r.2 = Some f
    /\ strings.HasPrefix boot "Bootstrap: " = true
    /\ List.filter header (os.written f)
       = [boot; "%labels\n"; "%files\n"; "%post\n"].
Proof.
  intros a d r.
  destruct r as [[o a'] [f|]] eqn:Hrun;
    [| vm_compute in Hrun; discriminate].
  destruct o as [[] | e |]; [| vm_compute in Hrun; discriminate ..].
  destruct (CreateBasicDefFile_section_order
              (U := util.spec) (R := distro.no_registry)
              (L := example.debian_loader)
              a a' d (example.cfg true) example.host example.no_ldd
              f Hrun)
    as (boot & Hboot & Horder).
  exists f, boot. split; [done |]. split; [exact Hboot | exact Horder].
Defined.

Lemma CreateBindDefFile_installs_the_fixed_packages_witness :
  let a := app.set_BinPath "/home/me/hello" (example.hello "") in
  let d := example.descriptor example.ubuntu
             "http://example/ompi-4.0.1.tar.gz" container.BindModel in
  let r := deffile.CreateBindDefFile (U := util.spec)
             (R := distro.no_registry) (L := example.debian_loader)
             a d (example.cfg false) example.host example.no_ldd in
  exists f,
    r.2 = Some f
    /\ In "\tapt install -y libc-bin libopensm-dev librdmacm-dev librdmacm1 kmod libmlx4-1 libibverbs-dev libibverbs1 libnl-3-dev infiniband-diags ibverbs-utils\n"
         (os.written f).
Proof.
  intros a d r.
  destruct r as [[o a'] [f|]] eqn:Hrun;
    [| vm_compute in Hrun; discriminate].
  destruct o as [[] | e |]; [| vm_compute in Hrun; discriminate ..].
  destruct (CreateBindDefFile_installs_the_fixed_packages
              (U := util.spec) (R := distro.no_registry)
              (L := example.debian_loader)
              a a' d (example.cfg false) example.host example.no_ldd
              f Hrun)
    as (deps & Hdeps & Hnone & Hubuntu & _).
  rewrite (Hnone eq_refl) in Hubuntu.
  exists f. split; [done |]. exact (Hubuntu eq_refl).
Defined.

Lemma assemblers_need_an_ldd_module_witness :
  let a := app.set_BinPath "/home/me/hello" (example.hello "") in
  let d := example.descriptor example.ubuntu "" container.BindModel in
  deffile.CreateBindDefFile (U := util.spec) (R := distro.no_registry)
    (L := example.no_loader) a d (example.cfg false) example.host
    example.working_ldd
  = (Err no_ldd_module, a, Some {| os.written := []; os.fault := None |})
  /\ deffile.CreateBasicDefFile (U := util.spec) (R := distro.no_registry)
       (L := example.no_loader) a d (example.cfg false) example.host
       example.working_ldd
     = (Err no_ldd_module, a, Some {| os.written := []; os.fault := None |}).
Proof.
  apply (assemblers_need_an_ldd_module
           (U := util.spec) (R := distro.no_registry)
           (L := example.no_loader)
           (app.set_BinPath "/home/me/hello" (example.hello ""))
           (example.descriptor example.ubuntu "" container.BindModel)
           (example.cfg false) example.host example.working_ldd).
  - reflexivity.
  - discriminate.
  - reflexivity.
Defined.

Lemma CreateHybridDefFile_error_causes_witness :
  let a := example.hello "file:///home/me/hello.c" in
  let arch := {| distro.Name := "arch"; distro.Version := "";
                 distro.Codename := "" |} in
  let d := example.descriptor arch "http://example/ompi-4.0.1.tar.gz"
             container.HybridModel in
  let r := deffile.CreateHybridDefFile (U := util.spec)
             (R := distro.no_registry) (J := filepath.on_clean_operands)
             a d (example.cfg false) example.host in
  exists e, r.1.1 = Err e /\ assembly_cause d cannot_compile (cause e).
Proof.
  intros a arch d r.
  destruct r as [[o a'] f] eqn:Hrun.
  destruct o as [[] | e |]; [vm_compute in Hrun; discriminate | |
                             vm_compute in Hrun; discriminate].
  exists e. split; [done |].
  exact (CreateHybridDefFile_error_causes
           (U := util.spec) (R := distro.no_registry)
           (J := filepath.on_clean_operands)
           a a' d (example.cfg false) example.host e f Hrun).
Defined.

Lemma ldd_assemblers_error_causes_witness :
  let a := app.set_BinPath "/home/me/hello" (example.hello "") in
  let d := example.descriptor example.ubuntu "" container.BindModel in
  let full := {| os.create_error := None;
                 os.disk_fault := Some (3, "no space left on device") |} in
  let r := deffile.CreateBindDefFile (U := util.spec)
             (R := distro.no_registry) (L := example.debian_loader)
             a d (example.cfg false) full example.working_ldd in
  exists e, r.1.1 = Err e /\ assembly_cause d no_ldd_module (cause e).
Proof.
  intros a d full r.
  destruct r as [[o a'] f] eqn:Hrun.
  destruct o as [[] | e |]; [vm_compute in Hrun; discriminate | |
                             vm_compute in Hrun; discriminate].
  exists e. split; [done |].
  exact (ldd_assemblers_error_causes
           (U := util.spec) (R := distro.no_registry)
           (L := example.debian_loader)
           a a' d (example.cfg false) full example.working_ldd e f
           (or_introl Hrun)).
Defined.
